(** * A4 poster tiling: the fitting and slicing scripts, embedded and verified

    The repository holds three Python scripts built on Pillow:
    - [tile_to_A4_2x2.py]: [a4_pixels], [resize_to_poster], the two save
      functions and [main];
    - [2x2.py] and [2x1.py]: two fixed-grid [split_image_to_a4] scripts.

    Python integers are [Z].  Python floats are IEEE-754 binary64 values,
    taken from the standard library's [SpecFloat] with [prec = 53] and
    [emax = 1024]; every float operation of the scripts is evaluated with
    its rounding.

    A Pillow image is a record of its size, its colour mode and a pixel
    map.  The calls the scripts make are recorded in a trace, and a call
    that is refused ends the run with the exception it raises.  A call is
    refused for one of two reasons:
    - a check of Pillow, of [struct] or of reportlab on its arguments: a
      size below 1, a box with its edges in the wrong order, a size or a
      coordinate outside a C [int], a crop of more than twice
      [MAX_IMAGE_PIXELS], a colour mode JPEG cannot store, a resolution
      that does not fit the PNG header, a PDF placement that is no finite
      number;
    - the memory Pillow cannot get for the image that [resize], [crop] or
      [Image.new] creates: this depends on the machine, so it is a
      parameter, the [Allocator] that each of these calls asks.

    Outside the model: opening and decoding the input file; the file
    system, which is taken to accept every write; and the memory for a
    copy or a conversion of an image that is already held and for the PDF
    page of a tile, which is taken to be there. *)

From Stdlib Require Import ZArith List String Bool Lia DecimalString.
From Stdlib Require Import Floats.SpecFloat.
From Stdlib Require Import Reals Lra.
Import ListNotations.

Local Open Scope string_scope.
Local Open Scope list_scope.
Local Open Scope Z_scope.

(** ** Exceptions and results *)

Inductive exn : Type :=
| ValueError (msg : string)
| ZeroDivisionError
| OverflowError
| MemoryError
| DecompressionBombError
| OSError (msg : string)
| SystemError (msg : string)
| StructError (msg : string).

Inductive result (A : Type) : Type :=
| Ok (a : A)
| Raise (e : exn).

Arguments Ok {A} a.
Arguments Raise {A} e.

(** ** Python floats *)

Module PyFloat.

Definition prec : Z := 53.
Definition emax : Z := 1024.

Definition float : Type := spec_float.

(** An integer as an exact mantissa with exponent 0. *)
Definition exact_int (z : Z) : float :=
  match z with
  | Z0 => S754_zero false
  | Zpos p => S754_finite false p 0
  | Zneg p => S754_finite true p 0
  end.

(** [a / b] on two ints: the correctly rounded quotient of the integers;
    [ZeroDivisionError] for [b = 0], [OverflowError] when the quotient is
    beyond the floats. *)
Definition int_truediv (a b : Z) : result float :=
  if b =? 0 then Raise ZeroDivisionError
  else match SFdiv prec emax (exact_int a) (exact_int b) with
       | S754_infinity _ => Raise OverflowError
       | f => Ok f
       end.

(** [float(z)]: the nearest float, ties to even. *)
Definition of_int (z : Z) : result float :=
  match binary_normalize prec emax z 0 false with
  | S754_infinity _ => Raise OverflowError
  | f => Ok f
  end.

(** [x / y] on two floats. *)
Definition truediv (x y : float) : result float :=
  match y with
  | S754_zero _ => Raise ZeroDivisionError
  | _ => Ok (SFdiv prec emax x y)
  end.

Definition mul (x y : float) : float := SFmul prec emax x y.

(** [z * x] and [x * z] with an int [z]: the int is converted first. *)
Definition int_mul (z : Z) (x : float) : result float :=
  match of_int z with
  | Ok fz => Ok (mul fz x)
  | Raise e => Raise e
  end.

Definition mul_int (x : float) (z : Z) : result float :=
  match of_int z with
  | Ok fz => Ok (mul x fz)
  | Raise e => Raise e
  end.

(** [max(a, b)] and [min(a, b)]: the first argument is kept unless the
    second is strictly greater (smaller). *)
Definition max (a b : float) : float :=
  if SFltb a b then b else a.

Definition min (a b : float) : float :=
  if SFltb b a then b else a.

(** Nearest integer of [m * 2^e], ties to the even integer. *)
Definition round_half_even (m : positive) (e : Z) : Z :=
  match e with
  | Z0 => Zpos m
  | Zpos _ => Zpos m * 2 ^ e
  | Zneg k =>
      let d := 2 ^ Zpos k in
      let q := Zpos m / d in
      let r := Zpos m mod d in
      match (2 * r ?= d) with
      | Lt => q
      | Gt => q + 1
      | Eq => if Z.even q then q else q + 1
      end
  end.

(** [round(x)] with one argument: an int, ties to even; it raises on an
    infinity or a NaN. *)
Definition round (x : float) : result Z :=
  match x with
  | S754_zero _ => Ok 0
  | S754_finite false m e => Ok (round_half_even m e)
  | S754_finite true m e => Ok (- round_half_even m e)
  | S754_infinity _ => Raise OverflowError
  | S754_nan => Raise (ValueError "cannot convert float NaN to integer")
  end.

(** [int(x)]: the integer part, towards zero; it raises on an infinity or
    a NaN. *)
Definition to_int (x : float) : result Z :=
  match x with
  | S754_zero _ => Ok 0
  | S754_finite s m e =>
      let a := match e with
               | Zneg k => Zpos m / 2 ^ Zpos k
               | _ => Zpos m * 2 ^ e
               end in
      Ok (if s then - a else a)
  | S754_infinity _ => Raise OverflowError
  | S754_nan => Raise (ValueError "cannot convert float NaN to integer")
  end.

(** The literals of the scripts.  [25.4] is not a binary fraction: the
    literal denotes the nearest float. *)
Definition lit_210 : float := S754_finite false 7388718138654720 (-45).
Definition lit_297 : float := S754_finite false 5224879255191552 (-44).
Definition lit_25_4 : float := S754_finite false 7149464408450662 (-48).

End PyFloat.

(** ** Pillow images

    The colour modes are those of the files the scripts are given: ["1"],
    ["L"], ["LA"], ["P"], ["RGB"], ["RGBA"] and ["CMYK"]; Pillow's 16 and
    32 bit modes are outside this model.  A pixel is a colour, or the value
    [resize] computes at one output position from a source, or the value
    [convert] gives a pixel in another mode; the arithmetic of the filters
    and of the conversions is left uninterpreted, so such a pixel records
    where it comes from. *)

Inductive colour : Type :=
| Bilevel | Grey | GreyAlpha | Palette | RGB | RGBA | CMYK.

(** [im.mode] *)
Definition mode_name (m : colour) : string :=
  match m with
  | Bilevel => "1"
  | Grey => "L"
  | GreyAlpha => "LA"
  | Palette => "P"
  | RGB => "RGB"
  | RGBA => "RGBA"
  | CMYK => "CMYK"
  end.

(** [m in names] *)
Definition mode_in (m : colour) (names : list string) : bool :=
  existsb (String.eqb (mode_name m)) names.

Inductive resampling : Type := NEAREST | BILINEAR | BICUBIC | LANCZOS.

Inductive pixel : Type :=
| Color (r g b : Z)
| Resampled (f : resampling) (m : colour) (src_w src_h : Z)
            (src : Z -> Z -> pixel) (new_w new_h : Z) (x y : Z)
| Converted (from to : colour) (p : pixel).

Record Image : Type := mkImage {
  width : Z;
  height : Z;
  pix : Z -> Z -> pixel;
  im_mode : colour
}.

Definition size (im : Image) : Z * Z := (width im, height im).

Definition in_bounds (im : Image) (x y : Z) : bool :=
  (0 <=? x) && (x <? width im) && (0 <=? y) && (y <? height im).

(** [im.getpixel((x, y))], [None] outside the image. *)
Definition getpixel (im : Image) (x y : Z) : option pixel :=
  if in_bounds im x y then Some (pix im x y) else None.

Definition box : Type := (Z * Z * Z * Z)%type.


Definition white : pixel := Color 255 255 255.
Definition black : pixel := Color 0 0 0.

(** ** Calls and their trace

    An event is a call that was made ([Resize], [Crop], [New], [Paste]:
    recorded when the call starts, also when Pillow then refuses it) or a
    file that was written ([Save], [DrawImage] for the one-page PDF,
    [WriteText]: recorded only when the write succeeds). *)

Inductive event : Type :=
| Resize (sz : Z * Z) (f : resampling)
| Crop (b : box)
| New (sz : Z * Z) (fill : pixel)
| Paste (offset : Z * Z)
| Save (dir name format : string) (im : Image)
| DrawImage (name : string) (x y w h : PyFloat.float)
| WriteText (dir name : string).

Definition M (A : Type) : Type := list event -> list event * result A.

Definition ret {A} (a : A) : M A := fun tr => (tr, Ok a).

Definition raise {A} (e : exn) : M A := fun tr => (tr, Raise e).

Definition bind {A B} (m : M A) (k : A -> M B) : M B :=
  fun tr =>
    match m tr with
    | (tr', Ok a) => k a tr'
    | (tr', Raise e) => (tr', Raise e)
    end.

Definition emit (e : event) : M unit := fun tr => (tr ++ [e], Ok tt).

Definition lift {A} (r : result A) : M A := fun tr => (tr, r).

Definition run {A} (m : M A) : list event * result A := m [].

Notation "x <- m ;; k" := (bind m (fun x => k))
  (at level 61, m at next level, right associativity).
Notation "m ;;; k" := (bind m (fun _ => k))
  (at level 61, right associativity).

(** [for x in xs: s = body(s, x)] *)
Fixpoint for_fold {A S} (xs : list A) (s : S) (body : S -> A -> M S) : M S :=
  match xs with
  | [] => ret s
  | x :: xs' => s' <- body s x ;; for_fold xs' s' body
  end.

Definition range (n : nat) : list Z := map Z.of_nat (seq 0 n).

(** ** What Pillow checks and what the machine allows *)

(** Whether Pillow gets the memory for a new image of a width and a height.
    [generous] never refuses. *)
Definition Allocator : Type := Z -> Z -> bool.

Definition generous : Allocator := fun _ _ => true.

(** An argument that the C side reads as an [int]. *)
Definition c_int (z : Z) : bool := (- 2 ^ 31 <=? z) && (z <? 2 ^ 31).

(** [Image.MAX_IMAGE_PIXELS = int(1024 * 1024 * 1024 // 4 // 3)]; [crop]
    refuses a box of more than twice as many pixels. *)
Definition MAX_IMAGE_PIXELS : Z := 1024 * 1024 * 1024 / 4 / 3.

Definition bomb (w h : Z) : bool :=
  2 * MAX_IMAGE_PIXELS <? Z.max 1 w * Z.max 1 h.

(** The images the Pillow calls build. *)

(** [im.size == size]; the sides of an image are never negative. *)
Definition same_size (im : Image) (w h : Z) : bool :=
  (0 <=? w) && (0 <=? h) && (w =? width im) && (h =? height im).

(** [resize] falls back to [NEAREST] on the modes ["1"] and ["P"]. *)
Definition filter_used (m : colour) (f : resampling) : resampling :=
  if mode_in m ["1"; "P"] then NEAREST else f.

(** A resize to the size the image has is a copy. *)
Definition resized (im : Image) (w h : Z) (f : resampling) : Image :=
  if same_size im w h then im
  else mkImage w h
         (Resampled (filter_used (im_mode im) f) (im_mode im)
            (width im) (height im) (pix im) w h)
         (im_mode im).

Definition cropped (im : Image) (b : box) : Image :=
  let '(l, u, r, lo) := b in
  mkImage (r - l) (lo - u)
    (fun x y => if in_bounds im (x + l) (y + u)
                then pix im (x + l) (y + u) else black)
    (im_mode im).

Definition blank (w h : Z) (fill : pixel) : Image :=
  mkImage w h (fun _ _ => fill) RGB.

(** [im.convert(m)] *)
Definition converted (im : Image) (m : colour) : Image :=
  mkImage (width im) (height im)
    (fun x y => Converted (im_mode im) m (pix im x y)) m.

(** A pixel of [im] as [paste] stores it in an image of mode [bg]: as it
    is when the modes agree, its value in the mode of [bg] otherwise (which
    is also what is left of an ["LA"] or ["RGBA"] pixel copied onto an
    ["RGB"] image). *)
Definition paste_pixel (bg im : colour) (p : pixel) : pixel :=
  if (mode_name bg =? mode_name im)%string then p else Converted im bg p.

Definition pasted (bg im : Image) (left top : Z) : Image :=
  mkImage (width bg) (height bg)
    (fun x y => if in_bounds im (x - left) (y - top)
                then paste_pixel (im_mode bg) (im_mode im)
                       (pix im (x - left) (y - top))
                else pix bg x y)
    (im_mode bg).

(** [im.resize(size, f)]: a copy when the size is the image's own;
    otherwise the size is read as two C [int]s ([OverflowError]), a side
    below 1 is refused ([ValueError]), and the new image needs its
    memory. *)
Definition Image_resize (alloc : Allocator) (im : Image) (sz : Z * Z)
           (f : resampling) : M Image :=
  emit (Resize sz f) ;;;
  let '(w, h) := sz in
  if same_size im w h then ret (resized im w h f)
  else if negb (c_int w && c_int h) then raise OverflowError
  else if (w <? 1) || (h <? 1) then
    raise (ValueError "height and width must be > 0")
  else if alloc w h then ret (resized im w h f)
  else raise MemoryError.

(** [im.crop(box)]: Pillow refuses a box whose right or lower edge is
    before its left or upper edge, then a box of more than twice
    [MAX_IMAGE_PIXELS] pixels; the coordinates are read as C [int]s; the
    result has the size of the box, and what the box covers outside the
    image is black. *)
Definition Image_crop (alloc : Allocator) (im : Image) (b : box) : M Image :=
  emit (Crop b) ;;;
  let '(l, u, r, lo) := b in
  if r <? l then raise (ValueError "Coordinate 'right' is less than 'left'")
  else if lo <? u then raise (ValueError "Coordinate 'lower' is less than 'upper'")
  else if bomb (r - l) (lo - u) then raise DecompressionBombError
  else if negb (c_int l && c_int u && c_int r && c_int lo) then raise OverflowError
  else if alloc (r - l) (lo - u) then ret (cropped im b)
  else raise MemoryError.

(** [Image.new("RGB", size, fill)] *)
Definition Image_new (alloc : Allocator) (sz : Z * Z) (fill : pixel) : M Image :=
  emit (New sz fill) ;;;
  let '(w, h) := sz in
  if (w <? 0) || (h <? 0) then
    raise (ValueError "Width and height must be >= 0")
  else if negb (c_int w && c_int h) then raise OverflowError
  else if alloc w h then ret (blank w h fill)
  else raise MemoryError.

(** [bg.paste(im, (left, top))] changes [bg] in place; the changed image
    is returned here.  The box [(left, top, left + im.width,
    top + im.height)] is read as C [int]s. *)
Definition Image_paste (bg im : Image) (offset : Z * Z) : M Image :=
  emit (Paste offset) ;;;
  if negb (c_int (fst offset) && c_int (snd offset)
           && c_int (fst offset + width im) && c_int (snd offset + height im))
  then raise OverflowError
  else ret (pasted bg im (fst offset) (snd offset)).

(** [im.save(path, format)] for the two formats the scripts write.  JPEG
    stores the modes of [jpeg_modes] and sides up to 65500; neither format
    stores an empty image.  The file is there only when the call
    succeeds. *)
Definition jpeg_modes : list string :=
  ["1"; "L"; "RGB"; "RGBX"; "CMYK"; "YCbCr"].

Definition Image_save (im : Image) (dir name format : string) : M unit :=
  if (format =? "JPEG")%string then
    if (width im =? 0) || (height im =? 0) then
      raise (ValueError "cannot write empty image as JPEG")
    else if negb (mode_in (im_mode im) jpeg_modes) then
      raise (OSError ("cannot write mode " ++ mode_name (im_mode im) ++ " as JPEG"))
    else if (65500 <? width im) || (65500 <? height im) then
      raise (OSError "encoder error -2 when writing image file")
    else emit (Save dir name format im)
  else
    if (width im <=? 0) || (height im <=? 0) then
      raise (SystemError "tile cannot extend outside image")
    else emit (Save dir name format im).

(** ** tile_to_A4_2x2.py

    [A4_MM], [mm_to_inches] and [a4_pixels] are lines 28-37 of the script,
    [resize_to_poster] lines 39-67, the two save functions lines 69-109 and
    [main] lines 111-177. *)

Definition A4_MM : PyFloat.float * PyFloat.float :=
  (PyFloat.lit_210, PyFloat.lit_297).

Definition mm_to_inches (mm_value : PyFloat.float) : result PyFloat.float :=
  PyFloat.truediv mm_value PyFloat.lit_25_4.

Definition rbind {A B} (r : result A) (k : A -> result B) : result B :=
  match r with Ok a => k a | Raise e => Raise e end.

Definition a4_pixels (dpi : Z) : result (Z * Z) :=
  rbind (mm_to_inches (fst A4_MM)) (fun w_in =>
  rbind (mm_to_inches (snd A4_MM)) (fun h_in =>
  rbind (rbind (PyFloat.mul_int w_in dpi) PyFloat.round) (fun w_px =>
  rbind (rbind (PyFloat.mul_int h_in dpi) PyFloat.round) (fun h_px =>
  Ok (w_px, h_px))))).

(** [int(round(n * scale))] *)
Definition scaled (n : Z) (scale : PyFloat.float) : result Z :=
  rbind (PyFloat.int_mul n scale) PyFloat.round.

(** The scale of each policy and the size the source is resized to. *)
Definition cover_scale (img : Image) (tw th : Z) : result PyFloat.float :=
  rbind (PyFloat.int_truediv tw (width img)) (fun sx =>
  rbind (PyFloat.int_truediv th (height img)) (fun sy =>
  Ok (PyFloat.max sx sy))).

Definition contain_scale (img : Image) (tw th : Z) : result PyFloat.float :=
  rbind (PyFloat.int_truediv tw (width img)) (fun sx =>
  rbind (PyFloat.int_truediv th (height img)) (fun sy =>
  Ok (PyFloat.min sx sy))).

Definition scaled_size (img : Image) (scale : PyFloat.float) : result (Z * Z) :=
  rbind (scaled (width img) scale) (fun new_w =>
  rbind (scaled (height img) scale) (fun new_h =>
  Ok (new_w, new_h))).

Definition resize_to_poster (alloc : Allocator) (img : Image)
           (target_size : Z * Z) (mode : string) : M Image :=
  let '(tw, th) := target_size in
  if (mode =? "cover")%string then
    scale <- lift (cover_scale img tw th) ;;
    nsz <- lift (scaled_size img scale) ;;
    let '(new_w, new_h) := nsz in
    img_resized <- Image_resize alloc img (new_w, new_h) LANCZOS ;;
    let left := (new_w - tw) / 2 in
    let top := (new_h - th) / 2 in
    Image_crop alloc img_resized (left, top, left + tw, top + th)
  else if (mode =? "contain")%string then
    scale <- lift (contain_scale img tw th) ;;
    nsz <- lift (scaled_size img scale) ;;
    let '(new_w, new_h) := nsz in
    img_resized <- Image_resize alloc img (new_w, new_h) LANCZOS ;;
    bg <- Image_new alloc (tw, th) white ;;
    let left := (tw - new_w) / 2 in
    let top := (th - new_h) / 2 in
    Image_paste bg img_resized (left, top)
  else
    raise (ValueError "mode must be 'cover' or 'contain'").

(** The constants of reportlab used by [save_tile_pdf]: [inch = 72.0],
    [cm = inch / 2.54], [mm = cm * 0.1] and [A4 = (210*mm, 297*mm)]. *)
Module Reportlab.
Import PyFloat.

Definition inch : float := S754_finite false 5066549580791808 (-46).
Definition lit_2_54 : float := S754_finite false 5719571526760530 (-51).
Definition lit_0_1 : float := S754_finite false 7205759403792794 (-56).
Definition cm : float := Eval vm_compute in SFdiv prec emax inch lit_2_54.
Definition mm : float := Eval vm_compute in SFmul prec emax cm lit_0_1.
Definition A4 : float * float :=
  Eval vm_compute in
    (SFmul prec emax (binary_normalize prec emax 210 0 false) mm,
     SFmul prec emax (binary_normalize prec emax 297 0 false) mm).

End Reportlab.

(** [if tile.mode != "RGB": tile = tile.convert("RGB")] *)
Definition as_rgb (tile : Image) : Image :=
  if negb (mode_name (im_mode tile) =? "RGB")%string then converted tile RGB
  else tile.

Definition fsub (x y : PyFloat.float) : PyFloat.float :=
  SFsub PyFloat.prec PyFloat.emax x y.
Definition fadd (x y : PyFloat.float) : PyFloat.float :=
  SFadd PyFloat.prec PyFloat.emax x y.

(** The resolution Pillow writes into a PNG file saved with
    [dpi=(dpi, dpi)]: [int(dpi / 0.0254 + 0.5)] pixels per metre, packed as
    an unsigned 32-bit int, which [struct] refuses outside its range. *)
Definition lit_0_0254 : PyFloat.float := S754_finite false 7321051554253478 (-58).
Definition lit_0_5 : PyFloat.float := S754_finite false 4503599627370496 (-53).

Definition png_pixels_per_metre (dpi : Z) : result Z :=
  rbind (PyFloat.of_int dpi) (fun d =>
  rbind (PyFloat.truediv d lit_0_0254) (fun q =>
  PyFloat.to_int (fadd q lit_0_5))).

Definition Image_save_png_dpi (im : Image) (dir name : string) (dpi : Z) : M unit :=
  ppm <- lift (png_pixels_per_metre dpi) ;;
  if (ppm <? 0) || (2 ^ 32 <=? ppm) then
    raise (StructError "'I' format requires 0 <= number <= 4294967295")
  else Image_save im dir name "PNG".

(** [save_tile_png]: the tile in RGB, saved as PNG with the DPI tag. *)
Definition save_tile_png (tile : Image) (dir name : string) (dpi : Z) : M unit :=
  Image_save_png_dpi (as_rgb tile) dir name dpi.

Definition fhalf (x : PyFloat.float) : result PyFloat.float :=
  rbind (PyFloat.of_int 2) (PyFloat.truediv x).

Definition finite (x : PyFloat.float) : bool :=
  match x with
  | S754_zero _ | S754_finite _ _ _ => true
  | _ => false
  end.

(** [c.drawImage(...); c.showPage(); c.save()]: reportlab formats the
    numbers of the placement into the page and fails on a NaN or an
    infinity (with [ValueError] or [OverflowError], by the number it meets
    first; the model keeps one exception for both).  The PDF file is there
    only when the call succeeds. *)
Definition Canvas_drawImage (name : string) (x y w h : PyFloat.float) : M unit :=
  if finite x && finite y && finite w && finite h then
    emit (DrawImage name x y w h)
  else raise (ValueError "cannot convert float NaN to integer").

(** Lines 84 to 104 of [save_tile_pdf]: where the image goes on the page,
    [(render_x, render_y, render_w, render_h)]. *)
Definition pdf_placement (tile_w tile_h : Z) (margin_mm : PyFloat.float)
  : result (PyFloat.float * PyFloat.float * PyFloat.float * PyFloat.float) :=
  let '(page_w, page_h) := Reportlab.A4 in
  let margin_pt := PyFloat.mul margin_mm Reportlab.mm in
  let draw_x := margin_pt in
  let draw_y := margin_pt in
  rbind (PyFloat.int_mul 2 margin_pt) (fun m2 =>
  let draw_w := fsub page_w m2 in
  let draw_h := fsub page_h m2 in
  rbind (PyFloat.int_truediv tile_w tile_h) (fun tile_ar =>
  rbind (PyFloat.truediv draw_w draw_h) (fun page_ar =>
  if SFltb page_ar tile_ar then
    let render_w := draw_w in
    rbind (PyFloat.truediv draw_w tile_ar) (fun render_h =>
    let render_x := draw_x in
    rbind (fhalf (fsub draw_h render_h)) (fun dy =>
    let render_y := fadd draw_y dy in
    Ok (render_x, render_y, render_w, render_h)))
  else
    let render_h := draw_h in
    let render_w := PyFloat.mul draw_h tile_ar in
    rbind (fhalf (fsub draw_w render_w)) (fun dx =>
    let render_x := fadd draw_x dx in
    let render_y := draw_y in
    Ok (render_x, render_y, render_w, render_h))))).

(** One PDF page per tile: the placement is computed in floats and handed
    to reportlab's [drawImage]. *)
Definition save_tile_pdf (tile : Image) (dir name : string)
           (margin_mm : PyFloat.float) : M unit :=
  let tile := as_rgb tile in
  g <- lift (pdf_placement (width tile) (height tile) margin_mm) ;;
  let '(render_x, render_y, render_w, render_h) := g in
  Canvas_drawImage name render_x render_y render_w render_h.

Record Args : Type := mkArgs {
  input : string;
  outdir : string;
  prefix : string;
  dpi : Z;
  mode : string;
  margin_mm : PyFloat.float
}.

Definition str (z : Z) : string :=
  DecimalString.NilZero.string_of_int (Z.to_int z).

(** The slicing loop of [main]: row by row, each tile with its
    [(row, col)]. *)
Definition slice_2x2 (alloc : Allocator) (poster : Image) (a4_w_px a4_h_px : Z)
  : M (list ((Z * Z) * Image)) :=
  for_fold (range 2) [] (fun tiles row =>
    for_fold (range 2) tiles (fun tiles col =>
      let left := col * a4_w_px in
      let top := row * a4_h_px in
      let right := left + a4_w_px in
      let bottom := top + a4_h_px in
      tile <- Image_crop alloc poster (left, top, right, bottom) ;;
      ret (tiles ++ [((row, col), tile)]))).

Definition tile_name (args : Args) (row col : Z) (ext : string) : string :=
  prefix args ++ "_r" ++ str (row + 1) ++ "c" ++ str (col + 1) ++ ext.

(** Lines 133 and 134 of [main]:
    [if img.mode not in ("RGB", "RGBA"): img = img.convert("RGB")] *)
Definition rgb_or_rgba (img : Image) : Image :=
  if negb (mode_in (im_mode img) ["RGB"; "RGBA"]) then converted img RGB
  else img.

(** [main] from the opened image on; the output directory and the
    console are not modelled. *)
Definition main (alloc : Allocator) (img : Image) (args : Args)
  : M (list ((Z * Z) * Image)) :=
  a4 <- lift (a4_pixels (dpi args)) ;;
  let a4_w_px := fst a4 in
  let a4_h_px := snd a4 in
  let poster_w_px := a4_w_px * 2 in
  let poster_h_px := a4_h_px * 2 in
  let img := rgb_or_rgba img in
  poster <- resize_to_poster alloc img (poster_w_px, poster_h_px) (mode args) ;;
  tiles <- slice_2x2 alloc poster a4_w_px a4_h_px ;;
  for_fold tiles tt (fun _ t =>
    let '((row, col), tile) := t in
    save_tile_png tile (outdir args) (tile_name args row col ".png") (dpi args) ;;;
    save_tile_pdf tile (outdir args) (tile_name args row col ".pdf")
                  (margin_mm args)) ;;;
  emit (WriteText (outdir args) "README.txt") ;;;
  ret tiles.

(** ** 2x2.py

    [split_image_to_a4] from the opened image on; the script calls it with
    [landscape=True]. *)

Module Script2x2.

Definition a4_cell (landscape : bool) : Z * Z :=
  if landscape then (3508, 2480) else (2480, 3508).

(** The splitting loop: [i] runs over the columns, [j] over the rows. *)
Definition split_loop (alloc : Allocator) (img : Image) (a4_width a4_height : Z)
           (output_prefix : string) : M unit :=
  for_fold (range 2) tt (fun _ i =>
    for_fold (range 2) tt (fun _ j =>
      let left := i * a4_width in
      let upper := j * a4_height in
      let right := left + a4_width in
      let lower := upper + a4_height in
      crop <- Image_crop alloc img (left, upper, right, lower) ;;
      Image_save crop ""
        (output_prefix ++ "_" ++ str (j + 1) ++ str (i + 1) ++ ".jpg") "JPEG")).

Definition split_image_to_a4 (alloc : Allocator) (img : Image)
           (output_prefix : string) (landscape : bool) : M unit :=
  let '(a4_width, a4_height) := a4_cell landscape in
  let new_width := a4_width * 2 in
  let new_height := a4_height * 2 in
  img' <- Image_resize alloc img (new_width, new_height) LANCZOS ;;
  split_loop alloc img' a4_width a4_height output_prefix.

End Script2x2.

(** ** 2x1.py

    The same function for the stacked 1 x 2 grid. *)

Module Script2x1.

Definition a4_cell (landscape : bool) : Z * Z :=
  if landscape then (3508, 2480) else (2480, 3508).

Definition split_image_to_a4 (alloc : Allocator) (img : Image)
           (output_prefix : string) (landscape : bool) : M unit :=
  let '(a4_width, a4_height) := a4_cell landscape in
  let new_width := a4_width * 1 in
  let new_height := a4_height * 2 in
  img' <- Image_resize alloc img (new_width, new_height) LANCZOS ;;
  for_fold (range 2) tt (fun _ i =>
    let left := 0 in
    let upper := i * a4_height in
    let right := a4_width in
    let lower := upper + a4_height in
    crop <- Image_crop alloc img' (left, upper, right, lower) ;;
    Image_save crop "" (output_prefix ++ "_" ++ str (i + 1) ++ ".jpg") "JPEG").

End Script2x1.

(** ** Vocabulary of the properties *)

(** The error the spec calls [InvalidPolicy]. *)
Definition InvalidPolicy : exn := ValueError "mode must be 'cover' or 'contain'".

(** The exception a result carries, and computations that never raise a
    given one. *)
Definition raised {A} (r : result A) : option exn :=
  match r with Ok _ => None | Raise e => Some e end.

Definition rnever {A} (e : exn) (r : result A) : Prop := raised r <> Some e.

Definition never {A} (e : exn) (m : M A) : Prop :=
  forall tr, rnever e (snd (m tr)).

(** The real number a float stands for. *)
Definition bpow (e : Z) : R := powerRZ 2 e.
Definition F2R (m e : Z) : R := (IZR m * bpow e)%R.
Definition B2R (f : PyFloat.float) : R :=
  match f with
  | S754_finite s m e => F2R (cond_Zopp s (Zpos m)) e
  | _ => 0%R
  end.

(** [2^-52], and two positive reals within that relative distance. *)
Definition u52 : R := (/ 4503599627370496)%R.
Definition close (X V : R) : Prop :=
  (X <= V * (1 + u52) /\ V <= X * (1 + u52))%R.

(** A positive float with a full 53-bit mantissa. *)
Definition normal_pos (f : PyFloat.float) (elo ehi : Z) : Prop :=
  exists m e, f = S754_finite false m e
              /\ 2 ^ 52 <= Zpos m < 2 ^ 53 /\ elo <= e <= ehi.

(** The mantissa truncated to 53 bits. *)
Definition trunc53 (mx : Z) : Z := mx / 2 ^ (Zdigits2 mx - 53).

(** Floats that are zero or negative, and floats that are zero or finite. *)
Definition nonpos_shape (f : PyFloat.float) : Prop :=
  match f with
  | S754_zero _ => True
  | S754_finite true _ _ => True
  | _ => False
  end.

Definition finite_shape (f : PyFloat.float) : Prop :=
  match f with
  | S754_zero _ | S754_finite _ _ _ => True
  | _ => False
  end.

Definition cover_size (img : Image) (tw th : Z) : result (Z * Z) :=
  rbind (cover_scale img tw th) (scaled_size img).

Definition contain_size (img : Image) (tw th : Z) : result (Z * Z) :=
  rbind (contain_scale img tw th) (scaled_size img).

Definition cover_box (new_w new_h tw th : Z) : box :=
  ((new_w - tw) / 2, (new_h - th) / 2,
   (new_w - tw) / 2 + tw, (new_h - th) / 2 + th).

Definition contain_offset (new_w new_h tw th : Z) : Z * Z :=
  ((tw - new_w) / 2, (th - new_h) / 2).

Definition tile_box (cell_w cell_h : Z) (rc : Z * Z) : box :=
  (snd rc * cell_w, fst rc * cell_h,
   snd rc * cell_w + cell_w, fst rc * cell_h + cell_h).


(** The tiles a trace saves, each with the box it was cropped at. *)
Fixpoint crop_saves (tr : list event) : list (box * Image) :=
  match tr with
  | [] => []
  | Crop b :: tr' =>
      match tr' with
      | Save _ _ _ im :: _ => (b, im) :: crop_saves tr'
      | _ => crop_saves tr'
      end
  | _ :: tr' => crop_saves tr'
  end.

(** Pasting every tile back at the corner of its box. *)
Definition reassemble (canvas : Image) (tiles : list (box * Image)) : M Image :=
  for_fold tiles canvas (fun bg t =>
    let '(l, u, _, _) := fst t in Image_paste bg (snd t) (l, u)).

Definition lossless (poster canvas : Image) (tiles : list (box * Image)) : Prop :=
  exists re,
    snd (run (reassemble canvas tiles)) = Ok re
    /\ size re = size poster
    /\ forall x y, getpixel re x y = getpixel poster x y.


(** The PNG files a trace writes, each with the size of its image. *)
Definition png_tiles (tr : list event) : list (string * (Z * Z)) :=
  flat_map (fun e =>
    match e with
    | Save _ name format im =>
        if (format =? "PNG")%string then [(name, size im)] else []
    | _ => []
    end) tr.

(** Whether the DPI tag of a PNG file can be written. *)
Definition png_tag_ok (dpi : Z) : bool :=
  match png_pixels_per_metre dpi with
  | Ok ppm => (0 <=? ppm) && (ppm <? 2 ^ 32)
  | Raise _ => false
  end.

(** The float [148.5]. *)
Definition margin_148_5 : PyFloat.float := S754_finite false 5224879255191552 (-45).

(** The numbers [save_tile_pdf] hands to [drawImage] for a tile of a size
    and a margin, when reportlab takes them. *)
Definition pdf_page (tile_w tile_h : Z) (margin : PyFloat.float)
  : result (PyFloat.float * PyFloat.float * PyFloat.float * PyFloat.float) :=
  match pdf_placement tile_w tile_h margin with
  | Ok (x, y, w, h) =>
      if finite x && finite y && finite w && finite h then Ok (x, y, w, h)
      else Raise (ValueError "cannot convert float NaN to integer")
  | Raise e => Raise e
  end.

(** The tiles of a poster and the files [main] writes for them. *)
Definition grid : list (Z * Z) := [(0, 0); (0, 1); (1, 0); (1, 1)].

Definition tiles_of (poster : Image) (W H : Z) : list ((Z * Z) * Image) :=
  map (fun rc => (rc, cropped poster (tile_box W H rc))) grid.

Definition tile_files (args : Args) (poster : Image) (W H : Z)
           (g : PyFloat.float * PyFloat.float * PyFloat.float * PyFloat.float)
           (rc : Z * Z) : list event :=
  let '(x, y, w, h) := g in
  [Save (outdir args) (tile_name args (fst rc) (snd rc) ".png") "PNG"
     (as_rgb (cropped poster (tile_box W H rc)));
   DrawImage (tile_name args (fst rc) (snd rc) ".pdf") x y w h].

(** The command line [input.jpg --dpi 300 --mode cover --margin-mm m],
    with the defaults for the rest. *)
Definition cover_300 (margin : PyFloat.float) : Args :=
  mkArgs "input.jpg" "./tiles" "tile" 300 "cover" margin.

(** The four PNG files of a run at 300 dpi, in the order they are written. *)
Definition four_png (args : Args) : list (string * (Z * Z)) :=
  [(tile_name args 0 0 ".png", (2480, 3508));
   (tile_name args 0 1 ".png", (2480, 3508));
   (tile_name args 1 0 ".png", (2480, 3508));
   (tile_name args 1 1 ".png", (2480, 3508))].

(** A computation that only adds events of one kind to the trace, whether
    it returns or raises. *)
Definition adds {A} (P : event -> Prop) (m : M A) : Prop :=
  forall tr, exists tr', fst (m tr) = tr ++ tr' /\ Forall P tr'.

Definition crop_or_save (e : event) : Prop :=
  match e with
  | Crop _ | Save _ _ _ _ => True
  | _ => False
  end.

(** [draw_h] of [save_tile_pdf]: the page height left between the
    margins. *)
Definition pdf_draw_h (margin_mm : PyFloat.float) : result PyFloat.float :=
  rbind (PyFloat.int_mul 2 (PyFloat.mul margin_mm Reportlab.mm)) (fun m2 =>
  Ok (fsub (snd Reportlab.A4) m2)).

Definition is_zero (f : PyFloat.float) : bool :=
  match f with S754_zero _ => true | _ => false end.

(** The names of the files a trace writes, in order. *)
Definition files_written (tr : list event) : list string :=
  flat_map (fun e =>
    match e with
    | Save _ name _ _ => [name]
    | DrawImage name _ _ _ _ => [name]
    | WriteText _ name => [name]
    | _ => []
    end) tr.

(** The calls that build images; they write no file. *)
Definition is_call (e : event) : Prop :=
  match e with
  | Resize _ _ | Crop _ | New _ _ | Paste _ => True
  | _ => False
  end.

(** The size a policy resizes the source to. *)
Definition poster_size (img : Image) (tw th : Z) (mode : string) : result (Z * Z) :=
  if (mode =? "cover")%string then cover_size img tw th
  else contain_size img tw th.

(** The resolutions at which a tile is within the limit of [crop]. *)
Definition tile_dpis : list Z := map Z.of_nat (seq 1 1426).

(** The nine files of a run of [main], in the order they are written. *)
Definition nine_files (args : Args) : list string :=
  [tile_name args 0 0 ".png"; tile_name args 0 0 ".pdf";
   tile_name args 0 1 ".png"; tile_name args 0 1 ".pdf";
   tile_name args 1 0 ".png"; tile_name args 1 0 ".pdf";
   tile_name args 1 1 ".png"; tile_name args 1 1 ".pdf";
   "README.txt"].

(** The calls and files of the loop of [2x2.py] on a poster, when nothing
    is refused: column by column. *)
Definition split_2x2_events (poster : Image) (cw ch : Z) (prefix : string)
  : list event :=
  flat_map (fun rc =>
      [Crop (tile_box cw ch rc);
       Save "" (prefix ++ "_" ++ str (fst rc + 1) ++ str (snd rc + 1) ++ ".jpg") "JPEG"
         (cropped poster (tile_box cw ch rc))])
    [(0, 0); (1, 0); (0, 1); (1, 1)].

(** The same for [2x1.py]: the upper tile, then the lower one. *)
Definition split_2x1_events (poster : Image) (cw ch : Z) (prefix : string)
  : list event :=
  [Crop (0, 0, cw, ch);
   Save "" (prefix ++ "_1.jpg") "JPEG" (cropped poster (0, 0, cw, ch));
   Crop (0, ch, cw, ch + ch);
   Save "" (prefix ++ "_2.jpg") "JPEG" (cropped poster (0, ch, cw, ch + ch))].

(** ** Comparisons decided by arithmetic *)

Lemma ltb_false a b : b <= a -> (a <? b) = false.
Proof. intros; apply Z.ltb_ge; assumption. Qed.
Lemma ltb_true a b : a < b -> (a <? b) = true.
Proof. intros; apply Z.ltb_lt; assumption. Qed.
Lemma leb_false a b : b < a -> (a <=? b) = false.
Proof. intros; apply Z.leb_gt; assumption. Qed.
Lemma leb_true a b : a <= b -> (a <=? b) = true.
Proof. intros; apply Z.leb_le; assumption. Qed.

Ltac zbool :=
  repeat match goal with
  | |- context [?a <? ?b] =>
      first [rewrite (ltb_true a b) by lia | rewrite (ltb_false a b) by lia]
  | |- context [?a <=? ?b] =>
      first [rewrite (leb_true a b) by lia | rewrite (leb_false a b) by lia]
  end.

Lemma c_int_true (z : Z) : - 2 ^ 31 <= z < 2 ^ 31 -> c_int z = true.
Proof.
  intros H. unfold c_int.
  rewrite (leb_true (- 2 ^ 31) z), (ltb_true z (2 ^ 31)) by lia. reflexivity.
Qed.

Lemma c_int_false (z : Z) : z < - 2 ^ 31 \/ 2 ^ 31 <= z -> c_int z = false.
Proof.
  intros H. unfold c_int. apply andb_false_iff.
  destruct H; [left; apply Z.leb_gt|right; apply Z.ltb_ge]; lia.
Qed.

Lemma c_int_range (z : Z) : c_int z = true -> - 2 ^ 31 <= z < 2 ^ 31.
Proof.
  unfold c_int. intros H. apply andb_true_iff in H. destruct H as [H1 H2].
  apply Z.leb_le in H1. apply Z.ltb_lt in H2. lia.
Qed.

Lemma bomb_false (w h : Z) :
  Z.max 1 w * Z.max 1 h <= 178956970 -> bomb w h = false.
Proof. intros H. unfold bomb. apply Z.ltb_ge. exact H. Qed.

Lemma bomb_limit (w h : Z) :
  bomb w h = false -> Z.max 1 w * Z.max 1 h <= 178956970.
Proof. unfold bomb. intros H. apply Z.ltb_ge in H. exact H. Qed.

(** ** The Pillow calls when nothing is refused *)

Lemma resized_size (im : Image) (w h : Z) (f : resampling) :
  size (resized im w h f) = (w, h).
Proof.
  unfold resized, same_size.
  destruct ((0 <=? w) && (0 <=? h)); cbn [andb]; [|reflexivity].
  destruct (Z.eqb_spec w (width im)) as [-> | _]; cbn [andb]; [|reflexivity].
  destruct (Z.eqb_spec h (height im)) as [-> | _]; reflexivity.
Qed.

Lemma resized_mode (im : Image) (w h : Z) (f : resampling) :
  im_mode (resized im w h f) = im_mode im.
Proof. unfold resized. destruct (same_size im w h); reflexivity. Qed.

Lemma resize_run (alloc : Allocator) (im : Image) (w h : Z) (f : resampling)
      (tr : list event) :
  1 <= w < 2 ^ 31 -> 1 <= h < 2 ^ 31 -> alloc w h = true ->
  Image_resize alloc im (w, h) f tr
  = (tr ++ [Resize (w, h) f], Ok (resized im w h f)).
Proof.
  intros Hw Hh Ha. unfold Image_resize, bind, emit, ret, raise.
  destruct (same_size im w h); [reflexivity|].
  rewrite (c_int_true w), (c_int_true h) by lia. cbn [andb negb].
  rewrite (ltb_false w 1), (ltb_false h 1) by lia. cbn [orb].
  rewrite Ha. reflexivity.
Qed.

(** A side below 1 is refused, whatever the machine allows. *)
Lemma resize_refused (alloc : Allocator) (im : Image) (w h : Z) (f : resampling)
      (tr : list event) :
  0 < width im -> 0 < height im ->
  - 2 ^ 31 <= w < 2 ^ 31 -> - 2 ^ 31 <= h < 2 ^ 31 -> w < 1 \/ h < 1 ->
  Image_resize alloc im (w, h) f tr
  = (tr ++ [Resize (w, h) f], Raise (ValueError "height and width must be > 0")).
Proof.
  intros Iw Ih Hw Hh Hd. unfold Image_resize, bind, emit, ret, raise.
  assert (S : same_size im w h = false).
  { unfold same_size. destruct Hd.
    - destruct (Z.eqb_spec w (width im)); [lia|].
      rewrite andb_false_r. reflexivity.
    - destruct (Z.eqb_spec h (height im)); [lia|].
      rewrite andb_false_r. reflexivity. }
  rewrite S. rewrite (c_int_true w), (c_int_true h) by lia. cbn [andb negb].
  replace ((w <? 1) || (h <? 1)) with true; [reflexivity|].
  symmetry. apply orb_true_iff. destruct Hd; [left|right]; apply Z.ltb_lt; assumption.
Qed.

Lemma crop_run (alloc : Allocator) (im : Image) (l u r lo : Z) (tr : list event) :
  - 2 ^ 31 <= l -> l <= r -> r < 2 ^ 31 ->
  - 2 ^ 31 <= u -> u <= lo -> lo < 2 ^ 31 ->
  bomb (r - l) (lo - u) = false -> alloc (r - l) (lo - u) = true ->
  Image_crop alloc im (l, u, r, lo) tr
  = (tr ++ [Crop (l, u, r, lo)], Ok (cropped im (l, u, r, lo))).
Proof.
  intros H1 H2 H3 H4 H5 H6 Hb Ha. unfold Image_crop, bind, emit, ret, raise.
  rewrite (ltb_false r l), (ltb_false lo u) by lia.
  rewrite Hb.
  rewrite (c_int_true l), (c_int_true u), (c_int_true r), (c_int_true lo) by lia.
  cbn [andb negb]. rewrite Ha. reflexivity.
Qed.

Lemma new_run (alloc : Allocator) (w h : Z) (fill : pixel) (tr : list event) :
  0 <= w < 2 ^ 31 -> 0 <= h < 2 ^ 31 -> alloc w h = true ->
  Image_new alloc (w, h) fill tr = (tr ++ [New (w, h) fill], Ok (blank w h fill)).
Proof.
  intros Hw Hh Ha. unfold Image_new, bind, emit, ret, raise.
  rewrite (ltb_false w 0), (ltb_false h 0) by lia. cbn [orb].
  rewrite (c_int_true w), (c_int_true h) by lia. cbn [andb negb].
  rewrite Ha. reflexivity.
Qed.

Lemma paste_run (bg im : Image) (l t : Z) (tr : list event) :
  - 2 ^ 31 <= l -> l + width im < 2 ^ 31 -> 0 <= width im ->
  - 2 ^ 31 <= t -> t + height im < 2 ^ 31 -> 0 <= height im ->
  Image_paste bg im (l, t) tr = (tr ++ [Paste (l, t)], Ok (pasted bg im l t)).
Proof.
  intros H1 H2 H3 H4 H5 H6. unfold Image_paste, bind, emit, ret, raise.
  cbn [fst snd].
  rewrite (c_int_true l), (c_int_true t), (c_int_true (l + width im)),
    (c_int_true (t + height im)) by lia.
  reflexivity.
Qed.

(** ** Which exceptions a computation can raise *)

Lemma rnever_neq {A} e (r : result A) : rnever e r -> r <> Raise e.
Proof. intros H ->. apply H. reflexivity. Qed.

Lemma rnever_rbind {A B} e (r : result A) (k : A -> result B) :
  rnever e r -> (forall a, rnever e (k a)) -> rnever e (rbind r k).
Proof. intros Hr Hk. destruct r as [a|e']; simpl; [apply Hk | exact Hr]. Qed.

Lemma never_ret {A} e (a : A) : never e (ret a).
Proof. intros tr; discriminate. Qed.

Lemma never_emit e ev : never e (emit ev).
Proof. intros tr; discriminate. Qed.

Lemma never_raise {A} e e' : e' <> e -> never e (@raise A e').
Proof. intros Hne tr H. inversion H. contradiction. Qed.

Lemma never_lift {A} e (r : result A) : rnever e r -> never e (lift r).
Proof. intros Hr tr. exact Hr. Qed.

Lemma never_bind {A B} e (m : M A) (k : A -> M B) :
  never e m -> (forall a, never e (k a)) -> never e (bind m k).
Proof.
  intros Hm Hk tr. unfold bind. specialize (Hm tr).
  destruct (m tr) as [tr' [a|e']]; simpl in *; [apply Hk | exact Hm].
Qed.

Lemma int_truediv_never_policy a b : rnever InvalidPolicy (PyFloat.int_truediv a b).
Proof.
  unfold rnever, PyFloat.int_truediv.
  destruct (b =? 0); [discriminate|].
  destruct (SFdiv _ _ _ _); discriminate.
Qed.

Lemma round_never_policy x : rnever InvalidPolicy (PyFloat.round x).
Proof. unfold rnever; destruct x as [s|s| |[] m e]; discriminate. Qed.

Lemma scaled_never_policy n sc : rnever InvalidPolicy (scaled n sc).
Proof.
  unfold scaled. apply rnever_rbind; [|intro; apply round_never_policy].
  unfold rnever, PyFloat.int_mul, PyFloat.of_int.
  destruct (binary_normalize _ _ _ _ _); discriminate.
Qed.

Lemma scaled_size_never_policy img sc : rnever InvalidPolicy (scaled_size img sc).
Proof.
  unfold scaled_size.
  repeat (apply rnever_rbind; [apply scaled_never_policy|intro]).
  discriminate.
Qed.

Ltac never_cases :=
  repeat match goal with
  | |- never _ (if ?c then _ else _) => destruct c
  end;
  first [apply never_ret | apply never_emit | apply never_raise; discriminate].

Lemma resize_never_policy alloc im sz f :
  never InvalidPolicy (Image_resize alloc im sz f).
Proof.
  unfold Image_resize. apply never_bind; [apply never_emit|intros _].
  destruct sz as [w h]. never_cases.
Qed.

Lemma crop_never_policy alloc im b : never InvalidPolicy (Image_crop alloc im b).
Proof.
  unfold Image_crop. apply never_bind; [apply never_emit|intros _].
  destruct b as [[[l u] r] lo]. never_cases.
Qed.

Lemma new_never_policy alloc sz c : never InvalidPolicy (Image_new alloc sz c).
Proof.
  unfold Image_new. apply never_bind; [apply never_emit|intros _].
  destruct sz as [w h]. never_cases.
Qed.

Lemma paste_never_policy bg im off : never InvalidPolicy (Image_paste bg im off).
Proof.
  unfold Image_paste. apply never_bind; [apply never_emit|intros _].
  never_cases.
Qed.

(** ** Float arithmetic of the scripts

    The scale of a policy is a rounded quotient and each scaled side a
    rounded product; both stay within [2^-52] of the exact value, which is
    what the integer [round] needs. *)

Module FloatFacts.
Import PyFloat.

(** *** Binary digits *)

Lemma digits2_pos_bounds (m : positive) :
  2 ^ (Zpos (digits2_pos m) - 1) <= Zpos m < 2 ^ Zpos (digits2_pos m).
Proof.
  induction m as [p IH|p IH|]; cbn [digits2_pos].
  - rewrite Pos2Z.inj_succ.
    replace (Z.succ (Zpos (digits2_pos p)) - 1) with (Z.succ (Zpos (digits2_pos p) - 1)) by lia.
    rewrite !Z.pow_succ_r by lia. lia.
  - rewrite Pos2Z.inj_succ.
    replace (Z.succ (Zpos (digits2_pos p)) - 1) with (Z.succ (Zpos (digits2_pos p) - 1)) by lia.
    rewrite !Z.pow_succ_r by lia. lia.
  - simpl. lia.
Qed.

Lemma digits2_pos_unique (m : positive) (d : Z) :
  2 ^ (d - 1) <= Zpos m < 2 ^ d -> Zpos (digits2_pos m) = d.
Proof.
  intros [Hlo Hhi].
  pose proof (digits2_pos_bounds m) as [Blo Bhi].
  assert (0 < d).
  { destruct (Z_lt_le_dec 0 d) as [|Hd]; [assumption|].
    assert (2 ^ d <= 2 ^ 0) by (destruct (Z.eq_dec d 0) as [->|]; [lia|rewrite Z.pow_neg_r by lia; simpl; lia]).
    simpl in *. lia. }
  destruct (Z_lt_le_dec (Zpos (digits2_pos m)) d) as [Hlt|Hge].
  - assert (2 ^ Zpos (digits2_pos m) <= 2 ^ (d - 1)) by (apply Z.pow_le_mono_r; lia). lia.
  - destruct (Z_lt_le_dec d (Zpos (digits2_pos m))) as [Hlt|Hle]; [|lia].
    assert (2 ^ d <= 2 ^ (Zpos (digits2_pos m) - 1)) by (apply Z.pow_le_mono_r; lia). lia.
Qed.

(** *** Shifting the mantissa right *)

Lemma shr_1_m (mrs : shr_record) :
  0 <= shr_m mrs -> shr_m (shr_1 mrs) = shr_m mrs / 2.
Proof.
  destruct mrs as [m r s]; cbn [shr_m shr_1]. intros Hm.
  destruct m as [|[p|p|]|p]; cbn [shr_m]; try reflexivity; try lia.
  - rewrite Pos2Z.inj_xI. apply (Z.div_unique _ 2 _ 1); lia.
  - rewrite Pos2Z.inj_xO. apply (Z.div_unique _ 2 _ 0); lia.
Qed.

Lemma iter_shr_1_m (p : positive) (mrs : shr_record) :
  0 <= shr_m mrs ->
  shr_m (SpecFloat.iter_pos shr_1 p mrs) = shr_m mrs / 2 ^ Zpos p.
Proof.
  revert mrs. induction p as [p IH|p IH|]; intros mrs Hm; cbn [SpecFloat.iter_pos].
  - assert (H1 : 0 <= shr_m (shr_1 mrs)) by (rewrite shr_1_m by lia; apply Z.div_pos; lia).
    assert (H2 : 0 <= shr_m (SpecFloat.iter_pos shr_1 p (shr_1 mrs)))
      by (rewrite IH by lia; apply Z.div_pos; [lia|apply Z.pow_pos_nonneg; lia]).
    rewrite IH, IH, shr_1_m by lia.
    rewrite !Z.div_div by (try lia; apply Z.pow_pos_nonneg; lia).
    f_equal. change 2 with (2 ^ 1) at 1. rewrite <- !Z.pow_add_r by lia. f_equal. lia.
  - assert (H2 : 0 <= shr_m (SpecFloat.iter_pos shr_1 p mrs))
      by (rewrite IH by lia; apply Z.div_pos; [lia|apply Z.pow_pos_nonneg; lia]).
    rewrite IH, IH by lia.
    rewrite !Z.div_div by (try lia; apply Z.pow_pos_nonneg; lia).
    f_equal. rewrite <- !Z.pow_add_r by lia. f_equal. lia.
  - rewrite shr_1_m by lia. reflexivity.
Qed.

Lemma shr_record_of_loc_m m l : shr_m (shr_record_of_loc m l) = m.
Proof. destruct l as [|[]]; reflexivity. Qed.

(** The first component of [shr]: the mantissa divided by [2^n]. *)
Lemma shr_m_div (mrs : shr_record) (e n : Z) :
  0 <= shr_m mrs -> 0 <= n ->
  shr_m (fst (shr mrs e n)) = shr_m mrs / 2 ^ n /\ snd (shr mrs e n) = e + n.
Proof.
  intros Hm Hn. destruct n as [|p|p]; cbn [shr fst snd]; try lia.
  - rewrite Z.div_1_r. split; [reflexivity|lia].
  - split; [apply iter_shr_1_m; assumption|reflexivity].
Qed.

Lemma round_nearest_even_cases m l :
  round_nearest_even m l = m \/ round_nearest_even m l = m + 1.
Proof.
  destruct l as [|[]]; cbn [round_nearest_even]; auto.
  destruct (Z.even m); auto.
Qed.

(** *** Rounding a mantissa in the normal range *)

Lemma fexp_normal (k : Z) : -1074 <= k - 53 -> fexp prec emax k = k - 53.
Proof. intros H. unfold fexp, emin, prec, emax. lia. Qed.

Lemma Zdigits2_pos (p : positive) : Zdigits2 (Zpos p) = Zpos (digits2_pos p).
Proof. reflexivity. Qed.

Lemma pos_of_Z (z : Z) : 0 < z -> exists p, z = Zpos p.
Proof. destruct z as [|p|p]; try lia. intros _. exists p. reflexivity. Qed.

Lemma shr_exact_noop (m e : Z) :
  shr (shr_record_of_loc m loc_Exact) e 0 = (shr_record_of_loc m loc_Exact, e).
Proof. reflexivity. Qed.

Lemma trunc53_bounds (mx : Z) :
  0 < mx -> 0 <= Zdigits2 mx - 53 ->
  2 ^ 52 <= trunc53 mx < 2 ^ 53
  /\ trunc53 mx * 2 ^ (Zdigits2 mx - 53) <= mx
     < (trunc53 mx + 1) * 2 ^ (Zdigits2 mx - 53).
Proof.
  intros Hpos Hn. destruct (pos_of_Z mx Hpos) as [p ->].
  unfold trunc53. rewrite Zdigits2_pos in *.
  pose proof (digits2_pos_bounds p) as [Blo Bhi].
  set (n := Zpos (digits2_pos p) - 53) in *.
  assert (Hp : 0 < 2 ^ n) by (apply Z.pow_pos_nonneg; lia).
  replace (Zpos (digits2_pos p) - 1) with (52 + n) in Blo by lia.
  replace (Zpos (digits2_pos p)) with (53 + n) in Bhi by lia.
  rewrite Z.pow_add_r in Blo, Bhi by lia.
  pose proof (Z.div_mod (Zpos p) (2 ^ n)) as Hdm.
  pose proof (Z.mod_pos_bound (Zpos p) (2 ^ n) Hp) as Hmod.
  split.
  - split.
    + apply Z.div_le_lower_bound; lia.
    + apply Z.div_lt_upper_bound; lia.
  - lia.
Qed.

Lemma binary_round_aux_normal (s : bool) (mx ex : Z) (lx : location) :
  0 < mx ->
  0 <= Zdigits2 mx - 53 ->
  -1074 <= ex + (Zdigits2 mx - 53) ->
  ex + (Zdigits2 mx - 53) + 1 <= 971 ->
  exists m e,
    binary_round_aux prec emax s mx ex lx = S754_finite s m e
    /\ 2 ^ 52 <= Zpos m < 2 ^ 53
    /\ ((e = ex + (Zdigits2 mx - 53)
         /\ (Zpos m = trunc53 mx \/ Zpos m = trunc53 mx + 1))
        \/ (e = ex + (Zdigits2 mx - 53) + 1
            /\ trunc53 mx + 1 = 2 ^ 53 /\ Zpos m = 2 ^ 52)).
Proof.
  intros Hpos Hn Hlo Hhi.
  destruct (trunc53_bounds mx Hpos Hn) as [[Tlo Thi] _].
  set (n := Zdigits2 mx - 53) in *.
  unfold binary_round_aux, shr_fexp.
  rewrite fexp_normal by lia.
  replace (Zdigits2 mx + ex - 53 - ex) with n by lia.
  assert (Hm0 : 0 <= shr_m (shr_record_of_loc mx lx))
    by (rewrite shr_record_of_loc_m; lia).
  destruct (shr_m_div (shr_record_of_loc mx lx) ex n Hm0 Hn) as [Hm He].
  destruct (shr (shr_record_of_loc mx lx) ex n) as [mrs' e'].
  cbn [fst snd] in Hm, He. rewrite shr_record_of_loc_m in Hm.
  subst e'. rewrite Hm. change (mx / 2 ^ n) with (trunc53 mx).
  set (lo := trunc53 mx) in *.
  destruct (round_nearest_even_cases lo (loc_of_shr_record mrs')) as [E|E];
    rewrite E; clear E.
  - (* the truncation is kept *)
    destruct (pos_of_Z lo ltac:(lia)) as [q Hq]. rewrite Hq.
    assert (Dq : Zpos (digits2_pos q) = 53)
      by (apply digits2_pos_unique; simpl (53 - 1); lia).
    rewrite Zdigits2_pos, Dq, fexp_normal by lia.
    replace (53 + (ex + n) - 53 - (ex + n)) with 0 by lia.
    rewrite shr_exact_noop. cbn [shr_record_of_loc shr_m].
    replace (ex + n <=? emax - prec) with true
      by (symmetry; apply Z.leb_le; unfold emax, prec; lia).
    exists q, (ex + n). split; [reflexivity|]. split; [lia|]. left. split; [reflexivity|]. left. lia.
  - (* rounded up *)
    destruct (Z_lt_le_dec (lo + 1) (2 ^ 53)) as [Hlt|Hge].
    + destruct (pos_of_Z (lo + 1) ltac:(lia)) as [q Hq]. rewrite Hq.
      assert (Dq : Zpos (digits2_pos q) = 53)
        by (apply digits2_pos_unique; simpl (53 - 1); lia).
      rewrite Zdigits2_pos, Dq, fexp_normal by lia.
      replace (53 + (ex + n) - 53 - (ex + n)) with 0 by lia.
      rewrite shr_exact_noop. cbn [shr_record_of_loc shr_m].
      replace (ex + n <=? emax - prec) with true
        by (symmetry; apply Z.leb_le; unfold emax, prec; lia).
      exists q, (ex + n). split; [reflexivity|]. split; [lia|]. left. split; [reflexivity|]. right. lia.
    + assert (Heq : lo + 1 = 2 ^ 53) by lia. rewrite Heq.
      change (2 ^ 53) with (Zpos (2 ^ 53)%positive).
      rewrite Zdigits2_pos.
      change (Zpos (digits2_pos (2 ^ 53))) with 54.
      rewrite fexp_normal by lia.
      replace (54 + (ex + n) - 53 - (ex + n)) with 1 by lia.
      cbn [shr shr_record_of_loc SpecFloat.iter_pos shr_1 shr_m].
      replace (ex + n + 1 <=? emax - prec) with true
        by (symmetry; apply Z.leb_le; unfold emax, prec; lia).
      eexists _, (ex + n + 1). split; [reflexivity|].
      split; [simpl; lia|]. right. split; [reflexivity|]. split; reflexivity.
Qed.

(** *** The real value of the rounded result *)

Lemma bpow_pos e : (0 < bpow e)%R.
Proof. apply powerRZ_lt. lra. Qed.

Lemma bpow_add a b : bpow (a + b) = (bpow a * bpow b)%R.
Proof. apply powerRZ_add. lra. Qed.

Lemma IZR_pow2 n : 0 <= n -> IZR (2 ^ n) = bpow n.
Proof.
  intros Hn. destruct n as [|p|p]; try lia.
  - simpl. unfold bpow. simpl. reflexivity.
  - change (2 ^ Zpos p) with (Z.pow_pos 2 p). apply Zpower_pos_powerRZ.
Qed.

Lemma F2R_shift a e n : 0 <= n -> F2R (a * 2 ^ n) e = F2R a (n + e).
Proof.
  intros Hn. unfold F2R. rewrite mult_IZR, IZR_pow2, bpow_add by assumption. ring.
Qed.

Lemma F2R_le a b e : a <= b -> (F2R a e <= F2R b e)%R.
Proof.
  intros H. unfold F2R. apply Rmult_le_compat_r.
  - left. apply bpow_pos.
  - apply IZR_le. assumption.
Qed.

Lemma F2R_pos a e : 0 < a -> (0 < F2R a e)%R.
Proof.
  intros H. unfold F2R. apply Rmult_lt_0_compat; [apply IZR_lt; assumption|apply bpow_pos].
Qed.

Lemma u52_eq : IZR (2 ^ 52) = (/ u52)%R.
Proof. unfold u52. rewrite Rinv_inv. reflexivity. Qed.

(** Rounding a real [X] known between two neighbours of the unrounded
    mantissa gives a float within [2^-52] of it. *)
Lemma binary_round_aux_close (s : bool) (mx ex : Z) (lx : location) (X : R) :
  0 < mx ->
  0 <= Zdigits2 mx - 53 ->
  -1074 <= ex + (Zdigits2 mx - 53) ->
  ex + (Zdigits2 mx - 53) + 1 <= 971 ->
  (F2R mx ex <= X <= F2R (mx + 1) ex)%R ->
  exists m e,
    binary_round_aux prec emax s mx ex lx = S754_finite s m e
    /\ 2 ^ 52 <= Zpos m < 2 ^ 53
    /\ ex + (Zdigits2 mx - 53) <= e <= ex + (Zdigits2 mx - 53) + 1
    /\ close X (F2R (Zpos m) e).
Proof.
  intros Hpos Hn Hlo Hhi [HX1 HX2].
  destruct (binary_round_aux_normal s mx ex lx Hpos Hn Hlo Hhi)
    as (m & e & Hbra & Hcan & Hval).
  destruct (trunc53_bounds mx Hpos Hn) as [[Tlo Thi] [Tm1 Tm2]].
  set (n := Zdigits2 mx - 53) in *. set (lo := trunc53 mx) in *.
  exists m, e. split; [exact Hbra|]. split; [exact Hcan|].
  assert (HV : F2R (Zpos m) e = F2R lo (n + ex) \/ F2R (Zpos m) e = F2R (lo + 1) (n + ex)).
  { destruct Hval as [[-> [Hm|Hm]]|[-> [Hc Hm]]].
    - left. rewrite Hm. f_equal. lia.
    - right. rewrite Hm. f_equal. lia.
    - right. rewrite Hm, Hc.
      replace (ex + n + 1) with (1 + (n + ex)) by lia.
      rewrite <- F2R_shift by lia. f_equal. }
  split; [destruct Hval as [[-> _]|[-> _]]; lia|].
  assert (L1 : (F2R lo (n + ex) <= X)%R).
  { rewrite <- F2R_shift by lia. eapply Rle_trans; [|exact HX1]. apply F2R_le. lia. }
  assert (L2 : (X <= F2R (lo + 1) (n + ex))%R).
  { rewrite <- F2R_shift by lia. eapply Rle_trans; [exact HX2|]. apply F2R_le. lia. }
  assert (L3 : (F2R (lo + 1) (n + ex) <= F2R lo (n + ex) * (1 + u52))%R).
  { unfold F2R. rewrite plus_IZR.
    assert (Hb := bpow_pos (n + ex)).
    assert (Hl : (IZR (2 ^ 52) <= IZR lo)%R) by (apply IZR_le; lia).
    rewrite u52_eq in Hl.
    assert (Hu : (0 < u52)%R) by (unfold u52; lra).
    assert (Hone : (1 <= IZR lo * u52)%R).
    { apply (Rmult_le_compat_r u52) in Hl; [|lra].
      rewrite Rinv_l in Hl by lra. exact Hl. }
    nra. }
  assert (Hu : (0 < u52)%R) by (unfold u52; lra).
  assert (P0 : (0 < F2R lo (n + ex))%R) by (apply F2R_pos; lia).
  unfold close. destruct HV as [-> | ->]; split; nra.
Qed.

Lemma digits_gt (p : positive) (k : Z) :
  0 <= k -> 2 ^ k <= Zpos p -> k < Zpos (digits2_pos p).
Proof.
  intros Hk H. pose proof (digits2_pos_bounds p) as [_ Bhi].
  destruct (Z_lt_le_dec k (Zpos (digits2_pos p))) as [|Hle]; [assumption|].
  assert (2 ^ Zpos (digits2_pos p) <= 2 ^ k) by (apply Z.pow_le_mono_r; lia). lia.
Qed.

Lemma digits_le (p : positive) (k : Z) :
  0 <= k -> Zpos p < 2 ^ k -> Zpos (digits2_pos p) <= k.
Proof.
  intros Hk H. pose proof (digits2_pos_bounds p) as [Blo _].
  destruct (Z_lt_le_dec k (Zpos (digits2_pos p))) as [Hlt|]; [|assumption].
  assert (2 ^ k <= 2 ^ (Zpos (digits2_pos p) - 1)) by (apply Z.pow_le_mono_r; lia). lia.
Qed.

(** *** [int / int] *)

Lemma int_truediv_close (a b : Z) :
  0 < a < 2 ^ 62 -> 0 < b < 2 ^ 62 ->
  exists f, int_truediv a b = Ok f
            /\ normal_pos f (-114) 10
            /\ close (IZR a / IZR b) (B2R f).
Proof.
  intros [Ha0 Ha] [Hb0 Hb].
  destruct (pos_of_Z a Ha0) as [pa Ea]. destruct (pos_of_Z b Hb0) as [pb Eb].
  unfold int_truediv. replace (b =? 0) with false by (symmetry; apply Z.eqb_neq; lia).
  pose proof (digits2_pos_bounds pa) as [A1 A2]. rewrite <- Ea in A1, A2.
  pose proof (digits2_pos_bounds pb) as [B1 B2]. rewrite <- Eb in B1, B2.
  assert (DA : 1 <= Zpos (digits2_pos pa) <= 62)
    by (split; [lia|apply digits_le; [lia|rewrite <- Ea; exact Ha]]).
  assert (DB : 1 <= Zpos (digits2_pos pb) <= 62)
    by (split; [lia|apply digits_le; [lia|rewrite <- Eb; exact Hb]]).
  replace (SFdiv prec emax (exact_int a) (exact_int b))
    with (let '(mz, ez, lz) := SFdiv_core_binary prec emax a 0 b 0 in
          binary_round_aux prec emax false mz ez lz)
    by (rewrite Ea, Eb; reflexivity).
  unfold SFdiv_core_binary.
  replace (Zdigits2 a) with (Zpos (digits2_pos pa)) by (rewrite Ea; reflexivity).
  replace (Zdigits2 b) with (Zpos (digits2_pos pb)) by (rewrite Eb; reflexivity).
  set (D1 := Zpos (digits2_pos pa)) in *. set (D2 := Zpos (digits2_pos pb)) in *.
  rewrite fexp_normal by lia.
  set (e' := Z.min (D1 + 0 - (D2 + 0) - 53) (0 - 0)).
  set (sh := 0 - 0 - e').
  assert (Hsh : 0 <= sh /\ 53 - D1 + D2 <= sh /\ sh <= 114) by (unfold sh, e'; lia).
  assert (Hm' : match sh with Zpos _ => Z.shiftl a sh | 0 => a | Zneg _ => 0 end = a * 2 ^ sh).
  { destruct sh as [|p|p] eqn:E; try lia.
    - apply Z.shiftl_mul_pow2. lia. }
  rewrite Hm'.
  assert (P2 : 0 < 2 ^ sh) by (apply Z.pow_pos_nonneg; lia).
  pose proof (Z.div_mod (a * 2 ^ sh) b ltac:(lia)) as Hdm.
  pose proof (Z.mod_pos_bound (a * 2 ^ sh) b Hb0) as Hmod.
  unfold Z.div, Z.modulo in Hdm, Hmod.
  destruct (Z.div_eucl (a * 2 ^ sh) b) as [q r].
  (* the quotient has at least 53 bits *)
  assert (Q1 : 2 ^ 52 * b <= a * 2 ^ sh).
  { assert (2 ^ (52 + D2) <= 2 ^ (D1 - 1 + sh)) by (apply Z.pow_le_mono_r; lia).
    rewrite !Z.pow_add_r in H by lia.
    assert (2 ^ (D1 - 1) * 2 ^ sh <= a * 2 ^ sh) by (apply Z.mul_le_mono_nonneg_r; lia).
    assert (2 ^ 52 * b <= 2 ^ 52 * 2 ^ D2) by (apply Z.mul_le_mono_nonneg_l; lia).
    lia. }
  assert (Q2 : 2 ^ 52 <= q) by nia.
  assert (Q3 : q < 2 ^ (62 + sh)).
  { rewrite Z.pow_add_r by lia.
    assert (a * 2 ^ sh < 2 ^ 62 * 2 ^ sh) by (apply Z.mul_lt_mono_pos_r; lia).
    nia. }
  destruct (pos_of_Z q ltac:(lia)) as [pq Eq].
  assert (DQ : 53 <= Zdigits2 q <= 62 + sh).
  { rewrite Eq, Zdigits2_pos. split.
    - assert (52 < Zpos (digits2_pos pq)) by (apply digits_gt; [lia|rewrite <- Eq; exact Q2]). lia.
    - apply digits_le; [lia|rewrite <- Eq; exact Q3]. }
  assert (HX : (F2R q e' <= IZR a / IZR b <= F2R (q + 1) e')%R).
  { assert (Ee : e' = - sh) by (unfold sh; lia). rewrite Ee.
    unfold F2R, bpow. rewrite powerRZ_neg'. fold (bpow sh). rewrite <- IZR_pow2 by lia.
    assert (PB : (0 < IZR b)%R) by (apply IZR_lt; lia).
    assert (PS : (0 < IZR (2 ^ sh))%R) by (apply IZR_lt; lia).
    assert (R1 : (IZR q * IZR b <= IZR a * IZR (2 ^ sh))%R)
      by (rewrite <- !mult_IZR; apply IZR_le; lia).
    assert (R2 : (IZR a * IZR (2 ^ sh) <= IZR (q + 1) * IZR b)%R)
      by (rewrite <- !mult_IZR; apply IZR_le; lia).
    split.
    - apply (Rmult_le_reg_r (IZR (2 ^ sh) * IZR b)); [nra|].
      replace (IZR q * / IZR (2 ^ sh) * (IZR (2 ^ sh) * IZR b))%R
        with (IZR q * IZR b)%R by (field; lra).
      replace (IZR a / IZR b * (IZR (2 ^ sh) * IZR b))%R
        with (IZR a * IZR (2 ^ sh))%R by (field; lra).
      exact R1.
    - apply (Rmult_le_reg_r (IZR (2 ^ sh) * IZR b)); [nra|].
      replace (IZR (q + 1) * / IZR (2 ^ sh) * (IZR (2 ^ sh) * IZR b))%R
        with (IZR (q + 1) * IZR b)%R by (field; lra).
      replace (IZR a / IZR b * (IZR (2 ^ sh) * IZR b))%R
        with (IZR a * IZR (2 ^ sh))%R by (field; lra).
      exact R2. }
  destruct (binary_round_aux_close false q e' (new_location b r) (IZR a / IZR b))
    as (m & e & Hbra & Hcan & He & Hcl); try lia; [unfold e'; lia..|exact HX|].
  rewrite Hbra. exists (S754_finite false m e).
  split; [reflexivity|]. split; [|exact Hcl].
  exists m, e. split; [reflexivity|]. split; [exact Hcan|]. unfold e' in *. lia.
Qed.

(** *** [float(int)] *)

Lemma binary_round_aux_exact (s : bool) (m : positive) (e : Z) :
  2 ^ 52 <= Zpos m < 2 ^ 53 -> -1074 <= e <= 971 ->
  binary_round_aux prec emax s (Zpos m) e loc_Exact = S754_finite s m e.
Proof.
  intros Hm He.
  assert (Dm : Zpos (digits2_pos m) = 53)
    by (apply digits2_pos_unique; simpl (53 - 1); lia).
  unfold binary_round_aux, shr_fexp.
  rewrite Zdigits2_pos, Dm, fexp_normal by lia.
  replace (53 + e - 53 - e) with 0 by lia.
  cbn [shr shr_record_of_loc shr_m loc_of_shr_record round_nearest_even].
  rewrite Zdigits2_pos, Dm, fexp_normal by lia.
  replace (53 + e - 53 - e) with 0 by lia.
  cbn [shr shr_record_of_loc shr_m].
  replace (e <=? emax - prec) with true
    by (symmetry; apply Z.leb_le; unfold emax, prec; lia).
  reflexivity.
Qed.

Lemma of_int_exact (w : Z) :
  0 < w < 2 ^ 53 ->
  exists m e, of_int w = Ok (S754_finite false m e)
              /\ 2 ^ 52 <= Zpos m < 2 ^ 53 /\ -52 <= e <= 0
              /\ F2R (Zpos m) e = IZR w.
Proof.
  intros [Hw0 Hw]. destruct (pos_of_Z w Hw0) as [p ->].
  pose proof (digits2_pos_bounds p) as [B1 B2].
  assert (D : 1 <= Zpos (digits2_pos p) <= 53) by (split; [lia|apply digits_le; lia]).
  unfold of_int. cbn [binary_normalize]. unfold binary_round.
  rewrite fexp_normal by lia. unfold shl_align.
  set (d := Zpos (digits2_pos p)) in *.
  destruct (d + 0 - 53 - 0) as [|k|k] eqn:E; try lia.
  - (* the mantissa already has 53 bits *)
    assert (d = 53) by lia.
    replace (d - 1) with 52 in B1 by lia. replace d with 53 in B2 by lia.
    rewrite binary_round_aux_exact by lia.
    exists p, 0. split; [reflexivity|]. split; [lia|]. split; [lia|].
    unfold F2R, bpow. simpl. ring.
  - (* shifted left to 53 bits *)
    assert (Hk : Zpos k = 53 - d) by lia.
    change (Pos.iter xO p k) with (shift_pos k p).
    assert (Hs : Zpos (shift_pos k p) = Zpos p * 2 ^ Zpos k).
    { rewrite shift_pos_correct. change (Z.pow_pos 2 k) with (2 ^ Zpos k). ring. }
    assert (P2 : 0 < 2 ^ Zpos k) by (apply Z.pow_pos_nonneg; lia).
    assert (Hb : 2 ^ 52 <= Zpos (shift_pos k p) < 2 ^ 53).
    { rewrite Hs.
      replace 52 with (d - 1 + Zpos k) by lia. replace 53 with (d + Zpos k) by lia.
      rewrite !Z.pow_add_r by lia. split.
      - apply Z.mul_le_mono_nonneg_r; lia.
      - apply Z.mul_lt_mono_pos_r; lia. }
    rewrite binary_round_aux_exact by lia.
    exists (shift_pos k p), (d + 0 - 53). split; [reflexivity|]. split; [exact Hb|].
    split; [lia|]. rewrite Hs, F2R_shift by lia.
    replace (Zpos k + (d + 0 - 53)) with 0 by lia.
    unfold F2R, bpow. simpl. ring.
Qed.

(** *** Products *)

Lemma mul_close (mx my : positive) (ex ey : Z) :
  2 ^ 52 <= Zpos mx < 2 ^ 53 -> 2 ^ 52 <= Zpos my < 2 ^ 53 ->
  -1100 <= ex + ey <= 900 ->
  exists m e,
    mul (S754_finite false mx ex) (S754_finite false my ey) = S754_finite false m e
    /\ 2 ^ 52 <= Zpos m < 2 ^ 53
    /\ ex + ey + 52 <= e <= ex + ey + 54
    /\ close (F2R (Zpos mx) ex * F2R (Zpos my) ey) (F2R (Zpos m) e).
Proof.
  intros Hx Hy He. unfold mul. cbn [SFmul xorb].
  assert (M1 : 2 ^ 104 <= Zpos (mx * my) < 2 ^ 106).
  { rewrite Pos2Z.inj_mul.
    change (2 ^ 104) with (2 ^ 52 * 2 ^ 52). change (2 ^ 106) with (2 ^ 53 * 2 ^ 53).
    split; nia. }
  assert (DM : 105 <= Zdigits2 (Zpos (mx * my)) <= 106).
  { rewrite Zdigits2_pos. split.
    - assert (104 < Zpos (digits2_pos (mx * my))) by (apply digits_gt; lia). lia.
    - apply digits_le; lia. }
  destruct (binary_round_aux_close false (Zpos (mx * my)) (ex + ey) loc_Exact
              (F2R (Zpos mx) ex * F2R (Zpos my) ey))
    as (m & e & Hbra & Hcan & Hee & Hcl); try lia.
  { assert (E : (F2R (Zpos mx) ex * F2R (Zpos my) ey)%R = F2R (Zpos (mx * my)) (ex + ey)).
    { unfold F2R. rewrite Pos2Z.inj_mul, mult_IZR, bpow_add. ring. }
    rewrite E. split; [apply Rle_refl|apply F2R_le; lia]. }
  exists m, e. split; [exact Hbra|]. split; [exact Hcan|]. split; [lia|exact Hcl].
Qed.

(** *** Comparisons: [max] and [min] *)

Lemma bpow_le a b : a <= b -> (bpow a <= bpow b)%R.
Proof.
  intros H. replace b with (a + (b - a)) by lia. rewrite bpow_add.
  rewrite <- (IZR_pow2 (b - a)) by lia.
  assert (0 < 2 ^ (b - a)) by (apply Z.pow_pos_nonneg; lia).
  assert ((1 <= IZR (2 ^ (b - a)))%R) by (apply IZR_le; lia).
  pose proof (bpow_pos a). nra.
Qed.

Lemma F2R_lt_exp (m1 m2 : positive) (e1 e2 : Z) :
  Zpos m1 < 2 ^ 53 -> 2 ^ 52 <= Zpos m2 -> e1 < e2 ->
  (F2R (Zpos m1) e1 < F2R (Zpos m2) e2)%R.
Proof.
  intros H1 H2 He.
  apply Rlt_le_trans with (F2R (2 ^ 53) e1).
  - unfold F2R. apply Rmult_lt_compat_r; [apply bpow_pos|apply IZR_lt; exact H1].
  - apply Rle_trans with (F2R (2 ^ 52) e2); [|apply F2R_le; exact H2].
    unfold F2R. rewrite !IZR_pow2, <- !bpow_add by lia. apply bpow_le. lia.
Qed.

Lemma SFltb_normal (m1 m2 : positive) (e1 e2 : Z) :
  2 ^ 52 <= Zpos m1 < 2 ^ 53 -> 2 ^ 52 <= Zpos m2 < 2 ^ 53 ->
  if SFltb (S754_finite false m1 e1) (S754_finite false m2 e2)
  then (F2R (Zpos m1) e1 < F2R (Zpos m2) e2)%R
  else (F2R (Zpos m2) e2 <= F2R (Zpos m1) e1)%R.
Proof.
  intros H1 H2. unfold SFltb, SFcompare.
  destruct (Z.compare_spec e1 e2) as [->|He|He].
  - change (Pos.compare_cont Eq m1 m2) with (Pos.compare m1 m2).
    destruct (Pos.compare_spec m1 m2) as [->|Hm|Hm].
    + apply Rle_refl.
    + unfold F2R. apply Rmult_lt_compat_r; [apply bpow_pos|apply IZR_lt; lia].
    + apply F2R_le. lia.
  - apply F2R_lt_exp; lia.
  - left. apply F2R_lt_exp; lia.
Qed.

Lemma B2R_finite_pos m e : B2R (S754_finite false m e) = F2R (Zpos m) e.
Proof. reflexivity. Qed.

Lemma max_normal (a b : float) (elo ehi : Z) :
  normal_pos a elo ehi -> normal_pos b elo ehi ->
  normal_pos (PyFloat.max a b) elo ehi
  /\ (B2R a <= B2R (PyFloat.max a b))%R /\ (B2R b <= B2R (PyFloat.max a b))%R.
Proof.
  intros (m1 & e1 & -> & C1 & R1) (m2 & e2 & -> & C2 & R2).
  unfold PyFloat.max. pose proof (SFltb_normal m1 m2 e1 e2 C1 C2) as H.
  destruct (SFltb _ _); rewrite !B2R_finite_pos.
  - split; [exists m2, e2; auto|]. split; [lra|apply Rle_refl].
  - split; [exists m1, e1; auto|]. split; [apply Rle_refl|lra].
Qed.

Lemma min_normal (a b : float) (elo ehi : Z) :
  normal_pos a elo ehi -> normal_pos b elo ehi ->
  normal_pos (PyFloat.min a b) elo ehi
  /\ (B2R (PyFloat.min a b) <= B2R a)%R /\ (B2R (PyFloat.min a b) <= B2R b)%R.
Proof.
  intros (m1 & e1 & -> & C1 & R1) (m2 & e2 & -> & C2 & R2).
  unfold PyFloat.min. pose proof (SFltb_normal m2 m1 e2 e1 C2 C1) as H.
  destruct (SFltb _ _); rewrite !B2R_finite_pos.
  - split; [exists m2, e2; auto|]. split; [lra|apply Rle_refl].
  - split; [exists m1, e1; auto|]. split; [apply Rle_refl|lra].
Qed.

(** *** [round] *)

Lemma F2R_neg_exp (m : Z) (k : positive) :
  (F2R m (Zneg k) * IZR (2 ^ Zpos k) = IZR m)%R.
Proof.
  unfold F2R. rewrite IZR_pow2 by lia.
  change (Zneg k) with (- Zpos k). unfold bpow. rewrite powerRZ_neg'.
  pose proof (bpow_pos (Zpos k)). unfold bpow in *. field. lra.
Qed.

Lemma round_half_even_ge (m : positive) (e z : Z) :
  (IZR z - / 2 < F2R (Zpos m) e)%R -> z <= round_half_even m e.
Proof.
  intros H. unfold round_half_even. destruct e as [|p|k].
  - unfold F2R, bpow in H. simpl in H. rewrite Rmult_1_r in H.
    assert ((IZR (2 * z - 1) < IZR (2 * Zpos m))%R)
      by (rewrite minus_IZR, !mult_IZR; lra).
    apply lt_IZR in H0. lia.
  - unfold F2R in H. rewrite <- IZR_pow2, <- mult_IZR in H by lia.
    set (v := Zpos m * 2 ^ Zpos p) in *.
    assert ((IZR (2 * z - 1) < IZR (2 * v))%R)
      by (rewrite minus_IZR, !mult_IZR; lra).
    apply lt_IZR in H0. lia.
  - pose proof (F2R_neg_exp (Zpos m) k) as E.
    set (d := 2 ^ Zpos k) in *.
    assert (Hd : 0 < d) by (apply Z.pow_pos_nonneg; lia).
    assert (HdR : (0 < IZR d)%R) by (apply IZR_lt; exact Hd).
    assert (H1 : (IZR ((2 * z - 1) * d) < IZR (2 * Zpos m))%R).
    { rewrite !mult_IZR, minus_IZR, mult_IZR, <- E. nra. }
    apply lt_IZR in H1.
    pose proof (Z.div_mod (Zpos m) d ltac:(lia)) as Hdm.
    pose proof (Z.mod_pos_bound (Zpos m) d Hd) as Hmod.
    set (q := Zpos m / d) in *. set (r := Zpos m mod d) in *.
    cbv zeta.
    destruct (Z.compare_spec (2 * r) d) as [Hc|Hc|Hc].
    + destruct (Z.even q); nia.
    + nia.
    + nia.
Qed.

Lemma round_half_even_le (m : positive) (e z : Z) :
  (F2R (Zpos m) e < IZR z + / 2)%R -> round_half_even m e <= z.
Proof.
  intros H. unfold round_half_even. destruct e as [|p|k].
  - unfold F2R, bpow in H. simpl in H. rewrite Rmult_1_r in H.
    assert ((IZR (2 * Zpos m) < IZR (2 * z + 1))%R)
      by (rewrite plus_IZR, !mult_IZR; lra).
    apply lt_IZR in H0. lia.
  - unfold F2R in H. rewrite <- IZR_pow2, <- mult_IZR in H by lia.
    set (v := Zpos m * 2 ^ Zpos p) in *.
    assert ((IZR (2 * v) < IZR (2 * z + 1))%R)
      by (rewrite plus_IZR, !mult_IZR; lra).
    apply lt_IZR in H0. lia.
  - pose proof (F2R_neg_exp (Zpos m) k) as E.
    set (d := 2 ^ Zpos k) in *.
    assert (Hd : 0 < d) by (apply Z.pow_pos_nonneg; lia).
    assert (HdR : (0 < IZR d)%R) by (apply IZR_lt; exact Hd).
    assert (H1 : (IZR (2 * Zpos m) < IZR ((2 * z + 1) * d))%R).
    { rewrite !mult_IZR, plus_IZR, mult_IZR, <- E. nra. }
    apply lt_IZR in H1.
    pose proof (Z.div_mod (Zpos m) d ltac:(lia)) as Hdm.
    pose proof (Z.mod_pos_bound (Zpos m) d Hd) as Hmod.
    set (q := Zpos m / d) in *. set (r := Zpos m mod d) in *.
    cbv zeta.
    destruct (Z.compare_spec (2 * r) d) as [Hc|Hc|Hc].
    + destruct (Z.even q); nia.
    + nia.
    + nia.
Qed.

(** *** [int(round(n * scale))] *)

Lemma scaled_close (w : Z) (sc : float) :
  0 < w < 2 ^ 53 -> normal_pos sc (-1000) 900 ->
  exists n V,
    scaled w sc = Ok n
    /\ close (IZR w * B2R sc) V
    /\ (forall z, (IZR z - / 2 < V)%R -> z <= n)
    /\ (forall z, (V < IZR z + / 2)%R -> n <= z).
Proof.
  intros Hw (ms & es & -> & Cs & Es).
  destruct (of_int_exact w Hw) as (mw & ew & Hof & Cw & Ew & Vw).
  destruct (mul_close mw ms ew es Cw Cs ltac:(lia)) as (m & e & Hmul & Cm & Em & Hcl).
  unfold scaled, int_mul. rewrite Hof. cbn [rbind]. rewrite Hmul. cbn [PyFloat.round].
  exists (round_half_even m e), (F2R (Zpos m) e).
  split; [reflexivity|]. rewrite B2R_finite_pos, <- Vw.
  split; [exact Hcl|].
  split; intros z Hz; [apply round_half_even_ge|apply round_half_even_le]; exact Hz.
Qed.

Lemma IZR_div_mul (a b : Z) : 0 < b -> (IZR b * (IZR a / IZR b) = IZR a)%R.
Proof. intros Hb. assert ((0 < IZR b)%R) by (apply IZR_lt; lia). field. lra. Qed.

(** Under cover, both scaled sides reach the target. *)
Lemma cover_reaches_target (img : Image) (tw th : Z) :
  0 < width img < 2 ^ 31 -> 0 < height img < 2 ^ 31 ->
  0 < tw < 2 ^ 31 -> 0 < th < 2 ^ 31 ->
  exists sc new_w new_h,
    cover_scale img tw th = Ok sc
    /\ scaled_size img sc = Ok (new_w, new_h)
    /\ tw <= new_w /\ th <= new_h.
Proof.
  intros Hw Hh Htw Hth.
  destruct (int_truediv_close tw (width img)) as (f1 & E1 & N1 & C1); try lia.
  destruct (int_truediv_close th (height img)) as (f2 & E2 & N2 & C2); try lia.
  destruct (max_normal f1 f2 _ _ N1 N2) as (Ns & G1 & G2).
  set (sc := PyFloat.max f1 f2) in *.
  assert (Ns' : normal_pos sc (-1000) 900).
  { destruct Ns as (m & e & -> & ? & ?). exists m, e. repeat split; lia. }
  destruct (scaled_close (width img) sc ltac:(lia) Ns') as (nw & Vw & Sw & Cw & Gw & _).
  destruct (scaled_close (height img) sc ltac:(lia) Ns') as (nh & Vh & Sh & Ch & Gh & _).
  exists sc, nw, nh.
  split; [unfold cover_scale; rewrite E1, E2; reflexivity|].
  split; [unfold scaled_size; rewrite Sw, Sh; reflexivity|].
  assert (U : (u52 = / 4503599627370496)%R) by reflexivity.
  assert (PW : (0 < IZR (width img) < 2147483648)%R)
    by (split; [apply IZR_lt; lia|apply (IZR_lt _ (2 ^ 31)); lia]).
  assert (PH : (0 < IZR (height img) < 2147483648)%R)
    by (split; [apply IZR_lt; lia|apply (IZR_lt _ (2 ^ 31)); lia]).
  assert (PTW : (0 < IZR tw < 2147483648)%R)
    by (split; [apply IZR_lt; lia|apply (IZR_lt _ (2 ^ 31)); lia]).
  assert (PTH : (0 < IZR th < 2147483648)%R)
    by (split; [apply IZR_lt; lia|apply (IZR_lt _ (2 ^ 31)); lia]).
  split.
  - apply Gw. destruct C1 as [C1 _]. destruct Cw as [Cw _].
    assert (T1 : (IZR tw <= IZR (width img) * B2R f1 * (1 + u52))%R).
    { rewrite <- (IZR_div_mul tw (width img)) at 1 by lia.
      rewrite Rmult_assoc. apply Rmult_le_compat_l; [lra|exact C1]. }
    assert (T2 : (IZR (width img) * B2R f1 <= IZR (width img) * B2R sc)%R)
      by (apply Rmult_le_compat_l; [lra|exact G1]).
    set (P := (IZR (width img) * B2R f1)%R) in *.
    set (Q := (IZR (width img) * B2R sc)%R) in *.
    rewrite U in *. lra.
  - apply Gh. destruct C2 as [C2 _]. destruct Ch as [Ch _].
    assert (T1 : (IZR th <= IZR (height img) * B2R f2 * (1 + u52))%R).
    { rewrite <- (IZR_div_mul th (height img)) at 1 by lia.
      rewrite Rmult_assoc. apply Rmult_le_compat_l; [lra|exact C2]. }
    assert (T2 : (IZR (height img) * B2R f2 <= IZR (height img) * B2R sc)%R)
      by (apply Rmult_le_compat_l; [lra|exact G2]).
    set (P := (IZR (height img) * B2R f2)%R) in *.
    set (Q := (IZR (height img) * B2R sc)%R) in *.
    rewrite U in *. lra.
Qed.

(** Under contain, both scaled sides stay within the target. *)
Lemma contain_within_target (img : Image) (tw th : Z) :
  0 < width img < 2 ^ 31 -> 0 < height img < 2 ^ 31 ->
  0 < tw < 2 ^ 31 -> 0 < th < 2 ^ 31 ->
  exists sc new_w new_h,
    contain_scale img tw th = Ok sc
    /\ scaled_size img sc = Ok (new_w, new_h)
    /\ 0 <= new_w <= tw /\ 0 <= new_h <= th.
Proof.
  intros Hw Hh Htw Hth.
  destruct (int_truediv_close tw (width img)) as (f1 & E1 & N1 & C1); try lia.
  destruct (int_truediv_close th (height img)) as (f2 & E2 & N2 & C2); try lia.
  destruct (min_normal f1 f2 _ _ N1 N2) as (Ns & G1 & G2).
  set (sc := PyFloat.min f1 f2) in *.
  assert (Ns' : normal_pos sc (-1000) 900).
  { destruct Ns as (m & e & -> & ? & ?). exists m, e. repeat split; lia. }
  assert (Psc : (0 < B2R sc)%R).
  { destruct Ns as (m & e & -> & ? & ?). rewrite B2R_finite_pos. apply F2R_pos. lia. }
  destruct (scaled_close (width img) sc ltac:(lia) Ns') as (nw & Vw & Sw & Cw & Gw & Lw).
  destruct (scaled_close (height img) sc ltac:(lia) Ns') as (nh & Vh & Sh & Ch & Gh & Lh).
  exists sc, nw, nh.
  split; [unfold contain_scale; rewrite E1, E2; reflexivity|].
  split; [unfold scaled_size; rewrite Sw, Sh; reflexivity|].
  assert (U : (u52 = / 4503599627370496)%R) by reflexivity.
  assert (PW : (0 < IZR (width img) < 2147483648)%R)
    by (split; [apply IZR_lt; lia|apply (IZR_lt _ (2 ^ 31)); lia]).
  assert (PH : (0 < IZR (height img) < 2147483648)%R)
    by (split; [apply IZR_lt; lia|apply (IZR_lt _ (2 ^ 31)); lia]).
  assert (PTW : (0 < IZR tw < 2147483648)%R)
    by (split; [apply IZR_lt; lia|apply (IZR_lt _ (2 ^ 31)); lia]).
  assert (PTH : (0 < IZR th < 2147483648)%R)
    by (split; [apply IZR_lt; lia|apply (IZR_lt _ (2 ^ 31)); lia]).
  assert (QW : (0 < IZR (width img) * B2R sc)%R) by (apply Rmult_lt_0_compat; lra).
  assert (QH : (0 < IZR (height img) * B2R sc)%R) by (apply Rmult_lt_0_compat; lra).
  split; [split|split].
  - apply Gw. destruct Cw as [Cw _]. rewrite U in *. simpl IZR. 
    set (Q := (IZR (width img) * B2R sc)%R) in *. lra.
  - apply Lw. destruct C1 as [_ C1]. destruct Cw as [_ Cw].
    assert (T1 : (IZR (width img) * B2R f1 <= IZR tw * (1 + u52))%R).
    { rewrite <- (IZR_div_mul tw (width img)) at 1 by lia.
      rewrite Rmult_assoc. apply Rmult_le_compat_l; [lra|exact C1]. }
    assert (T2 : (IZR (width img) * B2R sc <= IZR (width img) * B2R f1)%R)
      by (apply Rmult_le_compat_l; [lra|exact G1]).
    set (P := (IZR (width img) * B2R f1)%R) in *.
    set (Q := (IZR (width img) * B2R sc)%R) in *.
    rewrite U in *. lra.
  - apply Gh. destruct Ch as [Ch _]. rewrite U in *. simpl IZR.
    set (Q := (IZR (height img) * B2R sc)%R) in *. lra.
  - apply Lh. destruct C2 as [_ C2]. destruct Ch as [_ Ch].
    assert (T1 : (IZR (height img) * B2R f2 <= IZR th * (1 + u52))%R).
    { rewrite <- (IZR_div_mul th (height img)) at 1 by lia.
      rewrite Rmult_assoc. apply Rmult_le_compat_l; [lra|exact C2]. }
    assert (T2 : (IZR (height img) * B2R sc <= IZR (height img) * B2R f2)%R)
      by (apply Rmult_le_compat_l; [lra|exact G2]).
    set (P := (IZR (height img) * B2R f2)%R) in *.
    set (Q := (IZR (height img) * B2R sc)%R) in *.
    rewrite U in *. lra.
Qed.

End FloatFacts.

(** ** Signs: scales that are zero or negative *)

Module SignFacts.
Import PyFloat FloatFacts.

Lemma shr_nonneg (mrs : shr_record) (e n : Z) :
  0 <= shr_m mrs -> 0 <= shr_m (fst (shr mrs e n)).
Proof.
  intros Hm. destruct n as [|p|p]; cbn [shr fst]; try assumption.
  rewrite iter_shr_1_m by assumption.
  apply Z.div_pos; [assumption|apply Z.pow_pos_nonneg; lia].
Qed.

(** The rounded result keeps the sign it is given. *)
Lemma binary_round_aux_shape (s : bool) (mx ex : Z) (lx : location) :
  0 <= mx ->
  binary_round_aux prec emax s mx ex lx = S754_zero s
  \/ (exists m e, binary_round_aux prec emax s mx ex lx = S754_finite s m e)
  \/ binary_round_aux prec emax s mx ex lx = S754_infinity s.
Proof.
  intros Hm. unfold binary_round_aux, shr_fexp.
  assert (H1 := shr_nonneg (shr_record_of_loc mx lx) ex
                  (fexp prec emax (Zdigits2 mx + ex) - ex)
                  ltac:(rewrite shr_record_of_loc_m; exact Hm)).
  destruct (shr (shr_record_of_loc mx lx) ex _) as [mrs' e']. cbn [fst] in H1.
  set (m1 := round_nearest_even (shr_m mrs') (loc_of_shr_record mrs')).
  assert (Hm1 : 0 <= m1)
    by (unfold m1; destruct (round_nearest_even_cases (shr_m mrs') (loc_of_shr_record mrs')) as [-> | ->]; lia).
  assert (H2 := shr_nonneg (shr_record_of_loc m1 loc_Exact) e'
                  (fexp prec emax (Zdigits2 m1 + e') - e')
                  ltac:(rewrite shr_record_of_loc_m; exact Hm1)).
  destruct (shr (shr_record_of_loc m1 loc_Exact) e' _) as [mrs'' e'']. cbn [fst] in H2.
  destruct (shr_m mrs'') as [|m|m]; try lia.
  - left; reflexivity.
  - destruct (e'' <=? emax - prec); [right; left; eauto|right; right; reflexivity].
Qed.

Lemma div_core_nonneg (a b : positive) :
  0 <= fst (fst (SFdiv_core_binary prec emax (Zpos a) 0 (Zpos b) 0)).
Proof.
  unfold SFdiv_core_binary.
  match goal with |- context [Z.div_eucl ?n _] => set (num := n) end.
  assert (Hn : 0 <= num).
  { unfold num. destruct (0 - 0 - _) as [|s|s] eqn:Es; try lia.
    rewrite Z.shiftl_mul_pow2 by lia.
    apply Z.mul_nonneg_nonneg; [lia|apply Z.pow_nonneg; lia]. }
  pose proof (Z.div_pos num (Zpos b) Hn ltac:(lia)) as Hq.
  unfold Z.div in Hq. destruct (Z.div_eucl num (Zpos b)) as [q r]. exact Hq.
Qed.

Lemma SFdiv_shape (sa : bool) (a b : positive) :
  let f := SFdiv prec emax (S754_finite sa a 0) (S754_finite false b 0) in
  f = S754_zero sa \/ (exists m e, f = S754_finite sa m e) \/ f = S754_infinity sa.
Proof.
  cbn [SFdiv]. pose proof (div_core_nonneg a b) as Hq.
  destruct (SFdiv_core_binary prec emax (Zpos a) 0 (Zpos b) 0) as [[q e'] l].
  cbn [fst] in Hq. replace (xorb sa false) with sa by (destruct sa; reflexivity).
  apply binary_round_aux_shape. exact Hq.
Qed.

Lemma int_truediv_shape (a b : Z) (f : float) :
  0 < b -> int_truediv a b = Ok f ->
  finite_shape f /\ (a <= 0 -> nonpos_shape f).
Proof.
  intros Hb. unfold int_truediv.
  replace (b =? 0) with false by (symmetry; apply Z.eqb_neq; lia).
  destruct (pos_of_Z b Hb) as [pb ->].
  destruct a as [|pa|pa]; cbn [exact_int].
  - cbn [SFdiv xorb]. intros H; inversion H; subst. simpl. auto.
  - destruct (SFdiv_shape false pa pb) as [-> | [(m & e & ->) | ->]];
      intros H; inversion H; subst; simpl; split; auto; lia.
  - destruct (SFdiv_shape true pa pb) as [-> | [(m & e & ->) | ->]];
      intros H; inversion H; subst; simpl; split; auto.
Qed.

Lemma int_truediv_raises (a b : Z) (e : exn) :
  b <> 0 -> int_truediv a b = Raise e -> e = OverflowError.
Proof.
  intros Hb. unfold int_truediv.
  replace (b =? 0) with false by (symmetry; apply Z.eqb_neq; lia).
  destruct (SFdiv _ _ _ _); intros H; inversion H; reflexivity.
Qed.

Lemma of_int_shape (w : Z) :
  0 < w ->
  of_int w = Raise OverflowError
  \/ of_int w = Ok (S754_zero false)
  \/ exists m e, of_int w = Ok (S754_finite false m e).
Proof.
  intros Hw. destruct (pos_of_Z w Hw) as [p ->].
  unfold of_int. cbn [binary_normalize]. unfold binary_round.
  destruct (shl_align p 0 _) as [mz ez].
  destruct (binary_round_aux_shape false (Zpos mz) ez loc_Exact ltac:(lia))
    as [-> | [(m & e & ->) | ->]]; eauto.
Qed.

Lemma round_half_even_nonneg (m : positive) (e : Z) : 0 <= round_half_even m e.
Proof.
  unfold round_half_even. destruct e as [|p|k].
  - lia.
  - apply Z.mul_nonneg_nonneg; [lia|apply Z.pow_nonneg; lia].
  - assert (Hd : 0 < 2 ^ Zpos k) by (apply Z.pow_pos_nonneg; lia).
    pose proof (Z.div_pos (Zpos m) (2 ^ Zpos k) ltac:(lia) Hd).
    cbv zeta. destruct (_ ?= _); [destruct (Z.even _)| |]; lia.
Qed.

(** A positive int times a non-positive scale rounds to at most 0. *)
Lemma scaled_nonpos (w : Z) (sc : float) :
  0 < w -> nonpos_shape sc ->
  scaled w sc = Raise OverflowError \/ exists n, scaled w sc = Ok n /\ n <= 0.
Proof.
  intros Hw Hsc. unfold scaled, int_mul.
  destruct (of_int_shape w Hw) as [-> | [-> | (m & e & ->)]]; cbn [rbind].
  - left; reflexivity.
  - right. exists 0.
    destruct sc as [s|s| |[] ms es]; simpl in Hsc; try contradiction;
      cbn [mul SFmul PyFloat.round]; split; (reflexivity || lia).
  - destruct sc as [s|s| |[] ms es]; simpl in Hsc; try contradiction.
    + right. exists 0. cbn [mul SFmul PyFloat.round]. split; [reflexivity|lia].
    + unfold mul. cbn [SFmul xorb].
      destruct (binary_round_aux_shape true (Zpos (m * ms)) (e + es) loc_Exact ltac:(lia))
        as [-> | [(m' & e' & ->) | ->]]; cbn [PyFloat.round].
      * right. exists 0. split; [reflexivity|lia].
      * right. eexists. split; [reflexivity|].
        pose proof (round_half_even_nonneg m' e'). lia.
      * left. reflexivity.
Qed.

Lemma min_nonpos (a b : float) :
  finite_shape a -> finite_shape b -> nonpos_shape a \/ nonpos_shape b ->
  nonpos_shape (PyFloat.min a b).
Proof.
  intros Ha Hb H. unfold PyFloat.min, SFltb.
  destruct a as [sa|sa| |[] ma ea]; simpl in Ha; try contradiction;
    destruct b as [sb|sb| |[] mb eb]; simpl in Hb; try contradiction;
    simpl in H; cbn [SFcompare]; simpl; try tauto;
    repeat match goal with |- context [match ?c with _ => _ end] => destruct c end;
    simpl; tauto.
Qed.

Lemma contain_scale_nonpos (img : Image) (tw th : Z) :
  0 < width img -> 0 < height img -> tw <= 0 \/ th <= 0 ->
  contain_scale img tw th = Raise OverflowError
  \/ exists sc, contain_scale img tw th = Ok sc /\ nonpos_shape sc.
Proof.
  intros Hw Hh Ht. unfold contain_scale.
  destruct (int_truediv tw (width img)) as [f1|e1] eqn:E1; cbn [rbind].
  2:{ left. apply int_truediv_raises in E1; [subst; reflexivity|lia]. }
  destruct (int_truediv th (height img)) as [f2|e2] eqn:E2; cbn [rbind].
  2:{ left. apply int_truediv_raises in E2; [subst; reflexivity|lia]. }
  right. exists (PyFloat.min f1 f2). split; [reflexivity|].
  destruct (int_truediv_shape _ _ _ Hw E1) as [F1 N1].
  destruct (int_truediv_shape _ _ _ Hh E2) as [F2 N2].
  apply min_nonpos; try assumption. destruct Ht; [left|right]; auto.
Qed.

End SignFacts.

(** ** Runs of [resize_to_poster] *)

Lemma half_excess_bounds (e : Z) : 0 <= e -> 0 <= e / 2 /\ e / 2 + (e - e / 2) = e /\ e / 2 <= e.
Proof. intros H. pose proof (Z.div_mod e 2 ltac:(lia)). pose proof (Z.mod_pos_bound e 2 ltac:(lia)). lia. Qed.

Lemma floor_half_split (e : Z) :
  e - e / 2 = e / 2 + e mod 2 /\ (Z.odd e = true -> e - e / 2 = e / 2 + 1)
  /\ (Z.even e = true -> e - e / 2 = e / 2).
Proof.
  pose proof (Z.div_mod e 2 ltac:(lia)) as Hd.
  pose proof (Z.mod_pos_bound e 2 ltac:(lia)) as Hm.
  pose proof (Zmod_odd e) as Ho. rewrite <- Z.negb_odd.
  destruct (Z.odd e); cbn [negb]; split; try lia; split; intros H;
    try discriminate; lia.
Qed.

(** The two runs up to the call after [resize]. *)
Lemma cover_after_resize (alloc : Allocator) (img : Image) (tw th new_w new_h : Z) :
  cover_size img tw th = Ok (new_w, new_h) ->
  1 <= new_w < 2 ^ 31 -> 1 <= new_h < 2 ^ 31 -> alloc new_w new_h = true ->
  run (resize_to_poster alloc img (tw, th) "cover")
  = Image_crop alloc (resized img new_w new_h LANCZOS) (cover_box new_w new_h tw th)
      [Resize (new_w, new_h) LANCZOS].
Proof.
  intros Hs Hw Hh Ha. unfold cover_size in Hs.
  unfold run, resize_to_poster.
  cbn [String.eqb Ascii.eqb Bool.eqb]. cbv iota.
  destruct (cover_scale img tw th) as [sc|e]; cbn [rbind] in Hs; [|discriminate].
  cbv beta iota delta [bind lift]. rewrite Hs. cbv beta iota.
  rewrite (resize_run alloc img new_w new_h LANCZOS [] Hw Hh Ha). reflexivity.
Qed.

Lemma contain_after_resize (alloc : Allocator) (img : Image) (tw th new_w new_h : Z) :
  contain_size img tw th = Ok (new_w, new_h) ->
  1 <= new_w < 2 ^ 31 -> 1 <= new_h < 2 ^ 31 -> alloc new_w new_h = true ->
  run (resize_to_poster alloc img (tw, th) "contain")
  = (bg <- Image_new alloc (tw, th) white ;;
     Image_paste bg (resized img new_w new_h LANCZOS)
       (contain_offset new_w new_h tw th))
      [Resize (new_w, new_h) LANCZOS].
Proof.
  intros Hs Hw Hh Ha. unfold contain_size in Hs.
  unfold run, resize_to_poster.
  cbn [String.eqb Ascii.eqb Bool.eqb]. cbv iota.
  destruct (contain_scale img tw th) as [sc|e]; cbn [rbind] in Hs; [|discriminate].
  cbv beta iota delta [bind lift]. rewrite Hs. cbv beta iota.
  rewrite (resize_run alloc img new_w new_h LANCZOS [] Hw Hh Ha). reflexivity.
Qed.

Lemma run_cover (alloc : Allocator) (img : Image) (tw th new_w new_h : Z) :
  cover_size img tw th = Ok (new_w, new_h) ->
  1 <= new_w < 2 ^ 31 -> 1 <= new_h < 2 ^ 31 -> alloc new_w new_h = true ->
  0 <= tw <= new_w -> 0 <= th <= new_h ->
  bomb tw th = false -> alloc tw th = true ->
  run (resize_to_poster alloc img (tw, th) "cover")
  = ([Resize (new_w, new_h) LANCZOS; Crop (cover_box new_w new_h tw th)],
     Ok (cropped (resized img new_w new_h LANCZOS) (cover_box new_w new_h tw th))).
Proof.
  intros Hs Hw Hh Ha Htw Hth Hb Hc.
  rewrite (cover_after_resize alloc img tw th new_w new_h Hs Hw Hh Ha).
  pose proof (half_excess_bounds (new_w - tw) ltac:(lia)).
  pose proof (half_excess_bounds (new_h - th) ltac:(lia)).
  unfold cover_box. rewrite crop_run; try lia.
  - reflexivity.
  - replace ((new_w - tw) / 2 + tw - (new_w - tw) / 2) with tw by lia.
    replace ((new_h - th) / 2 + th - (new_h - th) / 2) with th by lia. exact Hb.
  - replace ((new_w - tw) / 2 + tw - (new_w - tw) / 2) with tw by lia.
    replace ((new_h - th) / 2 + th - (new_h - th) / 2) with th by lia. exact Hc.
Qed.

Lemma run_contain (alloc : Allocator) (img : Image) (tw th new_w new_h : Z) :
  contain_size img tw th = Ok (new_w, new_h) ->
  1 <= new_w <= tw -> 1 <= new_h <= th -> alloc new_w new_h = true ->
  tw < 2 ^ 31 -> th < 2 ^ 31 -> alloc tw th = true ->
  run (resize_to_poster alloc img (tw, th) "contain")
  = ([Resize (new_w, new_h) LANCZOS; New (tw, th) white;
      Paste (contain_offset new_w new_h tw th)],
     Ok (pasted (blank tw th white) (resized img new_w new_h LANCZOS)
           ((tw - new_w) / 2) ((th - new_h) / 2))).
Proof.
  intros Hs Hw Hh Ha Htw Hth Hc.
  rewrite (contain_after_resize alloc img tw th new_w new_h Hs) by (lia || assumption).
  pose proof (half_excess_bounds (tw - new_w) ltac:(lia)).
  pose proof (half_excess_bounds (th - new_h) ltac:(lia)).
  pose proof (resized_size img new_w new_h LANCZOS) as Rs.
  unfold size in Rs.
  assert (Rw : width (resized img new_w new_h LANCZOS) = new_w) by congruence.
  assert (Rh : height (resized img new_w new_h LANCZOS) = new_h) by congruence.
  unfold bind. rewrite new_run by (lia || assumption).
  unfold contain_offset. rewrite paste_run by (rewrite ?Rw, ?Rh; lia).
  reflexivity.
Qed.

(** A scaled side below 1 is refused by [resize]: nothing else is called. *)
Lemma run_contain_degenerate (alloc : Allocator) (img : Image)
      (tw th new_w new_h : Z) :
  0 < width img -> 0 < height img ->
  contain_size img tw th = Ok (new_w, new_h) ->
  - 2 ^ 31 <= new_w < 2 ^ 31 -> - 2 ^ 31 <= new_h < 2 ^ 31 ->
  new_w < 1 \/ new_h < 1 ->
  run (resize_to_poster alloc img (tw, th) "contain")
  = ([Resize (new_w, new_h) LANCZOS],
     Raise (ValueError "height and width must be > 0")).
Proof.
  intros Iw Ih Hs Hw Hh Hd. unfold contain_size in Hs.
  unfold run, resize_to_poster.
  cbn [String.eqb Ascii.eqb Bool.eqb]. cbv iota.
  destruct (contain_scale img tw th) as [sc|e]; cbn [rbind] in Hs; [|discriminate].
  cbv beta iota delta [bind lift]. rewrite Hs. cbv beta iota.
  rewrite (resize_refused alloc img new_w new_h LANCZOS [] Iw Ih Hw Hh Hd).
  reflexivity.
Qed.

Lemma getpixel_cropped (im : Image) (l u r lo x y : Z) :
  0 <= x < r - l -> 0 <= y < lo - u ->
  getpixel (cropped im (l, u, r, lo)) x y
  = Some (if in_bounds im (x + l) (y + u) then pix im (x + l) (y + u) else black).
Proof.
  intros Hx Hy. unfold getpixel, in_bounds, cropped. cbn [width height pix].
  zbool. reflexivity.
Qed.

Lemma in_bounds_true (im : Image) (x y : Z) :
  0 <= x < width im -> 0 <= y < height im -> in_bounds im x y = true.
Proof. intros Hx Hy. unfold in_bounds. zbool. reflexivity. Qed.

Lemma resized_sides (im : Image) (w h : Z) (f : resampling) :
  width (resized im w h f) = w /\ height (resized im w h f) = h.
Proof.
  pose proof (resized_size im w h f) as Rs. unfold size in Rs.
  split; congruence.
Qed.

(** What a run of cover that returns has done. *)
Lemma cover_returned (alloc : Allocator) (img : Image) (tw th : Z)
      (tr : list event) (out : Image) :
  run (resize_to_poster alloc img (tw, th) "cover") = (tr, Ok out) ->
  exists new_w new_h,
    cover_size img tw th = Ok (new_w, new_h)
    /\ tr = [Resize (new_w, new_h) LANCZOS; Crop (cover_box new_w new_h tw th)]
    /\ out = cropped (resized img new_w new_h LANCZOS) (cover_box new_w new_h tw th)
    /\ 0 <= tw /\ 0 <= th.
Proof.
  unfold run, resize_to_poster, cover_size.
  cbn [String.eqb Ascii.eqb Bool.eqb]. cbv iota.
  unfold bind, lift.
  destruct (cover_scale img tw th) as [sc|e]; [|discriminate]. cbn [rbind].
  destruct (scaled_size img sc) as [[nw nh]|e]; [|discriminate].
  unfold Image_resize, bind, emit, raise, ret. cbn [app].
  assert (K : forall im',
             Image_crop alloc im' ((nw - tw) / 2, (nh - th) / 2,
                                   (nw - tw) / 2 + tw, (nh - th) / 2 + th)
               [Resize (nw, nh) LANCZOS] = (tr, Ok out) ->
             tr = [Resize (nw, nh) LANCZOS; Crop (cover_box nw nh tw th)]
             /\ out = cropped im' (cover_box nw nh tw th) /\ 0 <= tw /\ 0 <= th).
  { intros im'. unfold Image_crop, bind, emit, raise, ret. cbn [app].
    destruct (Z.ltb_spec ((nw - tw) / 2 + tw) ((nw - tw) / 2)); [discriminate|].
    destruct (Z.ltb_spec ((nh - th) / 2 + th) ((nh - th) / 2)); [discriminate|].
    destruct (bomb _ _); [discriminate|].
    destruct (negb _); [discriminate|].
    destruct (alloc _ _); [|discriminate].
    intros E. injection E as <- <-. repeat split; lia. }
  destruct (same_size img nw nh).
  - intros E. exists nw, nh. split; [reflexivity|]. apply (K _ E).
  - destruct (negb _); [discriminate|].
    destruct (_ || _); [discriminate|].
    destruct (alloc nw nh); [|discriminate].
    intros E. exists nw, nh. split; [reflexivity|]. apply (K _ E).
Qed.

(** Under cover the scaled image reaches the target on both axes; the
    run returns its centre crop, of exactly the target size, when Pillow
    can hold the scaled image and the crop. *)
Lemma cover_run_returns_target (alloc : Allocator) (img : Image) (tw th : Z) :
  0 < width img < 2 ^ 31 -> 0 < height img < 2 ^ 31 ->
  0 < tw < 2 ^ 31 -> 0 < th < 2 ^ 31 ->
  exists new_w new_h,
    cover_size img tw th = Ok (new_w, new_h)
    /\ tw <= new_w /\ th <= new_h
    /\ (new_w < 2 ^ 31 -> new_h < 2 ^ 31 -> alloc new_w new_h = true ->
        bomb tw th = false -> alloc tw th = true ->
        run (resize_to_poster alloc img (tw, th) "cover")
        = ([Resize (new_w, new_h) LANCZOS; Crop (cover_box new_w new_h tw th)],
           Ok (cropped (resized img new_w new_h LANCZOS)
                 (cover_box new_w new_h tw th))))
    /\ size (cropped (resized img new_w new_h LANCZOS) (cover_box new_w new_h tw th))
       = (tw, th).
Proof.
  intros Hw Hh Htw Hth.
  destruct (FloatFacts.cover_reaches_target img tw th Hw Hh Htw Hth)
    as (sc & nw & nh & Hsc & Hsz & Gw & Gh).
  assert (Hcs : cover_size img tw th = Ok (nw, nh))
    by (unfold cover_size; rewrite Hsc; exact Hsz).
  exists nw, nh.
  split; [exact Hcs|]. split; [exact Gw|]. split; [exact Gh|].
  split; [intros; apply run_cover; (assumption || lia)|].
  unfold size, cover_box, cropped; cbn [width height]; f_equal; lia.
Qed.

(** ** Targets that are zero or negative *)

Lemma scaled_size_nonpos (img : Image) (sc : PyFloat.float) :
  0 < width img -> 0 < height img -> nonpos_shape sc ->
  scaled_size img sc = Raise OverflowError
  \/ exists new_w new_h, scaled_size img sc = Ok (new_w, new_h) /\ new_w <= 0.
Proof.
  intros Hw Hh Hsc. unfold scaled_size.
  destruct (SignFacts.scaled_nonpos (width img) sc Hw Hsc) as [-> | (nw & -> & Hn)];
    cbn [rbind]; [left; reflexivity|].
  destruct (SignFacts.scaled_nonpos (height img) sc Hh Hsc) as [-> | (nh & -> & _)];
    cbn [rbind]; [left; reflexivity|].
  right. exists nw, nh. split; [reflexivity|exact Hn].
Qed.

(** [resize] to a width at or below 0: the size is outside a C [int] or
    below 1, and the call is refused either way. *)
Lemma resize_nonpos_width (alloc : Allocator) (img : Image) (w h : Z)
      (tr : list event) :
  0 < width img -> w <= 0 ->
  Image_resize alloc img (w, h) LANCZOS tr
  = (tr ++ [Resize (w, h) LANCZOS], Raise OverflowError)
  \/ Image_resize alloc img (w, h) LANCZOS tr
     = (tr ++ [Resize (w, h) LANCZOS],
        Raise (ValueError "height and width must be > 0")).
Proof.
  intros Iw Hw. unfold Image_resize, bind, emit, ret, raise.
  assert (S : same_size img w h = false).
  { unfold same_size. destruct (Z.eqb_spec w (width img)); [lia|].
    rewrite andb_false_r. reflexivity. }
  rewrite S. destruct (negb _); [left; reflexivity|].
  rewrite (ltb_true w 1) by lia. right. reflexivity.
Qed.

(** The rest of a policy after a scale that is zero or negative. *)
Lemma nonpos_scale_fails (alloc : Allocator) (img : Image) (sc : PyFloat.float)
      (k : Z -> Z -> Image -> M Image) :
  0 < width img -> 0 < height img -> nonpos_shape sc ->
  exists tr e,
    (nsz <- lift (scaled_size img sc) ;;
     let '(new_w, new_h) := nsz in
     img_resized <- Image_resize alloc img (new_w, new_h) LANCZOS ;;
     k new_w new_h img_resized) [] = (tr, Raise e)
    /\ ((e = OverflowError /\ (tr = [] \/ exists sz, tr = [Resize sz LANCZOS]))
        \/ (e = ValueError "height and width must be > 0"
            /\ exists sz, tr = [Resize sz LANCZOS])).
Proof.
  intros Hw Hh Hsc. unfold bind, lift.
  destruct (scaled_size_nonpos img sc Hw Hh Hsc) as [-> | (nw & nh & -> & Hn)].
  - exists [], OverflowError. split; [reflexivity|]. left. split; [reflexivity|].
    left. reflexivity.
  - destruct (resize_nonpos_width alloc img nw nh [] Hw Hn) as [-> | ->].
    + exists [Resize (nw, nh) LANCZOS], OverflowError.
      split; [reflexivity|]. left. split; [reflexivity|]. right. eauto.
    + exists [Resize (nw, nh) LANCZOS], (ValueError "height and width must be > 0").
      split; [reflexivity|]. right. split; [reflexivity|]. eauto.
Qed.

(** With a finite scale the scaled size is computed, or is beyond the
    floats or the ints. *)
Lemma scaled_raises (w : Z) (sc : PyFloat.float) (e : exn) :
  0 < w -> finite_shape sc -> scaled w sc = Raise e -> e = OverflowError.
Proof.
  intros Hw Hsc. unfold scaled, PyFloat.int_mul.
  destruct (SignFacts.of_int_shape w Hw) as [-> | [-> | (m & ex & ->)]]; cbn [rbind].
  - congruence.
  - destruct sc as [s|s| |s ms es]; simpl in Hsc; try contradiction;
      cbn [PyFloat.mul SFmul PyFloat.round]; discriminate.
  - destruct sc as [s|s| |s ms es]; simpl in Hsc; try contradiction.
    + cbn [PyFloat.mul SFmul PyFloat.round]. discriminate.
    + unfold PyFloat.mul. cbn [SFmul].
      destruct (SignFacts.binary_round_aux_shape (xorb false s) (Zpos (m * ms)) (ex + es)
                  loc_Exact ltac:(lia))
        as [-> | [(m' & e' & ->) | ->]]; cbn [PyFloat.round].
      * discriminate.
      * destruct (xorb false s); discriminate.
      * congruence.
Qed.

Lemma scaled_size_raises (img : Image) (sc : PyFloat.float) (e : exn) :
  0 < width img -> 0 < height img -> finite_shape sc ->
  scaled_size img sc = Raise e -> e = OverflowError.
Proof.
  intros Hw Hh Hsc. unfold scaled_size.
  destruct (scaled (width img) sc) as [nw|e1] eqn:E1; cbn [rbind].
  - destruct (scaled (height img) sc) as [nh|e2] eqn:E2; cbn [rbind]; [discriminate|].
    intros E. assert (e2 = e) by congruence. subst e2.
    exact (scaled_raises _ _ _ Hh Hsc E2).
  - intros E. assert (e1 = e) by congruence. subst e1.
    exact (scaled_raises _ _ _ Hw Hsc E1).
Qed.

Lemma cover_scale_outcome (img : Image) (tw th : Z) :
  0 < width img -> 0 < height img ->
  cover_scale img tw th = Raise OverflowError
  \/ exists sc, cover_scale img tw th = Ok sc /\ finite_shape sc.
Proof.
  intros Hw Hh. unfold cover_scale.
  destruct (PyFloat.int_truediv tw (width img)) as [f1|e1] eqn:E1; cbn [rbind].
  2:{ left. apply SignFacts.int_truediv_raises in E1; [subst; reflexivity|lia]. }
  destruct (PyFloat.int_truediv th (height img)) as [f2|e2] eqn:E2; cbn [rbind].
  2:{ left. apply SignFacts.int_truediv_raises in E2; [subst; reflexivity|lia]. }
  right. eexists. split; [reflexivity|].
  destruct (SignFacts.int_truediv_shape _ _ _ Hw E1) as [N1 _].
  destruct (SignFacts.int_truediv_shape _ _ _ Hh E2) as [N2 _].
  unfold PyFloat.max. destruct (SFltb f1 f2); assumption.
Qed.

(** How [resize] can fail. *)
Lemma resize_failures (alloc : Allocator) (im : Image) (sz : Z * Z)
      (f : resampling) (tr tr' : list event) (e : exn) :
  Image_resize alloc im sz f tr = (tr', Raise e) ->
  tr' = tr ++ [Resize sz f]
  /\ (e = OverflowError \/ e = ValueError "height and width must be > 0"
      \/ e = MemoryError).
Proof.
  destruct sz as [w h]. unfold Image_resize, bind, emit, ret, raise.
  repeat match goal with
         | |- context [if ?c then _ else _] => destruct c
         end; intros E; try discriminate E;
    injection E as <- <-; split; auto.
Qed.

(** ** Slicing and reassembly *)

Lemma paste_pixel_same (m : colour) (p : pixel) : paste_pixel m m p = p.
Proof. unfold paste_pixel. rewrite String.eqb_refl. reflexivity. Qed.

Lemma save_jpeg_run (im : Image) (dir name : string) (tr : list event) :
  0 < width im <= 65500 -> 0 < height im <= 65500 ->
  mode_in (im_mode im) jpeg_modes = true ->
  Image_save im dir name "JPEG" tr = (tr ++ [Save dir name "JPEG" im], Ok tt).
Proof.
  intros Hw Hh Hm. unfold Image_save.
  change ("JPEG" =? "JPEG")%string with true. cbv iota.
  destruct (Z.eqb_spec (width im) 0); [lia|].
  destruct (Z.eqb_spec (height im) 0); [lia|]. cbn [orb].
  rewrite Hm. cbn [negb].
  rewrite (ltb_false 65500 (width im)), (ltb_false 65500 (height im)) by lia.
  reflexivity.
Qed.

(** JPEG does not store the other modes: nothing is written. *)
Lemma save_jpeg_refused (im : Image) (dir name : string) (tr : list event) :
  0 < width im -> 0 < height im ->
  mode_in (im_mode im) jpeg_modes = false ->
  Image_save im dir name "JPEG" tr
  = (tr, Raise (OSError ("cannot write mode " ++ mode_name (im_mode im) ++ " as JPEG"))).
Proof.
  intros Hw Hh Hm. unfold Image_save.
  change ("JPEG" =? "JPEG")%string with true. cbv iota.
  destruct (Z.eqb_spec (width im) 0); [lia|].
  destruct (Z.eqb_spec (height im) 0); [lia|]. cbn [orb].
  rewrite Hm. reflexivity.
Qed.

Lemma save_png_run (im : Image) (dir name : string) (tr : list event) :
  0 < width im -> 0 < height im ->
  Image_save im dir name "PNG" tr = (tr ++ [Save dir name "PNG" im], Ok tt).
Proof.
  intros Hw Hh. unfold Image_save.
  change ("PNG" =? "JPEG")%string with false. cbv iota.
  rewrite (leb_false (width im) 0), (leb_false (height im) 0) by lia.
  reflexivity.
Qed.

Lemma tile_crop_run (alloc : Allocator) (im : Image) (cell_w cell_h : Z)
      (rc : Z * Z) (tr : list event) :
  0 <= cell_w < 2 ^ 30 -> 0 <= cell_h < 2 ^ 30 ->
  0 <= fst rc <= 1 -> 0 <= snd rc <= 1 ->
  bomb cell_w cell_h = false -> alloc cell_w cell_h = true ->
  Image_crop alloc im (tile_box cell_w cell_h rc) tr
  = (tr ++ [Crop (tile_box cell_w cell_h rc)],
     Ok (cropped im (tile_box cell_w cell_h rc))).
Proof.
  intros Hw Hh Hr Hc Hb Ha. unfold tile_box.
  change (2 ^ 30) with 1073741824 in *.
  assert (E1 : snd rc * cell_w + cell_w - snd rc * cell_w = cell_w) by lia.
  assert (E2 : fst rc * cell_h + cell_h - fst rc * cell_h = cell_h) by lia.
  apply crop_run; rewrite ?E1, ?E2; try assumption;
    change (2 ^ 31) with 2147483648; nia.
Qed.

Lemma slice_2x2_from (alloc : Allocator) (poster : Image) (cell_w cell_h : Z)
      (tr : list event) :
  0 <= cell_w < 2 ^ 30 -> 0 <= cell_h < 2 ^ 30 ->
  bomb cell_w cell_h = false -> alloc cell_w cell_h = true ->
  slice_2x2 alloc poster cell_w cell_h tr
  = (tr ++ map (fun rc => Crop (tile_box cell_w cell_h rc)) [(0, 0); (0, 1); (1, 0); (1, 1)],
     Ok (map (fun rc => (rc, cropped poster (tile_box cell_w cell_h rc)))
           [(0, 0); (0, 1); (1, 0); (1, 1)])).
Proof.
  intros Hw Hh Hb Ha. unfold slice_2x2. change (range 2) with [0; 1].
  cbn [for_fold]. cbv beta iota delta [bind ret].
  rewrite (tile_crop_run alloc poster cell_w cell_h (0, 0)) by (cbn [fst snd]; auto; lia).
  cbv beta iota.
  rewrite (tile_crop_run alloc poster cell_w cell_h (0, 1)) by (cbn [fst snd]; auto; lia).
  cbv beta iota.
  rewrite (tile_crop_run alloc poster cell_w cell_h (1, 0)) by (cbn [fst snd]; auto; lia).
  cbv beta iota.
  rewrite (tile_crop_run alloc poster cell_w cell_h (1, 1)) by (cbn [fst snd]; auto; lia).
  cbv beta iota.
  rewrite <- !app_assoc. reflexivity.
Qed.

Lemma cropped_tile_size (poster : Image) (cell_w cell_h : Z) (rc : Z * Z) :
  size (cropped poster (tile_box cell_w cell_h rc)) = (cell_w, cell_h).
Proof. unfold size, cropped, tile_box. cbn [width height]. f_equal; lia. Qed.

Lemma cropped_mode (im : Image) (b : box) : im_mode (cropped im b) = im_mode im.
Proof. destruct b as [[[l u] r] lo]. reflexivity. Qed.

Lemma tile_save_run (img : Image) (cell_w cell_h : Z) (rc : Z * Z)
      (name : string) (tr : list event) :
  0 < cell_w <= 65500 -> 0 < cell_h <= 65500 ->
  mode_in (im_mode img) jpeg_modes = true ->
  Image_save (cropped img (tile_box cell_w cell_h rc)) "" name "JPEG" tr
  = (tr ++ [Save "" name "JPEG" (cropped img (tile_box cell_w cell_h rc))], Ok tt).
Proof.
  intros Hw Hh Hm.
  pose proof (cropped_tile_size img cell_w cell_h rc) as S.
  assert (Sw : width (cropped img (tile_box cell_w cell_h rc)) = cell_w)
    by (unfold size in S; congruence).
  assert (Sh : height (cropped img (tile_box cell_w cell_h rc)) = cell_h)
    by (unfold size in S; congruence).
  apply save_jpeg_run; rewrite ?Sw, ?Sh, ?cropped_mode; assumption.
Qed.


Lemma tile_paste_run (bg poster : Image) (cell_w cell_h l t : Z) (rc : Z * Z)
      (tr : list event) :
  0 <= cell_w < 2 ^ 30 -> 0 <= cell_h < 2 ^ 30 ->
  0 <= l <= cell_w -> 0 <= t <= cell_h ->
  Image_paste bg (cropped poster (tile_box cell_w cell_h rc)) (l, t) tr
  = (tr ++ [Paste (l, t)],
     Ok (pasted bg (cropped poster (tile_box cell_w cell_h rc)) l t)).
Proof.
  intros Hw Hh Hl Ht.
  pose proof (cropped_tile_size poster cell_w cell_h rc) as S.
  assert (Sw : width (cropped poster (tile_box cell_w cell_h rc)) = cell_w)
    by (unfold size in S; congruence).
  assert (Sh : height (cropped poster (tile_box cell_w cell_h rc)) = cell_h)
    by (unfold size in S; congruence).
  change (2 ^ 30) with 1073741824 in *.
  apply paste_run; rewrite ?Sw, ?Sh; change (2 ^ 31) with 2147483648; lia.
Qed.

Lemma grid_2x2_lossless (poster canvas : Image) (cell_w cell_h : Z)
      (order : list (Z * Z)) :
  0 <= cell_w < 2 ^ 30 -> 0 <= cell_h < 2 ^ 30 ->
  size poster = (2 * cell_w, 2 * cell_h) -> size canvas = size poster ->
  im_mode canvas = im_mode poster ->
  order = [(0, 0); (0, 1); (1, 0); (1, 1)] \/ order = [(0, 0); (1, 0); (0, 1); (1, 1)] ->
  lossless poster canvas
    (map (fun rc => (tile_box cell_w cell_h rc, cropped poster (tile_box cell_w cell_h rc)))
       order).
Proof.
  intros Hw Hh Hp Hc Hm Ho.
  assert (Pw : width poster = 2 * cell_w) by (unfold size in Hp; congruence).
  assert (Ph : height poster = 2 * cell_h) by (unfold size in Hp; congruence).
  assert (Cw : width canvas = 2 * cell_w) by (unfold size in Hp, Hc; congruence).
  assert (Ch : height canvas = 2 * cell_h) by (unfold size in Hp, Hc; congruence).
  change (2 ^ 30) with 1073741824 in *.
  unfold lossless.
  destruct Ho as [-> | ->];
    (eexists; split;
     [unfold run, reassemble; cbn [map for_fold fst snd tile_box];
      cbv beta iota delta [bind ret];
      repeat (rewrite (tile_paste_run _ poster cell_w cell_h)
                by (change (2 ^ 30) with 1073741824; lia);
              cbv beta iota);
      reflexivity
     |split;
      [unfold size; cbn [pasted width height]; congruence
      |intros x y;
       cbv [getpixel in_bounds pasted cropped tile_box width height pix fst snd im_mode];
       fold (width poster) (height poster) (width canvas) (height canvas)
            (im_mode poster) (im_mode canvas);
       rewrite ?Pw, ?Ph, ?Cw, ?Ch, ?Hm, ?paste_pixel_same;
       destruct (Z_lt_le_dec x 0), (Z_lt_le_dec x cell_w), (Z_lt_le_dec x (2 * cell_w)),
         (Z_lt_le_dec y 0), (Z_lt_le_dec y cell_h), (Z_lt_le_dec y (2 * cell_h));
       try lia; zbool; cbn [andb]; try reflexivity; f_equal; f_equal; lia]]).
Qed.


(** ** [main] at 300 dpi *)

Lemma a4_pixels_300 : a4_pixels 300 = Ok (2480, 3508).
Proof. vm_compute. reflexivity. Qed.

Lemma as_rgb_size (tile : Image) : size (as_rgb tile) = size tile.
Proof. unfold as_rgb. destruct (negb _); reflexivity. Qed.

Lemma as_rgb_sides (tile : Image) :
  width (as_rgb tile) = width tile /\ height (as_rgb tile) = height tile.
Proof. unfold as_rgb. destruct (negb _); split; reflexivity. Qed.

Lemma rgb_or_rgba_sides (img : Image) :
  width (rgb_or_rgba img) = width img /\ height (rgb_or_rgba img) = height img.
Proof. unfold rgb_or_rgba. destruct (negb _); split; reflexivity. Qed.

Lemma cover_size_rgb_or_rgba (img : Image) (tw th : Z) :
  cover_size (rgb_or_rgba img) tw th = cover_size img tw th.
Proof.
  destruct (rgb_or_rgba_sides img) as [Ew Eh].
  unfold cover_size, cover_scale, scaled_size. rewrite Ew, Eh. reflexivity.
Qed.

Lemma contain_size_rgb_or_rgba (img : Image) (tw th : Z) :
  contain_size (rgb_or_rgba img) tw th = contain_size img tw th.
Proof.
  destruct (rgb_or_rgba_sides img) as [Ew Eh].
  unfold contain_size, contain_scale, scaled_size. rewrite Ew, Eh. reflexivity.
Qed.

Lemma save_tile_png_run (tile : Image) (dir name : string) (dpi : Z)
      (tr : list event) :
  png_tag_ok dpi = true -> 0 < width tile -> 0 < height tile ->
  save_tile_png tile dir name dpi tr
  = (tr ++ [Save dir name "PNG" (as_rgb tile)], Ok tt).
Proof.
  intros Ht Hw Hh. destruct (as_rgb_sides tile) as [Ew Eh].
  unfold save_tile_png, Image_save_png_dpi, bind, lift.
  unfold png_tag_ok in Ht.
  destruct (png_pixels_per_metre dpi) as [ppm|e]; [|discriminate Ht].
  apply andb_true_iff in Ht. destruct Ht as [T1 T2].
  apply Z.leb_le in T1. apply Z.ltb_lt in T2.
  rewrite (ltb_false ppm 0), (leb_false (2 ^ 32) ppm) by lia. cbn [orb].
  apply save_png_run; rewrite ?Ew, ?Eh; assumption.
Qed.

(** A PDF page is drawn, or the call fails and draws nothing. *)
Lemma save_tile_pdf_cases (tile : Image) (dir name : string)
      (margin : PyFloat.float) (tr : list event) :
  (exists x y w h,
     save_tile_pdf tile dir name margin tr = (tr ++ [DrawImage name x y w h], Ok tt))
  \/ (exists e, save_tile_pdf tile dir name margin tr = (tr, Raise e)).
Proof.
  unfold save_tile_pdf, bind, lift.
  destruct (pdf_placement _ _ margin) as [[[[x y] w] h]|e].
  - unfold Canvas_drawImage.
    destruct (finite x && finite y && finite w && finite h).
    + left. exists x, y, w, h. reflexivity.
    + right. eexists. reflexivity.
  - right. exists e. reflexivity.
Qed.

Lemma save_tile_pdf_a4 (tile : Image) (dir name : string) (tr : list event) :
  size tile = (2480, 3508) ->
  save_tile_pdf tile dir name (S754_zero false) tr
  = (tr ++ [DrawImage name (S754_finite false 6987152116727808 (-57)) (S754_zero false)
              (S754_finite false 5235246544495617 (-43))
              (S754_finite false 7405340676649445 (-43))],
     Ok tt).
Proof.
  intros Hs. destruct (as_rgb_sides tile) as [Ew Eh].
  assert (Hw : width tile = 2480) by (unfold size in Hs; congruence).
  assert (Hh : height tile = 3508) by (unfold size in Hs; congruence).
  unfold save_tile_pdf. rewrite Ew, Eh, Hw, Hh.
  vm_compute. reflexivity.
Qed.

(** [main] up to the first save. *)
Lemma main_sliced (alloc : Allocator) (img : Image) (args : Args) (W H : Z)
      (tr0 : list event) (poster : Image) :
  a4_pixels (dpi args) = Ok (W, H) ->
  0 <= W < 2 ^ 30 -> 0 <= H < 2 ^ 30 ->
  bomb W H = false -> alloc W H = true ->
  run (resize_to_poster alloc (rgb_or_rgba img) (W * 2, H * 2) (mode args))
  = (tr0, Ok poster) ->
  run (main alloc img args)
  = (for_fold
       (map (fun rc => (rc, cropped poster (tile_box W H rc)))
          [(0, 0); (0, 1); (1, 0); (1, 1)]) tt
       (fun _ t =>
          let '((row, col), tile) := t in
          save_tile_png tile (outdir args) (tile_name args row col ".png") (dpi args) ;;;
          save_tile_pdf tile (outdir args) (tile_name args row col ".pdf")
            (margin_mm args)) ;;;
     emit (WriteText (outdir args) "README.txt") ;;;
     ret (map (fun rc => (rc, cropped poster (tile_box W H rc)))
            [(0, 0); (0, 1); (1, 0); (1, 1)]))
      (tr0 ++ map (fun rc => Crop (tile_box W H rc)) [(0, 0); (0, 1); (1, 0); (1, 1)]).
Proof.
  intros Ha HW HH Hb Hal Hp. unfold run in *. unfold main. rewrite Ha.
  cbv beta iota delta [bind lift fst snd].
  rewrite Hp. rewrite slice_2x2_from by assumption. reflexivity.
Qed.

Lemma main_stops_at_poster (alloc : Allocator) (img : Image) (args : Args)
      (W H : Z) (tr0 : list event) (e : exn) :
  a4_pixels (dpi args) = Ok (W, H) ->
  run (resize_to_poster alloc (rgb_or_rgba img) (W * 2, H * 2) (mode args))
  = (tr0, Raise e) ->
  run (main alloc img args) = (tr0, Raise e).
Proof.
  intros Ha Hp. unfold run in *. unfold main. rewrite Ha.
  cbv beta iota delta [bind lift fst snd].
  rewrite Hp. reflexivity.
Qed.

Lemma save_tile_pdf_page (tile : Image) (dir name : string)
      (margin : PyFloat.float) (tr : list event) :
  save_tile_pdf tile dir name margin tr
  = match pdf_page (width tile) (height tile) margin with
    | Ok (x, y, w, h) => (tr ++ [DrawImage name x y w h], Ok tt)
    | Raise e => (tr, Raise e)
    end.
Proof.
  destruct (as_rgb_sides tile) as [Ew Eh].
  unfold save_tile_pdf, pdf_page, bind, lift. rewrite Ew, Eh.
  destruct (pdf_placement _ _ margin) as [[[[x y] w] h]|e]; [|reflexivity].
  unfold Canvas_drawImage.
  destruct (finite x && finite y && finite w && finite h); reflexivity.
Qed.

Lemma tile_sides (poster : Image) (W H : Z) (rc : Z * Z) :
  width (cropped poster (tile_box W H rc)) = W
  /\ height (cropped poster (tile_box W H rc)) = H.
Proof.
  pose proof (cropped_tile_size poster W H rc) as E. unfold size in E.
  split; congruence.
Qed.

(** The files of one tile: the PNG, then the PDF page when it can be
    drawn. *)
Lemma tile_pair_run (args : Args) (poster : Image) (W H : Z) (rc : Z * Z)
      (tr : list event) :
  png_tag_ok (dpi args) = true -> 0 < W -> 0 < H ->
  (save_tile_png (cropped poster (tile_box W H rc)) (outdir args)
     (tile_name args (fst rc) (snd rc) ".png") (dpi args) ;;;
   save_tile_pdf (cropped poster (tile_box W H rc)) (outdir args)
     (tile_name args (fst rc) (snd rc) ".pdf") (margin_mm args)) tr
  = match pdf_page W H (margin_mm args) with
    | Ok g => (tr ++ tile_files args poster W H g rc, Ok tt)
    | Raise e =>
        (tr ++ [Save (outdir args) (tile_name args (fst rc) (snd rc) ".png") "PNG"
                  (as_rgb (cropped poster (tile_box W H rc)))],
         Raise e)
    end.
Proof.
  intros Ht HW HH. destruct (tile_sides poster W H rc) as [Ew Eh].
  unfold bind. rewrite save_tile_png_run by (rewrite ?Ew, ?Eh; assumption).
  rewrite save_tile_pdf_page, Ew, Eh.
  destruct (pdf_page W H (margin_mm args)) as [[[[x y] w] h]|e]; [|reflexivity].
  unfold tile_files. rewrite <- app_assoc. reflexivity.
Qed.

Lemma save_loop_run (args : Args) (poster : Image) (W H : Z)
      (rcs : list (Z * Z)) (tr : list event) :
  png_tag_ok (dpi args) = true -> 0 < W -> 0 < H ->
  for_fold (map (fun rc => (rc, cropped poster (tile_box W H rc))) rcs) tt
    (fun _ t =>
       let '((row, col), tile) := t in
       save_tile_png tile (outdir args) (tile_name args row col ".png") (dpi args) ;;;
       save_tile_pdf tile (outdir args) (tile_name args row col ".pdf")
         (margin_mm args)) tr
  = match pdf_page W H (margin_mm args) with
    | Ok g => (tr ++ flat_map (tile_files args poster W H g) rcs, Ok tt)
    | Raise e =>
        match rcs with
        | [] => (tr, Ok tt)
        | rc :: _ =>
            (tr ++ [Save (outdir args) (tile_name args (fst rc) (snd rc) ".png") "PNG"
                      (as_rgb (cropped poster (tile_box W H rc)))],
             Raise e)
        end
    end.
Proof.
  intros Ht HW HH. revert tr. induction rcs as [|[row col] rcs IH]; intros tr.
  - cbn [map for_fold flat_map]. unfold ret. rewrite app_nil_r.
    destruct (pdf_page W H (margin_mm args)); reflexivity.
  - cbn [map for_fold flat_map]. unfold bind at 1.
    pose proof (tile_pair_run args poster W H (row, col) tr Ht HW HH) as T.
    cbn [fst snd] in T. cbv beta iota. rewrite T. clear T.
    cbn [fst snd].
    destruct (pdf_page W H (margin_mm args)) as [g|e] eqn:Eg; [|reflexivity].
    rewrite IH. rewrite <- app_assoc. reflexivity.
Qed.

(** Every run of [main] that gets its poster: all nine files when the PDF
    page of a tile can be drawn, the first PNG alone otherwise. *)
Lemma main_files (alloc : Allocator) (img : Image) (args : Args) (W H : Z)
      (tr0 : list event) (poster : Image) :
  a4_pixels (dpi args) = Ok (W, H) -> png_tag_ok (dpi args) = true ->
  0 < W < 2 ^ 30 -> 0 < H < 2 ^ 30 ->
  bomb W H = false -> alloc W H = true ->
  run (resize_to_poster alloc (rgb_or_rgba img) (W * 2, H * 2) (mode args))
  = (tr0, Ok poster) ->
  run (main alloc img args)
  = match pdf_page W H (margin_mm args) with
    | Ok g =>
        (tr0 ++ map (fun rc => Crop (tile_box W H rc)) grid
             ++ flat_map (tile_files args poster W H g) grid
             ++ [WriteText (outdir args) "README.txt"],
         Ok (tiles_of poster W H))
    | Raise e =>
        (tr0 ++ map (fun rc => Crop (tile_box W H rc)) grid
             ++ [Save (outdir args) (tile_name args 0 0 ".png") "PNG"
                   (as_rgb (cropped poster (tile_box W H (0, 0))))],
         Raise e)
    end.
Proof.
  intros Ha Ht HW HH Hb Hal Hp.
  rewrite (main_sliced alloc img args W H tr0 poster Ha) by (assumption || lia).
  unfold bind at 1.
  rewrite (save_loop_run args poster W H [(0, 0); (0, 1); (1, 0); (1, 1)])
    by (assumption || lia).
  unfold grid, tiles_of.
  destruct (pdf_page W H (margin_mm args)) as [g|e].
  - unfold bind, emit, ret. rewrite <- !app_assoc. reflexivity.
  - cbn [fst snd]. rewrite <- !app_assoc. reflexivity.
Qed.

Lemma png_tag_300 : png_tag_ok 300 = true.
Proof. vm_compute. reflexivity. Qed.

Lemma pdf_page_a4_300 :
  pdf_page 2480 3508 (S754_zero false)
  = Ok (S754_finite false 6987152116727808 (-57), S754_zero false,
        S754_finite false 5235246544495617 (-43),
        S754_finite false 7405340676649445 (-43)).
Proof. vm_compute. reflexivity. Qed.

Lemma pdf_page_no_height (tile_w tile_h : Z) :
  pdf_page tile_w tile_h margin_148_5 = Raise ZeroDivisionError
  \/ exists e, PyFloat.int_truediv tile_w tile_h = Raise e
               /\ pdf_page tile_w tile_h margin_148_5 = Raise e.
Proof.
  unfold pdf_page, pdf_placement.
  destruct (PyFloat.int_truediv tile_w tile_h) as [ar|e] eqn:E.
  - left. vm_compute. reflexivity.
  - right. exists e. split; [reflexivity|]. vm_compute. reflexivity.
Qed.

(** ** The page size at every resolution *)

Lemma mm_to_inches_values :
  mm_to_inches (fst A4_MM) = Ok (S754_finite false 4654310638522659 (-49))
  /\ mm_to_inches (snd A4_MM) = Ok (S754_finite false 6582525045910617 (-49)).
Proof. split; vm_compute; reflexivity. Qed.

(** A float constant within [2^-50] of [2 * half / 254], times an int
    below [2^31], rounds to the integer nearest to the exact product: the
    exact product is never within [1/254] of a half-integer. *)
Lemma a4_side_exact (mc : positive) (half dpi : Z) :
  2 ^ 52 <= Zpos mc < 2 ^ 53 ->
  0 < half <= 1500 ->
  (2 * half) * 2 ^ 49 * (2 ^ 50 - 1) <= Zpos mc * 254 * 2 ^ 50
    <= (2 * half) * 2 ^ 49 * (2 ^ 50 + 1) ->
  1 <= dpi < 2 ^ 31 ->
  rbind (PyFloat.mul_int (S754_finite false mc (-49)) dpi) PyFloat.round
  = Ok ((2 * half * dpi + 127) / 254).
Proof.
  intros Hc Hh Hv Hd.
  destruct (FloatFacts.of_int_exact dpi ltac:(lia)) as (md & ed & Hof & Cd & Ed & Vd).
  destruct (FloatFacts.mul_close mc md (-49) ed Hc Cd ltac:(lia))
    as (m & e & Hmul & Cm & Em & [Cl1 Cl2]).
  unfold PyFloat.mul_int. rewrite Hof. cbn [rbind]. rewrite Hmul. cbn [PyFloat.round].
  f_equal.
  set (z := (2 * half * dpi + 127) / 254).
  pose proof (Z.div_mod (2 * half * dpi + 127) 254 ltac:(lia)) as Hdm.
  pose proof (Z.mod_pos_bound (2 * half * dpi + 127) 254 ltac:(lia)) as Hmod.
  fold z in Hdm.
  assert (Z1 : 254 * z + 1 <= 2 * half * dpi + 127 <= 254 * z + 253) by lia.
  pose proof (FloatFacts.F2R_neg_exp (Zpos mc) 49) as Ev.
  change (Zneg 49) with (-49) in Ev.
  rewrite Vd in Cl1, Cl2.
  set (v := F2R (Zpos mc) (-49)) in *. set (V := F2R (Zpos m) e) in *.
  assert (PD : (1 <= IZR dpi < 2147483648)%R)
    by (split; [apply (IZR_le 1); lia|apply (IZR_lt _ (2 ^ 31)); lia]).
  assert (I1 : (IZR (2 * half * dpi) * 562949953421312 * 1125899906842623
                <= IZR (Zpos mc * dpi) * 254 * 1125899906842624)%R).
  { rewrite <- !mult_IZR. apply IZR_le.
    change 562949953421312 with (2 ^ 49). change 1125899906842623 with (2 ^ 50 - 1).
    change 1125899906842624 with (2 ^ 50). nia. }
  assert (I2 : (IZR (Zpos mc * dpi) * 254 * 1125899906842624
                <= IZR (2 * half * dpi) * 562949953421312 * 1125899906842625)%R).
  { rewrite <- !mult_IZR. apply IZR_le.
    change 562949953421312 with (2 ^ 49). change 1125899906842625 with (2 ^ 50 + 1).
    change 1125899906842624 with (2 ^ 50). nia. }
  assert (EX : (v * IZR dpi * 562949953421312 = IZR (Zpos mc * dpi))%R).
  { rewrite mult_IZR, <- Ev. change (IZR (2 ^ 49)) with 562949953421312%R. ring. }
  assert (PP : (0 < IZR (2 * half * dpi) < 6442450944000)%R).
  { split; [apply (IZR_lt 0); nia|apply (IZR_lt _ (3000 * 2 ^ 31)); nia]. }
  assert (ZR1 : (254 * IZR z + 1 <= IZR (2 * half * dpi) + 127)%R).
  { rewrite <- (mult_IZR 254), <- (plus_IZR _ 1), <- (plus_IZR _ 127). apply IZR_le. lia. }
  assert (ZR2 : (IZR (2 * half * dpi) + 127 <= 254 * IZR z + 253)%R).
  { rewrite <- (mult_IZR 254), <- (plus_IZR _ 253), <- (plus_IZR _ 127). apply IZR_le. lia. }
  set (X := (v * IZR dpi)%R) in *. set (P := IZR (2 * half * dpi)) in *.
  set (M := IZR (Zpos mc * dpi)) in *.
  assert (U : (u52 = / 4503599627370496)%R) by reflexivity.
  rewrite U in Cl1, Cl2.
  apply Z.le_antisymm.
  - apply FloatFacts.round_half_even_le. fold V. lra.
  - apply FloatFacts.round_half_even_ge. fold V. lra.
Qed.

Lemma a4_pixels_exact (dpi : Z) :
  1 <= dpi < 2 ^ 31 ->
  a4_pixels dpi = Ok ((2100 * dpi + 127) / 254, (2970 * dpi + 127) / 254).
Proof.
  intros Hd. destruct mm_to_inches_values as [Ew Eh].
  unfold a4_pixels. rewrite Ew, Eh. cbn [rbind].
  rewrite (a4_side_exact 4654310638522659 1050 dpi) by (simpl; lia).
  cbn [rbind].
  rewrite (a4_side_exact 6582525045910617 1485 dpi) by (simpl; lia).
  reflexivity.
Qed.

(** The quotient [(2 * n + 127) / 254] is the integer nearest to
    [2 * n / 254], and there are no ties. *)
Lemma nearest_254 (n : Z) :
  - 127 < 254 * ((2 * n + 127) / 254) - 2 * n <= 126.
Proof.
  pose proof (Z.div_mod (2 * n + 127) 254 ltac:(lia)).
  pose proof (Z.mod_pos_bound (2 * n + 127) 254 ltac:(lia)).
  lia.
Qed.

Lemma a4_pixels_bounds (d W H : Z) :
  1 <= d < 2 ^ 31 -> a4_pixels d = Ok (W, H) ->
  8 * d <= W <= 9 * d /\ 11 * d <= H <= 12 * d.
Proof.
  intros Hd E. rewrite (a4_pixels_exact d Hd) in E.
  assert (E1 : W = (2100 * d + 127) / 254) by congruence.
  assert (E2 : H = (2970 * d + 127) / 254) by congruence.
  clear E.
  pose proof (Z.div_mod (2100 * d + 127) 254 ltac:(lia)) as D1.
  pose proof (Z.mod_pos_bound (2100 * d + 127) 254 ltac:(lia)).
  pose proof (Z.div_mod (2970 * d + 127) 254 ltac:(lia)) as D2.
  pose proof (Z.mod_pos_bound (2970 * d + 127) 254 ltac:(lia)).
  rewrite <- E1 in D1. rewrite <- E2 in D2.
  lia.
Qed.

Lemma png_tiles_app (tr1 tr2 : list event) :
  png_tiles (tr1 ++ tr2) = png_tiles tr1 ++ png_tiles tr2.
Proof. unfold png_tiles. apply flat_map_app. Qed.

Lemma png_tiles_crops (bs : list box) : png_tiles (map Crop bs) = [].
Proof. induction bs as [|b bs IH]; [reflexivity|exact IH]. Qed.

(** ** What a computation adds to the trace *)

Lemma adds_ret {A} (P : event -> Prop) (a : A) : adds P (ret a).
Proof. intros tr. exists []. split; [symmetry; apply app_nil_r|constructor]. Qed.

Lemma adds_raise {A} (P : event -> Prop) (e : exn) : adds P (@raise A e).
Proof. intros tr. exists []. split; [symmetry; apply app_nil_r|constructor]. Qed.

Lemma adds_lift {A} (P : event -> Prop) (r : result A) : adds P (lift r).
Proof. intros tr. exists []. split; [symmetry; apply app_nil_r|constructor]. Qed.

Lemma adds_emit (P : event -> Prop) (e : event) : P e -> adds P (emit e).
Proof. intros H tr. exists [e]. split; [reflexivity|repeat constructor; exact H]. Qed.

Lemma adds_bind {A B} (P : event -> Prop) (m : M A) (k : A -> M B) :
  adds P m -> (forall a, adds P (k a)) -> adds P (bind m k).
Proof.
  intros Hm Hk tr. unfold bind.
  destruct (Hm tr) as (t1 & E1 & F1).
  destruct (m tr) as [tr1 [a|e]]; cbn [fst] in E1; subst tr1.
  - destruct (Hk a (tr ++ t1)) as (t2 & E2 & F2).
    exists (t1 ++ t2). rewrite E2, app_assoc. split; [reflexivity|].
    apply Forall_app. split; assumption.
  - exists t1. split; [reflexivity|exact F1].
Qed.

Lemma adds_for_fold {A S} (P : event -> Prop) (xs : list A) (s : S)
      (body : S -> A -> M S) :
  (forall s x, adds P (body s x)) -> adds P (for_fold xs s body).
Proof.
  intros Hb. revert s. induction xs as [|x xs IH]; intros s; cbn [for_fold].
  - apply adds_ret.
  - apply adds_bind; [apply Hb|intros s'; apply IH].
Qed.

Lemma adds_resize (P : event -> Prop) (alloc : Allocator) (im : Image)
      (sz : Z * Z) (f : resampling) :
  P (Resize sz f) -> adds P (Image_resize alloc im sz f).
Proof.
  intros H. unfold Image_resize. apply adds_bind; [apply adds_emit, H|].
  intros _. destruct sz as [w h].
  repeat match goal with
         | |- adds _ (if ?c then _ else _) => destruct c
         end; (apply adds_ret || apply adds_raise).
Qed.

Lemma adds_crop (P : event -> Prop) (alloc : Allocator) (im : Image) (b : box) :
  P (Crop b) -> adds P (Image_crop alloc im b).
Proof.
  intros H. unfold Image_crop. apply adds_bind; [apply adds_emit, H|].
  intros _. destruct b as [[[l u] r] lo].
  repeat match goal with
         | |- adds _ (if ?c then _ else _) => destruct c
         end; (apply adds_ret || apply adds_raise).
Qed.

Lemma adds_new (P : event -> Prop) (alloc : Allocator) (sz : Z * Z) (fill : pixel) :
  P (New sz fill) -> adds P (Image_new alloc sz fill).
Proof.
  intros H. unfold Image_new. apply adds_bind; [apply adds_emit, H|].
  intros _. destruct sz as [w h].
  repeat match goal with
         | |- adds _ (if ?c then _ else _) => destruct c
         end; (apply adds_ret || apply adds_raise).
Qed.

Lemma adds_paste (P : event -> Prop) (bg im : Image) (offset : Z * Z) :
  P (Paste offset) -> adds P (Image_paste bg im offset).
Proof.
  intros H. unfold Image_paste. apply adds_bind; [apply adds_emit, H|].
  intros _.
  repeat match goal with
         | |- adds _ (if ?c then _ else _) => destruct c
         end; (apply adds_ret || apply adds_raise).
Qed.

Lemma adds_save (P : event -> Prop) (im : Image) (dir name format : string) :
  P (Save dir name format im) -> adds P (Image_save im dir name format).
Proof.
  intros H. unfold Image_save.
  repeat match goal with
         | |- adds _ (if ?c then _ else _) => destruct c
         end; (apply adds_emit, H || apply adds_raise).
Qed.

Lemma adds_split_loop (alloc : Allocator) (img : Image) (cell_w cell_h : Z)
      (prefix : string) :
  adds crop_or_save (Script2x2.split_loop alloc img cell_w cell_h prefix).
Proof.
  unfold Script2x2.split_loop.
  apply adds_for_fold. intros _ i. apply adds_for_fold. intros _ j.
  apply adds_bind; [apply adds_crop; exact I|].
  intros crop. apply adds_save. exact I.
Qed.

(** The call is recorded whatever Pillow then does. *)
Lemma resize_called (alloc : Allocator) (im : Image) (sz : Z * Z)
      (f : resampling) (tr : list event) :
  exists r, Image_resize alloc im sz f tr = (tr ++ [Resize sz f], r).
Proof.
  unfold Image_resize, bind, emit, ret, raise. destruct sz as [w h].
  repeat match goal with
         | |- context [if ?c then _ else _] => destruct c
         end; eexists; reflexivity.
Qed.

(** ** The model on concrete inputs *)

(** [round(0.5) = 0], [round(1.5) = 2], [round(2.5) = 2], [round(3.5) = 4]. *)
Example round_ties_to_even :
  map PyFloat.round
      [S754_finite false 1 (-1); S754_finite false 3 (-1);
       S754_finite false 5 (-1); S754_finite false 7 (-1)]
  = [Ok 0; Ok 2; Ok 2; Ok 4].
Proof. reflexivity. Qed.

(** The literals are the floats nearest to their decimals. *)
Example literals_are_nearest :
  PyFloat.int_truediv 254 10 = Ok PyFloat.lit_25_4
  /\ PyFloat.of_int 210 = Ok PyFloat.lit_210
  /\ PyFloat.of_int 297 = Ok PyFloat.lit_297
  /\ PyFloat.of_int 72 = Ok Reportlab.inch
  /\ PyFloat.int_truediv 254 100 = Ok Reportlab.lit_2_54
  /\ PyFloat.int_truediv 1 10 = Ok Reportlab.lit_0_1.
Proof. repeat split; vm_compute; reflexivity. Qed.

(** On ints that are floats themselves, the rounded quotient of the ints is
    the float quotient of the converted ints. *)
Example int_truediv_as_float_division :
  forallb (fun ab =>
      match PyFloat.int_truediv (fst ab) (snd ab),
            PyFloat.of_int (fst ab), PyFloat.of_int (snd ab) with
      | Ok q, Ok fa, Ok fb =>
          match SFcompare q (SFdiv PyFloat.prec PyFloat.emax fa fb) with
          | Some Eq => true
          | _ => false
          end
      | _, _, _ => false
      end)
    [(4960, 10000); (7016, 1); (10, 3); (1, 3); (2147483647, 3);
     (1, 2147483647); (4960, 1000); (7016, 1500); (9007199254740991, 7)]
  = true.
Proof. vm_compute. reflexivity. Qed.

Example a4_pixels_values :
  map a4_pixels [72; 150; 200; 300]
  = [Ok (595, 842); Ok (1240, 1754); Ok (1654, 2339); Ok (2480, 3508)].
Proof. vm_compute. reflexivity. Qed.

(** A 3 x 7 source on a 10 x 10 target: cover resizes to 10 x 23 and crops
    the rows from 6 on; contain resizes to 4 x 10 and pastes at column 3. *)
Example fit_3x7_on_10x10 :
  fst (run (resize_to_poster generous (blank 3 7 black) (10, 10) "cover"))
  = [Resize (10, 23) LANCZOS; Crop (0, 6, 10, 16)]
  /\ fst (run (resize_to_poster generous (blank 3 7 black) (10, 10) "contain"))
     = [Resize (4, 10) LANCZOS; New (10, 10) white; Paste (3, 0)].
Proof. split; vm_compute; reflexivity. Qed.

(** The files of one run of [2x2.py] and of [2x1.py]. *)
Example split_scripts_file_names :
  map fst (crop_saves (fst (run (Script2x2.split_image_to_a4 generous
                                   (blank 10 15 black) "a4_part" true))))
  = [(0, 0, 3508, 2480); (0, 2480, 3508, 4960);
     (3508, 0, 7016, 2480); (3508, 2480, 7016, 4960)]
  /\ flat_map (fun e => match e with Save _ name _ _ => [name] | _ => [] end)
       (fst (run (Script2x2.split_image_to_a4 generous (blank 10 15 black) "a4_part" true)))
     = ["a4_part_11.jpg"; "a4_part_21.jpg"; "a4_part_12.jpg"; "a4_part_22.jpg"]
  /\ flat_map (fun e => match e with Save _ name _ _ => [name] | _ => [] end)
       (fst (run (Script2x1.split_image_to_a4 generous (blank 10 15 black) "a4_part" true)))
     = ["a4_part_1.jpg"; "a4_part_2.jpg"].
Proof. repeat split; vm_compute; reflexivity. Qed.

(** JPEG has no alpha channel and no palette: on an RGBA or a palette
    source the two fixed-grid scripts stop at their first save and write
    nothing. *)
Example jpeg_refuses_alpha_and_palette :
  run (Script2x2.split_image_to_a4 generous (mkImage 10 15 (fun _ _ => black) RGBA)
         "a4_part" true)
  = ([Resize (7016, 4960) LANCZOS; Crop (0, 0, 3508, 2480)],
     Raise (OSError "cannot write mode RGBA as JPEG"))
  /\ run (Script2x1.split_image_to_a4 generous (mkImage 10 15 (fun _ _ => black) Palette)
            "a4_part" true)
     = ([Resize (3508, 4960) LANCZOS; Crop (0, 0, 3508, 2480)],
        Raise (OSError "cannot write mode P as JPEG")).
Proof. split; vm_compute; reflexivity. Qed.

(** [main] converts a palette source to RGB before it fits it, and keeps
    an RGBA source as it is. *)
Example main_converts_other_modes :
  im_mode (rgb_or_rgba (mkImage 10 15 (fun _ _ => black) Palette)) = RGB
  /\ im_mode (rgb_or_rgba (mkImage 10 15 (fun _ _ => black) RGBA)) = RGBA
  /\ im_mode (rgb_or_rgba (mkImage 10 15 (fun _ _ => black) CMYK)) = RGB.
Proof. repeat split. Qed.

(** The limits of Pillow on a 1000 x 1500 source under cover: at 680 dpi
    the poster is cropped, at 681 dpi its box has more than twice
    [MAX_IMAGE_PIXELS] pixels. *)
Example poster_crop_limit :
  (exists tiles,
     snd (run (main generous (blank 1000 1500 black)
                 (mkArgs "input.jpg" "./tiles" "tile" 680 "cover" (S754_zero false))))
     = Ok tiles)
  /\ run (main generous (blank 1000 1500 black)
            (mkArgs "input.jpg" "./tiles" "tile" 681 "cover" (S754_zero false)))
     = ([Resize (11260, 16890) LANCZOS; Crop (0, 482, 11260, 16408)],
        Raise DecompressionBombError).
Proof. split; [eexists|]; vm_compute; reflexivity. Qed.

(** A size that is no C [int] is refused before anything is resampled. *)
Example resize_beyond_c_int :
  run (resize_to_poster generous (blank 1 500000 black) (4960, 7016) "cover")
  = ([Resize (4960, 2480000000) LANCZOS], Raise OverflowError).
Proof. vm_compute. reflexivity. Qed.

(** A margin that is not a number: the first PNG is written, the PDF page
    is not. *)
Example nan_margin_draws_nothing :
  run (main generous (blank 1000 1500 black)
         (mkArgs "input.jpg" "./tiles" "tile" 300 "cover" S754_nan))
  = ([Resize (4960, 7440) LANCZOS; Crop (0, 212, 4960, 7228);
      Crop (0, 0, 2480, 3508); Crop (2480, 0, 4960, 3508);
      Crop (0, 3508, 2480, 7016); Crop (2480, 3508, 4960, 7016);
      Save "./tiles" "tile_r1c1.png" "PNG"
        (cropped (cropped (resized (blank 1000 1500 black) 4960 7440 LANCZOS)
                    (0, 212, 4960, 7228)) (0, 0, 2480, 3508))],
     Raise (ValueError "cannot convert float NaN to integer")).
Proof. vm_compute. reflexivity. Qed.

(** * The claims *)

(** C1 (the code breaks the claim).  The claim: for every source image of
    positive width and height and every positive target size,
    [resize_to_poster] returns an image of exactly the target width and
    height under both policies.  For a 10000 x 1 source and the poster
    target of 300 dpi, 4960 x 7016, the contain policy scales the height to
    [round(1 * 0.496) = 0]; [resize] rejects that size and the call raises
    instead of returning an image, whatever the pixels and the colour mode
    of the source are and whatever memory Pillow has. *)
(** C1 / C4 at the degenerate strip *)
Theorem contain_strip_returns_no_image (alloc : Allocator) (p : Z -> Z -> pixel)
        (m : colour) :
  snd (run (resize_to_poster alloc (mkImage 10000 1 p m) (4960, 7016) "contain"))
  = Raise (ValueError "height and width must be > 0").
Proof. vm_compute. reflexivity. Qed.



(** C3.  Under the cover policy, for every source image with positive
    dimensions and every positive target (sizes below [2^31], the range of
    Pillow's image dimensions), the scaled dimensions
    [round(src_width * scale)] and [round(src_height * scale)], with
    [scale = max(target_width / src_width, target_height / src_height)]
    computed in binary64 floats, are each at least the matching target
    dimension, and the centre crop box lies inside the scaled image.  For
    every run that returns an image: the calls were that resize and that
    crop, the image has the target size, and every pixel of it is the
    pixel of the resized source at the same place shifted by the crop
    corner, a place inside the resized source: no fill pixel is
    introduced.  The run does return when the scaled sides are below
    [2^31], the target is within the pixel limit of [crop] and Pillow gets
    the memory for the scaled image and for the crop. *)
Theorem cover_scaled_covers_target (alloc : Allocator) (img : Image) (tw th : Z) :
  0 < width img < 2 ^ 31 -> 0 < height img < 2 ^ 31 ->
  0 < tw < 2 ^ 31 -> 0 < th < 2 ^ 31 ->
  exists new_w new_h,
    cover_size img tw th = Ok (new_w, new_h)
    /\ tw <= new_w /\ th <= new_h
    /\ (let '(l, u, r, lo) := cover_box new_w new_h tw th in
        0 <= l /\ r <= new_w /\ 0 <= u /\ lo <= new_h)
    /\ (forall tr out,
          run (resize_to_poster alloc img (tw, th) "cover") = (tr, Ok out) ->
          tr = [Resize (new_w, new_h) LANCZOS; Crop (cover_box new_w new_h tw th)]
          /\ size out = (tw, th)
          /\ forall x y, 0 <= x < tw -> 0 <= y < th ->
               in_bounds (resized img new_w new_h LANCZOS)
                 (x + (new_w - tw) / 2) (y + (new_h - th) / 2) = true
               /\ getpixel out x y
                  = getpixel (resized img new_w new_h LANCZOS)
                      (x + (new_w - tw) / 2) (y + (new_h - th) / 2))
    /\ (new_w < 2 ^ 31 -> new_h < 2 ^ 31 -> alloc new_w new_h = true ->
        bomb tw th = false -> alloc tw th = true ->
        exists tr out,
          run (resize_to_poster alloc img (tw, th) "cover") = (tr, Ok out)).
Proof.
  intros Hw Hh Htw Hth.
  destruct (FloatFacts.cover_reaches_target img tw th Hw Hh Htw Hth)
    as (sc & nw & nh & Hsc & Hsz & Gw & Gh).
  assert (Hcs : cover_size img tw th = Ok (nw, nh))
    by (unfold cover_size; rewrite Hsc; exact Hsz).
  pose proof (half_excess_bounds (nw - tw) ltac:(lia)) as Bw.
  pose proof (half_excess_bounds (nh - th) ltac:(lia)) as Bh.
  destruct (resized_sides img nw nh LANCZOS) as [Rw Rh].
  exists nw, nh.
  split; [exact Hcs|]. split; [exact Gw|]. split; [exact Gh|].
  split; [unfold cover_box; lia|].
  split.
  - intros tr out Hrun.
    destruct (cover_returned alloc img tw th tr out Hrun)
      as (nw' & nh' & Hcs' & Htr & Hout & _).
    assert (nw' = nw /\ nh' = nh) as [-> ->] by (split; congruence).
    split; [exact Htr|]. subst out.
    split; [unfold size, cover_box, cropped; cbn [width height]; f_equal; lia|].
    intros x y Hx Hy.
    assert (IB : in_bounds (resized img nw nh LANCZOS)
                   (x + (nw - tw) / 2) (y + (nh - th) / 2) = true)
      by (apply in_bounds_true; rewrite ?Rw, ?Rh; lia).
    split; [exact IB|].
    unfold cover_box. rewrite getpixel_cropped by lia.
    unfold getpixel. rewrite IB. reflexivity.
  - intros Cw Ch Ha Hb Hc. do 2 eexists.
    apply (run_cover alloc img tw th nw nh Hcs); (assumption || lia).
Qed.

Lemma cover_scaled_covers_target_witness :
  exists new_w new_h,
    cover_size (blank 1000 1500 black) 4960 7016 = Ok (new_w, new_h)
    /\ 4960 <= new_w /\ 7016 <= new_h
    /\ (let '(l, u, r, lo) := cover_box new_w new_h 4960 7016 in
        0 <= l /\ r <= new_w /\ 0 <= u /\ lo <= new_h)
    /\ (forall tr out,
          run (resize_to_poster generous (blank 1000 1500 black) (4960, 7016) "cover")
          = (tr, Ok out) ->
          tr = [Resize (new_w, new_h) LANCZOS; Crop (cover_box new_w new_h 4960 7016)]
          /\ size out = (4960, 7016)
          /\ forall x y, 0 <= x < 4960 -> 0 <= y < 7016 ->
               in_bounds (resized (blank 1000 1500 black) new_w new_h LANCZOS)
                 (x + (new_w - 4960) / 2) (y + (new_h - 7016) / 2) = true
               /\ getpixel out x y
                  = getpixel (resized (blank 1000 1500 black) new_w new_h LANCZOS)
                      (x + (new_w - 4960) / 2) (y + (new_h - 7016) / 2))
    /\ (new_w < 2 ^ 31 -> new_h < 2 ^ 31 -> generous new_w new_h = true ->
        bomb 4960 7016 = false -> generous 4960 7016 = true ->
        exists tr out,
          run (resize_to_poster generous (blank 1000 1500 black) (4960, 7016) "cover")
          = (tr, Ok out)).
Proof.
  apply (cover_scaled_covers_target generous (blank 1000 1500 black) 4960 7016);
    cbn [blank width height]; lia.
Defined.

(** C4 (the code breaks the claim).  The claim: under the contain policy,
    for every source image, the scaled image fits the target, is pasted
    centred on a white background of the target size, and background
    pixels appear only in the margins.  For a 10000 x 1 source and the
    target 4960 x 7016 the scaled size is 4960 x 0: the only call made is
    the rejected [resize]; no background is created and nothing is pasted,
    whatever the pixels and the colour mode of the source are. *)
Theorem contain_strip_nothing_pasted (alloc : Allocator) (p : Z -> Z -> pixel)
        (m : colour) :
  contain_size (mkImage 10000 1 p m) 4960 7016 = Ok (4960, 0)
  /\ fst (run (resize_to_poster alloc (mkImage 10000 1 p m) (4960, 7016) "contain"))
     = [Resize (4960, 0) LANCZOS].
Proof. vm_compute. split; reflexivity. Qed.

(** C5.  In both policies the left and top offsets are the floor of half the
    excess: [left = (new_w - tw) // 2] and [top = (new_h - th) // 2] for the
    crop of cover, [left = (tw - new_w) // 2] and [top = (th - new_h) // 2]
    for the paste of contain.  What is left for the right and bottom side
    is the offset plus the remainder of the excess modulo 2: one pixel more
    than the left or top side exactly when the excess is odd.  The offsets
    are read off the calls of a run in which [resize] accepts the scaled
    size (sides from 1 to below [2^31], memory for it) and, for contain,
    [Image.new] makes the background. *)
Theorem centering_floor_half (alloc : Allocator) (img : Image)
        (tw th new_w new_h : Z) :
  1 <= new_w < 2 ^ 31 -> 1 <= new_h < 2 ^ 31 -> 0 <= tw -> 0 <= th ->
  alloc new_w new_h = true ->
  (cover_size img tw th = Ok (new_w, new_h) ->
   exists left top,
     fst (run (resize_to_poster alloc img (tw, th) "cover"))
     = [Resize (new_w, new_h) LANCZOS; Crop (left, top, left + tw, top + th)]
     /\ left = (new_w - tw) / 2 /\ top = (new_h - th) / 2
     /\ new_w - (left + tw) = left + (new_w - tw) mod 2
     /\ new_h - (top + th) = top + (new_h - th) mod 2
     /\ (Z.odd (new_w - tw) = true -> new_w - (left + tw) = left + 1)
     /\ (Z.odd (new_h - th) = true -> new_h - (top + th) = top + 1))
  /\ (contain_size img tw th = Ok (new_w, new_h) ->
      tw < 2 ^ 31 -> th < 2 ^ 31 -> alloc tw th = true ->
   exists left top,
     fst (run (resize_to_poster alloc img (tw, th) "contain"))
     = [Resize (new_w, new_h) LANCZOS; New (tw, th) white; Paste (left, top)]
     /\ left = (tw - new_w) / 2 /\ top = (th - new_h) / 2
     /\ tw - (left + new_w) = left + (tw - new_w) mod 2
     /\ th - (top + new_h) = top + (th - new_h) mod 2
     /\ (Z.odd (tw - new_w) = true -> tw - (left + new_w) = left + 1)
     /\ (Z.odd (th - new_h) = true -> th - (top + new_h) = top + 1)).
Proof.
  intros Hw Hh Htw Hth Ha. split.
  - intros Hs.
    exists ((new_w - tw) / 2), ((new_h - th) / 2).
    rewrite (cover_after_resize alloc img tw th new_w new_h Hs Hw Hh Ha).
    destruct (floor_half_split (new_w - tw)) as (A1 & A2 & _).
    destruct (floor_half_split (new_h - th)) as (B1 & B2 & _).
    split.
    { unfold Image_crop, cover_box, bind, emit, raise, ret. cbn [app].
      repeat match goal with
             | |- context [if ?c then _ else _] => destruct c
             end; reflexivity. }
    repeat split; try lia.
    + intros H. specialize (A2 H). lia.
    + intros H. specialize (B2 H). lia.
  - intros Hs Ctw Cth Hc.
    exists ((tw - new_w) / 2), ((th - new_h) / 2).
    rewrite (contain_after_resize alloc img tw th new_w new_h Hs Hw Hh Ha).
    destruct (floor_half_split (tw - new_w)) as (A1 & A2 & _).
    destruct (floor_half_split (th - new_h)) as (B1 & B2 & _).
    split.
    { unfold bind. rewrite new_run by (lia || assumption).
      unfold Image_paste, contain_offset, bind, emit, raise, ret. cbn [app fst snd].
      destruct (negb _); reflexivity. }
    repeat split; try lia.
    + intros H. specialize (A2 H). lia.
    + intros H. specialize (B2 H). lia.
Qed.

Lemma centering_floor_half_witness :
  (exists left top,
     fst (run (resize_to_poster generous (blank 3 7 black) (10, 10) "cover"))
     = [Resize (10, 23) LANCZOS; Crop (left, top, left + 10, top + 10)]
     /\ left = (10 - 10) / 2 /\ top = (23 - 10) / 2
     /\ 10 - (left + 10) = left + (10 - 10) mod 2
     /\ 23 - (top + 10) = top + (23 - 10) mod 2
     /\ (Z.odd (10 - 10) = true -> 10 - (left + 10) = left + 1)
     /\ (Z.odd (23 - 10) = true -> 23 - (top + 10) = top + 1))
  /\ (exists left top,
     fst (run (resize_to_poster generous (blank 3 7 black) (11, 10) "contain"))
     = [Resize (4, 10) LANCZOS; New (11, 10) white; Paste (left, top)]
     /\ left = (11 - 4) / 2 /\ top = (10 - 10) / 2
     /\ 11 - (left + 4) = left + (11 - 4) mod 2
     /\ 10 - (top + 10) = top + (10 - 10) mod 2
     /\ (Z.odd (11 - 4) = true -> 11 - (left + 4) = left + 1)
     /\ (Z.odd (10 - 10) = true -> 10 - (top + 10) = top + 1)).
Proof.
  split.
  - apply (centering_floor_half generous (blank 3 7 black) 10 10 10 23); try lia;
      vm_compute; reflexivity.
  - apply (centering_floor_half generous (blank 3 7 black) 11 10 4 10); try lia;
      vm_compute; reflexivity.
Defined.

(** C6, as stated, fails.  With [dpi = 300] and the cover policy a
    1 x 500000 source is scaled to 4960 x 2480000000, a height that is no
    C [int]: [resize] raises [OverflowError] and no PNG file is written.
    And with [--margin-mm 148.5], which leaves no page height for the PDF,
    a 1000 x 1500 source yields one PNG file: the run ends with
    [ZeroDivisionError] in the first [save_tile_pdf]. *)
Lemma four_png_tiles_not_for_every_run :
  run (main generous (blank 1 500000 black) (cover_300 (S754_zero false)))
  = ([Resize (4960, 2480000000) LANCZOS], Raise OverflowError)
  /\ png_tiles (fst (run (main generous (blank 1000 1500 black) (cover_300 margin_148_5))))
     = [("tile_r1c1.png", (2480, 3508))]
  /\ snd (run (main generous (blank 1000 1500 black) (cover_300 margin_148_5)))
     = Raise ZeroDivisionError.
Proof. split; [|split]; vm_compute; reflexivity. Qed.

(** C6, amended.  The pixel size of a page is
    [round(mm_to_inches(dimension) * dpi)] for the 210 mm by 297 mm page:
    for every [dpi] from 1 to below [2^31] the two sides [a4_pixels]
    returns, computed in binary64 floats, are the integers nearest to
    [210 * dpi / 25.4] and [297 * dpi / 25.4]; at [dpi = 300] they are 2480
    and 3508.  With [dpi = 300] and the cover policy, for every source
    image (sides from 1 to below [2^31]) the scaled size is at least
    4960 x 7016, and when its sides are below [2^31] and Pillow gets the
    memory for the scaled image, the poster and a tile: with the default
    margin 0 the run of [main] returns the four tiles of the 2 x 2 grid
    and writes exactly four PNG files, each 2480 x 3508 pixels; with any
    margin it writes either these four PNG files or, when the first PDF
    page cannot be drawn, the first of them alone before it fails. *)
Theorem a4_300dpi_cover_tiles (alloc : Allocator) (img : Image) (args : Args) :
  0 < width img < 2 ^ 31 -> 0 < height img < 2 ^ 31 ->
  dpi args = 300 -> mode args = "cover" ->
  (forall d, 1 <= d < 2 ^ 31 ->
     exists W H,
       a4_pixels d = Ok (W, H)
       /\ Z.abs (254 * W - 2100 * d) < 127
       /\ Z.abs (254 * H - 2970 * d) < 127)
  /\ a4_pixels (dpi args) = Ok (2480, 3508)
  /\ exists new_w new_h,
       cover_size img 4960 7016 = Ok (new_w, new_h)
       /\ 4960 <= new_w /\ 7016 <= new_h
       /\ (new_w < 2 ^ 31 -> new_h < 2 ^ 31 ->
           alloc new_w new_h = true -> alloc 4960 7016 = true ->
           alloc 2480 3508 = true ->
           (margin_mm args = S754_zero false ->
            exists tiles,
              snd (run (main alloc img args)) = Ok tiles
              /\ map (fun t => (fst t, size (snd t))) tiles
                 = [((0, 0), (2480, 3508)); ((0, 1), (2480, 3508));
                    ((1, 0), (2480, 3508)); ((1, 1), (2480, 3508))]
              /\ png_tiles (fst (run (main alloc img args))) = four_png args)
           /\ (png_tiles (fst (run (main alloc img args))) = four_png args
               \/ (png_tiles (fst (run (main alloc img args))) = firstn 1 (four_png args)
                   /\ exists e, snd (run (main alloc img args)) = Raise e))).
Proof.
  intros Hw Hh Hd Hm.
  split.
  { intros d Bd. exists ((2100 * d + 127) / 254), ((2970 * d + 127) / 254).
    split; [apply a4_pixels_exact; exact Bd|].
    pose proof (nearest_254 (1050 * d)) as N1.
    pose proof (nearest_254 (1485 * d)) as N2.
    replace (2 * (1050 * d)) with (2100 * d) in N1 by lia.
    replace (2 * (1485 * d)) with (2970 * d) in N2 by lia.
    split; lia. }
  split; [rewrite Hd; exact a4_pixels_300|].
  destruct (rgb_or_rgba_sides img) as [Ew Eh].
  destruct (cover_run_returns_target alloc (rgb_or_rgba img) 4960 7016)
    as (nw & nh & Hcs & Gw & Gh & Hrun & Hsz);
    rewrite ?Ew, ?Eh; try assumption; try (change (2 ^ 31) with 2147483648; lia).
  rewrite cover_size_rgb_or_rgba in Hcs.
  exists nw, nh. split; [exact Hcs|]. split; [exact Gw|]. split; [exact Gh|].
  intros Bw Bh A1 A2 A3.
  specialize (Hrun Bw Bh A1 eq_refl A2).
  set (poster := cropped (resized (rgb_or_rgba img) nw nh LANCZOS)
                   (cover_box nw nh 4960 7016)) in *.
  assert (Ha : a4_pixels (dpi args) = Ok (2480, 3508))
    by (rewrite Hd; exact a4_pixels_300).
  assert (Ht : png_tag_ok (dpi args) = true) by (rewrite Hd; exact png_tag_300).
  assert (E := main_files alloc img args 2480 3508
                 [Resize (nw, nh) LANCZOS; Crop (cover_box nw nh 4960 7016)] poster Ha Ht).
  rewrite Hm in E. change (2480 * 2) with 4960 in E. change (3508 * 2) with 7016 in E.
  specialize (E ltac:(change (2 ^ 30) with 1073741824; lia)
                ltac:(change (2 ^ 30) with 1073741824; lia) eq_refl A3 Hrun).
  assert (P4 : forall g,
    png_tiles ([Resize (nw, nh) LANCZOS; Crop (cover_box nw nh 4960 7016)]
               ++ map (fun rc => Crop (tile_box 2480 3508 rc)) grid
               ++ flat_map (tile_files args poster 2480 3508 g) grid
               ++ [WriteText (outdir args) "README.txt"])
    = four_png args).
  { intros [[[x y] w] h]. unfold grid, tile_files, four_png.
    cbn [png_tiles flat_map map app String.eqb Ascii.eqb Bool.eqb fst snd].
    rewrite !as_rgb_size, !cropped_tile_size. reflexivity. }
  split.
  - intros Hg. rewrite Hg, pdf_page_a4_300 in E. rewrite E. cbn [fst snd].
    eexists. split; [reflexivity|]. split.
    + unfold tiles_of, grid. cbn [map fst snd]. rewrite !cropped_tile_size. reflexivity.
    + apply P4.
  - rewrite E. destruct (pdf_page 2480 3508 (margin_mm args)) as [g|e].
    + left. cbn [fst]. apply P4.
    + right. cbn [fst snd]. split; [|exists e; reflexivity].
      unfold grid, four_png.
      cbn [png_tiles flat_map map app String.eqb Ascii.eqb Bool.eqb fst snd firstn].
      rewrite !as_rgb_size, !cropped_tile_size. reflexivity.
Qed.

Lemma a4_300dpi_cover_tiles_witness :
  a4_pixels 300 = Ok (2480, 3508)
  /\ cover_size (blank 1000 1500 black) 4960 7016 = Ok (4960, 7440)
  /\ exists tiles,
       snd (run (main generous (blank 1000 1500 black) (cover_300 (S754_zero false))))
       = Ok tiles
       /\ map (fun t => (fst t, size (snd t))) tiles
          = [((0, 0), (2480, 3508)); ((0, 1), (2480, 3508));
             ((1, 0), (2480, 3508)); ((1, 1), (2480, 3508))]
       /\ png_tiles (fst (run (main generous (blank 1000 1500 black)
                                 (cover_300 (S754_zero false)))))
          = [("tile_r1c1.png", (2480, 3508)); ("tile_r1c2.png", (2480, 3508));
             ("tile_r2c1.png", (2480, 3508)); ("tile_r2c2.png", (2480, 3508))].
Proof.
  assert (Hw : 0 < width (blank 1000 1500 black) < 2 ^ 31)
    by (cbn [blank width]; change (2 ^ 31) with 2147483648; lia).
  assert (Hh : 0 < height (blank 1000 1500 black) < 2 ^ 31)
    by (cbn [blank height]; change (2 ^ 31) with 2147483648; lia).
  destruct (a4_300dpi_cover_tiles generous (blank 1000 1500 black)
              (cover_300 (S754_zero false)) Hw Hh eq_refl eq_refl)
    as (_ & Ha & nw & nh & Hcs & _ & _ & K).
  assert (E : cover_size (blank 1000 1500 black) 4960 7016 = Ok (4960, 7440))
    by (vm_compute; reflexivity).
  split; [exact Ha|]. split; [exact E|].
  rewrite E in Hcs.
  assert (E1 : nw = 4960) by congruence. assert (E2 : nh = 7440) by congruence.
  subst nw nh.
  destruct (K ltac:(change (2 ^ 31) with 2147483648; lia)
              ltac:(change (2 ^ 31) with 2147483648; lia) eq_refl eq_refl eq_refl)
    as [K1 _].
  exact (K1 eq_refl).
Defined.

(** C7, as stated, fails: at 150 dpi [a4_pixels] does not give a page of
    1654 x 1169 pixels in either orientation, and the landscape cell of
    the stacked script [2x1.py] is not 1654 x 1169 either. *)
Lemma cell_150dpi_is_not_1654x1169 :
  a4_pixels 150 <> Ok (1654, 1169)
  /\ a4_pixels 150 <> Ok (1169, 1654)
  /\ Script2x1.a4_cell true <> (1654, 1169).
Proof. repeat split; vm_compute; discriminate. Qed.

(** C7, amended.  At 150 dpi [a4_pixels] gives 1240 x 1754 pixels per page.
    The stacked 1 x 2 script [2x1.py] takes no dpi: its landscape cell is
    fixed at 3508 x 2480 pixels (300 dpi).  For a source of positive size
    in a mode JPEG stores, when Pillow gets the memory for the poster and
    for a tile, the source is resized to the poster 3508 x 4960, tile 1 is
    the pixel rows [0, 2480) and tile 2 the pixel rows [2480, 4960) of that
    poster, and both are saved. *)
Theorem stacked_1x2_at_300dpi (alloc : Allocator) (img : Image) (prefix : string) :
  0 < width img -> 0 < height img ->
  mode_in (im_mode img) jpeg_modes = true ->
  alloc 3508 4960 = true -> alloc 3508 2480 = true ->
  a4_pixels 150 = Ok (1240, 1754)
  /\ Script2x1.a4_cell true = (3508, 2480)
  /\ exists t1 t2,
       run (Script2x1.split_image_to_a4 alloc img prefix true)
       = ([Resize (3508, 4960) LANCZOS;
           Crop (0, 0, 3508, 2480); Save "" (prefix ++ "_1.jpg") "JPEG" t1;
           Crop (0, 2480, 3508, 4960); Save "" (prefix ++ "_2.jpg") "JPEG" t2],
          Ok tt)
       /\ size t1 = (3508, 2480) /\ size t2 = (3508, 2480)
       /\ forall x y, 0 <= x < 3508 -> 0 <= y < 2480 ->
            getpixel t1 x y = getpixel (resized img 3508 4960 LANCZOS) x y
            /\ getpixel t2 x y = getpixel (resized img 3508 4960 LANCZOS) x (y + 2480).
Proof.
  intros Hw Hh Hm A1 A2.
  split; [vm_compute; reflexivity|]. split; [reflexivity|].
  set (poster := resized img 3508 4960 LANCZOS).
  exists (cropped poster (0, 0, 3508, 2480)), (cropped poster (0, 2480, 3508, 4960)).
  assert (Pm : mode_in (im_mode poster) jpeg_modes = true)
    by (unfold poster; rewrite resized_mode; exact Hm).
  destruct (resized_sides img 3508 4960 LANCZOS) as [Pw Ph]. fold poster in Pw, Ph.
  split.
  - unfold run, Script2x1.split_image_to_a4. cbn [Script2x1.a4_cell].
    cbv beta iota. change (3508 * 1) with 3508. change (2480 * 2) with 4960.
    unfold bind at 1.
    rewrite resize_run
      by (try exact A1; change (2 ^ 31) with 2147483648; lia).
    fold poster. change (range 2) with [0; 1]. cbn [for_fold].
    cbv beta iota delta [bind ret].
    change (0 * 2480) with 0. change (0 + 2480) with 2480.
    change (1 * 2480) with 2480. change (2480 + 2480) with 4960.
    change (0 + 1) with 1. change (1 + 1) with 2.
    rewrite (crop_run alloc poster 0 0 3508 2480)
      by (try exact A2; try reflexivity; change (2 ^ 31) with 2147483648; lia).
    cbv beta iota.
    rewrite save_jpeg_run
      by (rewrite ?cropped_mode; try exact Pm; cbn [cropped width height]; lia).
    cbv beta iota.
    rewrite (crop_run alloc poster 0 2480 3508 4960)
      by (try exact A2; try reflexivity; change (2 ^ 31) with 2147483648; lia).
    cbv beta iota.
    rewrite save_jpeg_run
      by (rewrite ?cropped_mode; try exact Pm; cbn [cropped width height]; lia).
    reflexivity.
  - split; [reflexivity|]. split; [reflexivity|].
    intros x y Hx Hy.
    cbv [getpixel in_bounds cropped width height pix].
    fold (width poster) (height poster). rewrite Pw, Ph.
    zbool. cbn [andb]. split; f_equal; f_equal; lia.
Qed.

Lemma stacked_1x2_at_300dpi_witness :
  a4_pixels 150 = Ok (1240, 1754)
  /\ Script2x1.a4_cell true = (3508, 2480)
  /\ exists t1 t2,
       run (Script2x1.split_image_to_a4 generous (blank 1000 1500 black) "a4_part" true)
       = ([Resize (3508, 4960) LANCZOS;
           Crop (0, 0, 3508, 2480); Save "" "a4_part_1.jpg" "JPEG" t1;
           Crop (0, 2480, 3508, 4960); Save "" "a4_part_2.jpg" "JPEG" t2],
          Ok tt)
       /\ size t1 = (3508, 2480) /\ size t2 = (3508, 2480)
       /\ forall x y, 0 <= x < 3508 -> 0 <= y < 2480 ->
            getpixel t1 x y
            = getpixel (resized (blank 1000 1500 black) 3508 4960 LANCZOS) x y
            /\ getpixel t2 x y
               = getpixel (resized (blank 1000 1500 black) 3508 4960 LANCZOS) x (y + 2480).
Proof.
  apply (stacked_1x2_at_300dpi generous (blank 1000 1500 black) "a4_part");
    cbn [blank width height]; (lia || reflexivity).
Defined.

(** C8.  For every mode that is neither ["cover"] nor ["contain"],
    [resize_to_poster] fails with the invalid-policy error before any call
    to Pillow is made, so before any resize; and a mode in
    [{"cover", "contain"}] never raises that error. *)
Theorem invalid_policy_before_any_resize alloc img target mode :
  (mode <> "cover" -> mode <> "contain" ->
     run (resize_to_poster alloc img target mode) = ([], Raise InvalidPolicy))
  /\ (mode = "cover" \/ mode = "contain" ->
     snd (run (resize_to_poster alloc img target mode)) <> Raise InvalidPolicy).
Proof.
  destruct target as [tw th]. split.
  - intros Hc Hn. unfold run, resize_to_poster.
    apply String.eqb_neq in Hc, Hn. rewrite Hc, Hn. reflexivity.
  - intros [-> | ->]; unfold run, resize_to_poster; simpl String.eqb; cbv iota.
    + apply rnever_neq. apply (never_bind InvalidPolicy).
      { apply never_lift. unfold cover_scale.
        repeat (apply rnever_rbind; [apply int_truediv_never_policy|intro]).
        discriminate. }
      intro sc. apply never_bind; [apply never_lift, scaled_size_never_policy|].
      intros [nw nh]. apply never_bind; [apply resize_never_policy|].
      intro r. apply crop_never_policy.
    + apply rnever_neq. apply (never_bind InvalidPolicy).
      { apply never_lift. unfold contain_scale.
        repeat (apply rnever_rbind; [apply int_truediv_never_policy|intro]).
        discriminate. }
      intro sc. apply never_bind; [apply never_lift, scaled_size_never_policy|].
      intros [nw nh]. apply never_bind; [apply resize_never_policy|].
      intro r. apply never_bind; [apply new_never_policy|].
      intro bg. apply paste_never_policy.
Qed.

Lemma invalid_policy_before_any_resize_witness :
  run (resize_to_poster generous (blank 3 7 black) (10, 10) "stretch")
  = ([], Raise InvalidPolicy)
  /\ snd (run (resize_to_poster generous (blank 3 7 black) (10, 10) "contain"))
     <> Raise InvalidPolicy.
Proof.
  split.
  - apply (invalid_policy_before_any_resize generous (blank 3 7 black) (10, 10) "stretch");
      discriminate.
  - apply (invalid_policy_before_any_resize generous (blank 3 7 black) (10, 10) "contain").
    right; reflexivity.
Defined.

(** C9, as stated, fails: with the target width 0 the cover policy does not
    fail; for a 5 x 5 source and the target 0 x 10 it returns an image of
    size 0 x 10. *)
Lemma zero_width_target_accepted :
  exists out,
    snd (run (resize_to_poster generous (blank 5 5 black) (0, 10) "cover")) = Ok out
    /\ size out = (0, 10).
Proof. eexists. split; vm_compute; reflexivity. Qed.

(** C9, amended.  [resize_to_poster] has no check of the target size of its
    own; what fails is a Pillow call or the float arithmetic before it.
    For every source image of positive size: under contain a target width
    or height [<= 0] makes the run fail, with [OverflowError] before any
    call or in [resize] (a size beyond the floats or the C ints), or with
    the [ValueError] of [resize] for a side below 1, in each case before
    anything is resampled; under cover a negative target width or height
    makes the run fail, with [OverflowError] before any call, or in
    [resize] (its [OverflowError], its [ValueError] or [MemoryError]), or
    in [crop] with the [ValueError] of a box whose right or lower edge is
    before its left or upper edge. *)
Theorem nonpositive_target_not_validated (alloc : Allocator) (img : Image)
        (tw th : Z) :
  0 < width img -> 0 < height img ->
  (tw <= 0 \/ th <= 0 ->
   exists tr e,
     run (resize_to_poster alloc img (tw, th) "contain") = (tr, Raise e)
     /\ ((e = OverflowError /\ (tr = [] \/ exists sz, tr = [Resize sz LANCZOS]))
         \/ (e = ValueError "height and width must be > 0"
             /\ exists sz, tr = [Resize sz LANCZOS])))
  /\ (tw < 0 \/ th < 0 ->
      exists tr e,
        run (resize_to_poster alloc img (tw, th) "cover") = (tr, Raise e)
        /\ ((tr = [] /\ e = OverflowError)
            \/ (exists sz,
                  tr = [Resize sz LANCZOS]
                  /\ (e = OverflowError
                      \/ e = ValueError "height and width must be > 0"
                      \/ e = MemoryError))
            \/ (exists sz b,
                  tr = [Resize sz LANCZOS; Crop b]
                  /\ (e = ValueError "Coordinate 'right' is less than 'left'"
                      \/ e = ValueError "Coordinate 'lower' is less than 'upper'")))).
Proof.
  intros Hw Hh. split; intros Ht.
  - unfold run, resize_to_poster. cbn [String.eqb Ascii.eqb Bool.eqb]. cbv iota.
    destruct (SignFacts.contain_scale_nonpos img tw th Hw Hh Ht) as [E | (sc & E & Hsc)].
    + exists [], OverflowError. unfold bind at 1, lift at 1. rewrite E.
      split; [reflexivity|]. left. split; [reflexivity|]. left. reflexivity.
    + unfold bind at 1, lift at 1. rewrite E.
      apply (nonpos_scale_fails alloc img sc
               (fun new_w new_h img_resized =>
                  bg <- Image_new alloc (tw, th) white ;;
                  Image_paste bg img_resized ((tw - new_w) / 2, (th - new_h) / 2)));
        assumption.
  - unfold run, resize_to_poster. cbn [String.eqb Ascii.eqb Bool.eqb]. cbv iota.
    cbv beta iota delta [bind lift].
    destruct (cover_scale_outcome img tw th Hw Hh) as [-> | (sc & -> & Hsc)].
    { exists [], OverflowError. split; [reflexivity|left; split; reflexivity]. }
    cbv beta iota.
    destruct (scaled_size img sc) as [[nw nh]|e] eqn:Hs.
    2:{ exists [], e. split; [reflexivity|]. left. split; [reflexivity|].
        exact (scaled_size_raises img sc e Hw Hh Hsc Hs). }
    cbv beta iota.
    destruct (Image_resize alloc img (nw, nh) LANCZOS []) as [tr1 [r|e]] eqn:R.
    2:{ exists tr1, e. split; [reflexivity|]. right. left. exists (nw, nh).
        destruct (resize_failures _ _ _ _ _ _ _ R) as [-> He]. split; [reflexivity|].
        exact He. }
    assert (T1 : tr1 = [Resize (nw, nh) LANCZOS]).
    { revert R. unfold Image_resize, bind, emit, ret, raise. cbn [app].
      repeat match goal with
             | |- context [if ?c then _ else _] => destruct c
             end; congruence. }
    subst tr1.
    unfold Image_crop, bind, emit, ret, raise. cbn [app].
    destruct (Z.ltb_spec ((nw - tw) / 2 + tw) ((nw - tw) / 2)).
    { eexists _, _. split; [reflexivity|]. right. right. eauto. }
    destruct (Z.ltb_spec ((nh - th) / 2 + th) ((nh - th) / 2)).
    { eexists _, _. split; [reflexivity|]. right. right. eauto. }
    lia.
Qed.

Lemma nonpositive_target_not_validated_witness :
  (exists tr e,
     run (resize_to_poster generous (blank 5 5 black) (0, 10) "contain") = (tr, Raise e)
     /\ ((e = OverflowError /\ (tr = [] \/ exists sz, tr = [Resize sz LANCZOS]))
         \/ (e = ValueError "height and width must be > 0"
             /\ exists sz, tr = [Resize sz LANCZOS])))
  /\ (exists tr e,
        run (resize_to_poster generous (blank 5 5 black) (-4, 10) "cover")
        = (tr, Raise e)
        /\ ((tr = [] /\ e = OverflowError)
            \/ (exists sz,
                  tr = [Resize sz LANCZOS]
                  /\ (e = OverflowError
                      \/ e = ValueError "height and width must be > 0"
                      \/ e = MemoryError))
            \/ (exists sz b,
                  tr = [Resize sz LANCZOS; Crop b]
                  /\ (e = ValueError "Coordinate 'right' is less than 'left'"
                      \/ e = ValueError "Coordinate 'lower' is less than 'upper'")))).
Proof.
  split.
  - apply (nonpositive_target_not_validated generous (blank 5 5 black) 0 10);
      cbn [blank width height]; lia.
  - apply (nonpositive_target_not_validated generous (blank 5 5 black) (-4) 10);
      cbn [blank width height]; lia.
Defined.

(** C10.  For every source image, whatever its size, its mode and the
    memory Pillow has, [split_image_to_a4] of [2x2.py] (landscape, as the
    script calls it) first calls [resize] on the source itself with the
    size [2 * 3508] by [2 * 2480], that is 7016 x 4960 pixels, and the rest
    of the run only crops and saves.  When the source has positive sides
    and a mode JPEG stores and Pillow gets the memory, the run returns and
    the four saved tiles are the four cells of that resized image, so
    nothing is cropped away and nothing is padded.  The resized image has
    exactly that size, so the aspect ratio of the source is changed
    whenever it differs from 7016 : 4960.  On a 1000 x 1500 source the
    cover policy would resize to 7016 x 10524 and the contain policy to
    3307 x 4960. *)
Theorem split_2x2_stretches_source (alloc : Allocator) (img : Image)
        (prefix : string) :
  (exists tr r,
     run (Script2x2.split_image_to_a4 alloc img prefix true)
     = (Resize (2 * 3508, 2 * 2480) LANCZOS :: tr, r)
     /\ Forall crop_or_save tr)
  /\ (0 < width img -> 0 < height img ->
      mode_in (im_mode img) jpeg_modes = true ->
      alloc 7016 4960 = true -> alloc 3508 2480 = true ->
      exists tr,
        run (Script2x2.split_image_to_a4 alloc img prefix true)
        = (Resize (2 * 3508, 2 * 2480) LANCZOS :: tr, Ok tt)
        /\ crop_saves tr
           = map (fun rc => (tile_box 3508 2480 rc,
                             cropped (resized img 7016 4960 LANCZOS)
                               (tile_box 3508 2480 rc)))
               [(0, 0); (1, 0); (0, 1); (1, 1)])
  /\ size (resized img 7016 4960 LANCZOS) = (7016, 4960)
  /\ (width img * 4960 <> height img * 7016 ->
      width (resized img 7016 4960 LANCZOS) * height img
      <> height (resized img 7016 4960 LANCZOS) * width img)
  /\ cover_size (mkImage 1000 1500 (pix img) (im_mode img)) 7016 4960 = Ok (7016, 10524)
  /\ contain_size (mkImage 1000 1500 (pix img) (im_mode img)) 7016 4960 = Ok (3307, 4960).
Proof.
  assert (E : forall r0 : list event * result unit,
            run (Script2x2.split_image_to_a4 alloc img prefix true) = r0 ->
            match Image_resize alloc img (7016, 4960) LANCZOS [] with
            | (tr1, Ok img') => Script2x2.split_loop alloc img' 3508 2480 prefix tr1
            | (tr1, Raise e) => (tr1, Raise e)
            end = r0).
  { intros r0 <-. reflexivity. }
  split; [|split; [|split; [|split; [|split]]]].
  - specialize (E _ eq_refl).
    destruct (resize_called alloc img (7016, 4960) LANCZOS []) as (r & Hr).
    rewrite Hr in E. cbn [app] in E. rewrite <- E.
    destruct r as [img'|e].
    + destruct (adds_split_loop alloc img' 3508 2480 prefix [Resize (7016, 4960) LANCZOS])
        as (tr' & Ht & Hf).
      destruct (Script2x2.split_loop alloc img' 3508 2480 prefix _) as [tr2 r2].
      cbn [fst] in Ht. subst tr2. exists tr', r2. split; [reflexivity|exact Hf].
    + exists [], (Raise e). split; [reflexivity|constructor].
  - intros Hw Hh Hm A1 A2.
    specialize (E _ eq_refl).
    rewrite resize_run in E
      by (try exact A1; change (2 ^ 31) with 2147483648; lia).
    cbn [app] in E. rewrite <- E.
    set (poster := resized img 7016 4960 LANCZOS).
    assert (Pm : mode_in (im_mode poster) jpeg_modes = true)
      by (unfold poster; rewrite resized_mode; exact Hm).
    unfold Script2x2.split_loop. change (range 2) with [0; 1].
    cbn [for_fold]. cbv beta iota delta [bind ret].
    rewrite (tile_crop_run alloc poster 3508 2480 (0, 0))
      by (cbn [fst snd]; try exact A2; try reflexivity;
          change (2 ^ 30) with 1073741824; lia).
    cbv beta iota.
    rewrite (tile_save_run poster 3508 2480 (0, 0)) by (assumption || lia).
    cbv beta iota.
    rewrite (tile_crop_run alloc poster 3508 2480 (1, 0))
      by (cbn [fst snd]; try exact A2; try reflexivity;
          change (2 ^ 30) with 1073741824; lia).
    cbv beta iota.
    rewrite (tile_save_run poster 3508 2480 (1, 0)) by (assumption || lia).
    cbv beta iota.
    rewrite (tile_crop_run alloc poster 3508 2480 (0, 1))
      by (cbn [fst snd]; try exact A2; try reflexivity;
          change (2 ^ 30) with 1073741824; lia).
    cbv beta iota.
    rewrite (tile_save_run poster 3508 2480 (0, 1)) by (assumption || lia).
    cbv beta iota.
    rewrite (tile_crop_run alloc poster 3508 2480 (1, 1))
      by (cbn [fst snd]; try exact A2; try reflexivity;
          change (2 ^ 30) with 1073741824; lia).
    cbv beta iota.
    rewrite (tile_save_run poster 3508 2480 (1, 1)) by (assumption || lia).
    eexists. split; [reflexivity|]. reflexivity.
  - apply resized_size.
  - destruct (resized_sides img 7016 4960 LANCZOS) as [-> ->]. lia.
  - vm_compute. reflexivity.
  - vm_compute. reflexivity.
Qed.

Lemma split_2x2_stretches_source_witness :
  (exists tr,
     run (Script2x2.split_image_to_a4 generous (blank 1000 1500 black) "a4_part" true)
     = (Resize (2 * 3508, 2 * 2480) LANCZOS :: tr, Ok tt)
     /\ crop_saves tr
        = map (fun rc => (tile_box 3508 2480 rc,
                          cropped (resized (blank 1000 1500 black) 7016 4960 LANCZOS)
                            (tile_box 3508 2480 rc)))
            [(0, 0); (1, 0); (0, 1); (1, 1)])
  /\ width (resized (blank 1000 1500 black) 7016 4960 LANCZOS) * 1500
     <> height (resized (blank 1000 1500 black) 7016 4960 LANCZOS) * 1000.
Proof.
  destruct (split_2x2_stretches_source generous (blank 1000 1500 black) "a4_part")
    as (_ & A & _ & B & _).
  split.
  - apply A; cbn [blank width height im_mode]; (lia || reflexivity).
  - apply B. cbn [blank width height]. lia.
Defined.

(** * Further properties of the scripts *)

(** ** The page size at every resolution, as a theorem *)

(** X1.  For every resolution [dpi] from 1 to below [2^31], [a4_pixels],
    evaluated in binary64 floats ([210.0 / 25.4] and [297.0 / 25.4], the
    product with [dpi], [round]), returns exactly the integers nearest to
    [210 * dpi / 25.4] and [297 * dpi / 25.4], that is
    [(2100 * dpi + 127) // 254] and [(2970 * dpi + 127) // 254]: the float
    rounding never moves the result off the exact one.  The page is between
    8 and 9 pixels wide and between 11 and 12 pixels high per unit of
    [dpi]. *)
Theorem a4_pixels_is_exact_rounding (dpi : Z) :
  1 <= dpi < 2 ^ 31 ->
  a4_pixels dpi = Ok ((2100 * dpi + 127) / 254, (2970 * dpi + 127) / 254)
  /\ 8 * dpi <= (2100 * dpi + 127) / 254 <= 9 * dpi
  /\ 11 * dpi <= (2970 * dpi + 127) / 254 <= 12 * dpi.
Proof.
  intros Hd. split; [apply a4_pixels_exact; exact Hd|].
  split.
  - pose proof (Z.div_mod (2100 * dpi + 127) 254 ltac:(lia)).
    pose proof (Z.mod_pos_bound (2100 * dpi + 127) 254 ltac:(lia)).
    lia.
  - pose proof (Z.div_mod (2970 * dpi + 127) 254 ltac:(lia)).
    pose proof (Z.mod_pos_bound (2970 * dpi + 127) 254 ltac:(lia)).
    lia.
Qed.

Lemma a4_pixels_is_exact_rounding_witness :
  a4_pixels 72 = Ok ((2100 * 72 + 127) / 254, (2970 * 72 + 127) / 254)
  /\ 8 * 72 <= (2100 * 72 + 127) / 254 <= 9 * 72
  /\ 11 * 72 <= (2970 * 72 + 127) / 254 <= 12 * 72.
Proof. apply (a4_pixels_is_exact_rounding 72). lia. Defined.

(** ** The axis a policy fills exactly *)

(** ** The axis a policy fills exactly *)

Lemma max_cases (a b : PyFloat.float) : PyFloat.max a b = a \/ PyFloat.max a b = b.
Proof. unfold PyFloat.max. destruct (SFltb a b); auto. Qed.

Lemma min_cases (a b : PyFloat.float) : PyFloat.min a b = a \/ PyFloat.min a b = b.
Proof. unfold PyFloat.min. destruct (SFltb b a); auto. Qed.

(** A scale within [2^-52] of [t / n] takes [n] to within [2^-52] of [t]. *)
Lemma side_of_quotient (n t : Z) (v : R) :
  0 < n -> close (IZR t / IZR n) v -> close (IZR t) (IZR n * v).
Proof.
  intros Hn [C1 C2].
  assert (Pn : (0 < IZR n)%R) by (apply IZR_lt; lia).
  pose proof (FloatFacts.IZR_div_mul t n Hn) as E.
  split.
  - rewrite <- E at 1. rewrite Rmult_assoc. apply Rmult_le_compat_l; [lra|exact C1].
  - rewrite <- E at 1. rewrite Rmult_assoc. apply Rmult_le_compat_l; [lra|exact C2].
Qed.

(** A scaled side within [2^-52] of an integer below [2^31] rounds to it. *)
Lemma scaled_near_int (n t : Z) (sc : PyFloat.float) :
  0 < n < 2 ^ 53 -> normal_pos sc (-1000) 900 -> 0 < t < 2 ^ 31 ->
  close (IZR t) (IZR n * B2R sc) ->
  scaled n sc = Ok t.
Proof.
  intros Hn Hsc Ht [C1 C2].
  destruct (FloatFacts.scaled_close n sc Hn Hsc) as (r & V & Hs & [D1 D2] & Ge & Le).
  rewrite Hs. f_equal.
  assert (PT : (0 < IZR t < 2147483648)%R)
    by (split; [apply IZR_lt; lia|apply (IZR_lt _ (2 ^ 31)); lia]).
  assert (U : (u52 = / 4503599627370496)%R) by reflexivity.
  rewrite U in *. set (Q := (IZR n * B2R sc)%R) in *.
  apply Z.le_antisymm; [apply Le|apply Ge]; lra.
Qed.

Lemma widen_normal (f : PyFloat.float) :
  normal_pos f (-114) 10 -> normal_pos f (-1000) 900.
Proof. intros (m & e & -> & ? & ?). exists m, e. repeat split; lia. Qed.

Lemma scaled_size_inv (img : Image) (sc : PyFloat.float) (a b : Z) :
  scaled_size img sc = Ok (a, b) ->
  scaled (width img) sc = Ok a /\ scaled (height img) sc = Ok b.
Proof.
  unfold scaled_size.
  destruct (scaled (width img) sc) as [a'|]; cbn [rbind]; [|discriminate].
  destruct (scaled (height img) sc) as [b'|]; cbn [rbind]; [|discriminate].
  intros H; inversion H; auto.
Qed.

(** The two quotients of a fit, each taking its own side exactly to the
    target. *)
Lemma fit_quotients (img : Image) (tw th : Z) :
  0 < width img < 2 ^ 31 -> 0 < height img < 2 ^ 31 ->
  0 < tw < 2 ^ 31 -> 0 < th < 2 ^ 31 ->
  exists f1 f2,
    PyFloat.int_truediv tw (width img) = Ok f1
    /\ PyFloat.int_truediv th (height img) = Ok f2
    /\ normal_pos f1 (-114) 10 /\ normal_pos f2 (-114) 10
    /\ close (IZR tw / IZR (width img)) (B2R f1)
    /\ close (IZR th / IZR (height img)) (B2R f2)
    /\ scaled (width img) f1 = Ok tw
    /\ scaled (height img) f2 = Ok th.
Proof.
  intros Hw Hh Htw Hth.
  destruct (FloatFacts.int_truediv_close tw (width img)) as (f1 & E1 & N1 & C1); try lia.
  destruct (FloatFacts.int_truediv_close th (height img)) as (f2 & E2 & N2 & C2); try lia.
  exists f1, f2.
  split; [exact E1|]. split; [exact E2|]. split; [exact N1|]. split; [exact N2|].
  split; [exact C1|]. split; [exact C2|]. split.
  - apply scaled_near_int; try lia; [apply widen_normal; exact N1|].
    apply side_of_quotient; [lia|exact C1].
  - apply scaled_near_int; try lia; [apply widen_normal; exact N2|].
    apply side_of_quotient; [lia|exact C2].
Qed.

(** X3.  For every source and target with sides from 1 to below [2^31], the
    size either policy resizes the source to matches the target exactly on
    one axis: cover gives [(tw, ch)] with [ch >= th] or [(cw, th)] with
    [cw >= tw], so the centre crop removes pixels along one axis only;
    contain gives [(tw, nh)] with [nh <= th] or [(nw, th)] with
    [nw <= tw], so the white bars lie along one axis only. *)
Theorem fit_fills_one_axis (img : Image) (tw th : Z) :
  0 < width img < 2 ^ 31 -> 0 < height img < 2 ^ 31 ->
  0 < tw < 2 ^ 31 -> 0 < th < 2 ^ 31 ->
  exists cw ch nw nh,
    cover_size img tw th = Ok (cw, ch)
    /\ contain_size img tw th = Ok (nw, nh)
    /\ ((cw = tw /\ th <= ch) \/ (ch = th /\ tw <= cw))
    /\ ((nw = tw /\ 0 <= nh <= th) \/ (nh = th /\ 0 <= nw <= tw)).
Proof.
  intros Hw Hh Htw Hth.
  destruct (fit_quotients img tw th Hw Hh Htw Hth)
    as (f1 & f2 & E1 & E2 & N1 & N2 & C1 & C2 & S1 & S2).
  destruct (FloatFacts.cover_reaches_target img tw th Hw Hh Htw Hth)
    as (sc & cw & ch & Hsc & Hsz & Gw & Gh).
  destruct (FloatFacts.contain_within_target img tw th Hw Hh Htw Hth)
    as (sn & nw & nh & Hsn & Hnz & Bw & Bh).
  exists cw, ch, nw, nh.
  split; [unfold cover_size; rewrite Hsc; exact Hsz|].
  split; [unfold contain_size; rewrite Hsn; exact Hnz|].
  unfold cover_scale in Hsc. rewrite E1, E2 in Hsc. cbn [rbind] in Hsc.
  unfold contain_scale in Hsn. rewrite E1, E2 in Hsn. cbn [rbind] in Hsn.
  injection Hsc as <-. injection Hsn as <-.
  apply scaled_size_inv in Hsz, Hnz. destruct Hsz as [Zw Zh]. destruct Hnz as [Yw Yh].
  split.
  - destruct (max_cases f1 f2) as [E | E]; rewrite E in *.
    + left. split; [congruence|exact Gh].
    + right. split; [congruence|exact Gw].
  - destruct (min_cases f1 f2) as [E | E]; rewrite E in *.
    + left. split; [congruence|exact Bh].
    + right. split; [congruence|exact Bw].
Qed.

Lemma fit_fills_one_axis_witness :
  exists cw ch nw nh,
    cover_size (blank 1000 1500 black) 4960 7016 = Ok (cw, ch)
    /\ contain_size (blank 1000 1500 black) 4960 7016 = Ok (nw, nh)
    /\ ((cw = 4960 /\ 7016 <= ch) \/ (ch = 7016 /\ 4960 <= cw))
    /\ ((nw = 4960 /\ 0 <= nh <= 7016) \/ (nh = 7016 /\ 0 <= nw <= 4960)).
Proof.
  apply (fit_fills_one_axis (blank 1000 1500 black) 4960 7016);
    cbn [blank width height]; lia.
Defined.

(** ** A source with the aspect ratio of the target *)

Lemma scaled_size_of_sides (img : Image) (sc : PyFloat.float) (a b : Z) :
  scaled (width img) sc = Ok a -> scaled (height img) sc = Ok b ->
  scaled_size img sc = Ok (a, b).
Proof. intros Ha Hb. unfold scaled_size. rewrite Ha, Hb. reflexivity. Qed.

Lemma same_ratio (w h tw th : Z) :
  0 < w -> 0 < h -> tw * h = th * w ->
  (IZR tw / IZR w = IZR th / IZR h)%R.
Proof.
  intros Hw Hh E.
  assert (Pw : (0 < IZR w)%R) by (apply IZR_lt; lia).
  assert (Ph : (0 < IZR h)%R) by (apply IZR_lt; lia).
  assert (ER : (IZR tw * IZR h = IZR th * IZR w)%R) by (rewrite <- !mult_IZR; f_equal; exact E).
  apply (Rmult_eq_reg_r (IZR w * IZR h)); [|nra].
  replace (IZR tw / IZR w * (IZR w * IZR h))%R with (IZR tw * IZR h)%R by (field; lra).
  replace (IZR th / IZR h * (IZR w * IZR h))%R with (IZR th * IZR w)%R by (field; lra).
  exact ER.
Qed.

(** With equal aspect ratios both policies resize to exactly the target. *)
Lemma same_aspect_sizes (img : Image) (tw th : Z) :
  0 < width img < 2 ^ 31 -> 0 < height img < 2 ^ 31 ->
  0 < tw < 2 ^ 31 -> 0 < th < 2 ^ 31 ->
  tw * height img = th * width img ->
  cover_size img tw th = Ok (tw, th) /\ contain_size img tw th = Ok (tw, th).
Proof.
  intros Hw Hh Htw Hth Ha.
  destruct (fit_quotients img tw th Hw Hh Htw Hth)
    as (f1 & f2 & E1 & E2 & N1 & N2 & C1 & C2 & S1 & S2).
  pose proof (same_ratio (width img) (height img) tw th ltac:(lia) ltac:(lia) Ha) as ER.
  assert (S3 : scaled (width img) f2 = Ok tw).
  { apply scaled_near_int; try lia; [apply widen_normal; exact N2|].
    apply side_of_quotient; [lia|]. rewrite ER. exact C2. }
  assert (S4 : scaled (height img) f1 = Ok th).
  { apply scaled_near_int; try lia; [apply widen_normal; exact N1|].
    apply side_of_quotient; [lia|]. rewrite <- ER. exact C1. }
  unfold cover_size, contain_size, cover_scale, contain_scale.
  rewrite E1, E2. cbn [rbind]. split.
  - destruct (max_cases f1 f2) as [-> | ->]; apply scaled_size_of_sides; assumption.
  - destruct (min_cases f1 f2) as [-> | ->]; apply scaled_size_of_sides; assumption.
Qed.

(** X4.  When the source has the aspect ratio of the target
    ([tw * height = th * width], sides from 1 to below [2^31]), the target
    is within the pixel limit of [crop] and Pillow gets the memory for an
    image of the target size, both policies resize the source to exactly
    the target size, cover crops the full frame [(0, 0, tw, th)] and contain
    pastes at [(0, 0)].  Both results have the target size; cover keeps the
    mode of the source and every pixel of the resized source, contain
    returns an RGB image holding every pixel of the resized source as
    [paste] stores it in RGB.  For an RGB source the two results are equal
    pixel for pixel: nothing is cropped away and nothing is white fill. *)
Theorem same_aspect_policies_agree (alloc : Allocator) (img : Image) (tw th : Z) :
  0 < width img < 2 ^ 31 -> 0 < height img < 2 ^ 31 ->
  0 < tw < 2 ^ 31 -> 0 < th < 2 ^ 31 ->
  tw * height img = th * width img ->
  bomb tw th = false -> alloc tw th = true ->
  exists out_cover out_contain,
    run (resize_to_poster alloc img (tw, th) "cover")
    = ([Resize (tw, th) LANCZOS; Crop (0, 0, tw, th)], Ok out_cover)
    /\ run (resize_to_poster alloc img (tw, th) "contain")
       = ([Resize (tw, th) LANCZOS; New (tw, th) white; Paste (0, 0)], Ok out_contain)
    /\ size out_cover = (tw, th) /\ size out_contain = (tw, th)
    /\ im_mode out_cover = im_mode img /\ im_mode out_contain = RGB
    /\ (forall x y, 0 <= x < tw -> 0 <= y < th ->
          getpixel out_cover x y = getpixel (resized img tw th LANCZOS) x y
          /\ getpixel out_contain x y
             = option_map (paste_pixel RGB (im_mode img))
                 (getpixel (resized img tw th LANCZOS) x y))
    /\ (im_mode img = RGB ->
        forall x y, getpixel out_cover x y = getpixel out_contain x y).
Proof.
  intros Hw Hh Htw Hth Ha Hb Hal.
  destruct (same_aspect_sizes img tw th Hw Hh Htw Hth Ha) as [Ec En].
  pose proof (run_cover alloc img tw th tw th Ec ltac:(lia) ltac:(lia) Hal
                ltac:(lia) ltac:(lia) Hb Hal) as Rc.
  pose proof (run_contain alloc img tw th tw th En ltac:(lia) ltac:(lia) Hal
                ltac:(lia) ltac:(lia) Hal) as Rn.
  unfold cover_box in Rc. unfold contain_offset in Rn.
  rewrite !Z.sub_diag in Rc, Rn. change (0 / 2) with 0 in Rc, Rn.
  change (0 + tw) with tw in Rc. change (0 + th) with th in Rc.
  destruct (resized_sides img tw th LANCZOS) as [Rw Rh].
  pose proof (resized_mode img tw th LANCZOS) as Rm.
  remember (resized img tw th LANCZOS) as R eqn:ER. clear ER.
  eexists _, _. split; [exact Rc|]. split; [exact Rn|].
  split; [unfold size; cbn [cropped width height]; f_equal; lia|].
  split; [reflexivity|].
  split; [exact Rm|]. split; [reflexivity|].
  split.
  - intros x y Hx Hy.
    cbv [getpixel in_bounds pasted cropped blank width height pix im_mode option_map].
    fold (width R) (height R) (pix R) (im_mode R). rewrite Rw, Rh, Rm.
    zbool. cbn [andb]. split; [f_equal; f_equal; lia|].
    f_equal. f_equal. f_equal; lia.
  - intros Em x y.
    cbv [getpixel in_bounds pasted cropped blank width height pix im_mode].
    fold (width R) (height R) (pix R) (im_mode R). rewrite Rw, Rh, Rm, Em.
    rewrite paste_pixel_same.
    destruct (Z_lt_le_dec x 0), (Z_lt_le_dec x tw), (Z_lt_le_dec y 0), (Z_lt_le_dec y th);
      zbool; cbn [andb]; try reflexivity; f_equal; f_equal; lia.
Qed.

Lemma same_aspect_policies_agree_witness :
  exists out_cover out_contain,
    run (resize_to_poster generous (blank 1240 1754 black) (4960, 7016) "cover")
    = ([Resize (4960, 7016) LANCZOS; Crop (0, 0, 4960, 7016)], Ok out_cover)
    /\ run (resize_to_poster generous (blank 1240 1754 black) (4960, 7016) "contain")
       = ([Resize (4960, 7016) LANCZOS; New (4960, 7016) white; Paste (0, 0)],
          Ok out_contain)
    /\ size out_cover = (4960, 7016) /\ size out_contain = (4960, 7016)
    /\ forall x y, getpixel out_cover x y = getpixel out_contain x y.
Proof.
  destruct (same_aspect_policies_agree generous (blank 1240 1754 black) 4960 7016)
    as (oc & on & Rc & Rn & Sc & Sn & _ & _ & _ & K);
    try reflexivity;
    try (cbn [blank width height]; change (2 ^ 31) with 2147483648; lia).
  exists oc, on. split; [exact Rc|]. split; [exact Rn|].
  split; [exact Sc|]. split; [exact Sn|]. apply K. reflexivity.
Defined.

(** ** Where contain stops working *)

(** ** Where contain stops working *)

(** [n * t / d] is above one half by [2^-32] when [d < 2 * n * t], and
    below by as much when [2 * n * t < d]. *)
Lemma cross_ratio_above_half (n t d : Z) :
  0 < n -> 0 < d < 2 ^ 31 -> d < 2 * n * t ->
  (/ 2 + / 4294967296 <= IZR n * (IZR t / IZR d))%R.
Proof.
  intros Hn Hd H.
  assert (Pd : (0 < IZR d < 2147483648)%R)
    by (split; [apply IZR_lt; lia|apply (IZR_lt _ (2 ^ 31)); lia]).
  assert (I : (IZR d + 1 <= 2 * IZR (n * t))%R)
    by (rewrite <- (plus_IZR d 1), <- (mult_IZR 2); apply IZR_le; lia).
  rewrite mult_IZR in I.
  apply (Rmult_le_reg_r (IZR d)); [lra|].
  replace (IZR n * (IZR t / IZR d) * IZR d)%R with (IZR n * IZR t)%R by (field; lra).
  lra.
Qed.

Lemma cross_ratio_below_half (n t d : Z) :
  0 < n -> 0 < d < 2 ^ 31 -> 2 * n * t < d ->
  (IZR n * (IZR t / IZR d) <= / 2 - / 4294967296)%R.
Proof.
  intros Hn Hd H.
  assert (Pd : (0 < IZR d < 2147483648)%R)
    by (split; [apply IZR_lt; lia|apply (IZR_lt _ (2 ^ 31)); lia]).
  assert (I : (2 * IZR (n * t) + 1 <= IZR d)%R)
    by (rewrite <- (mult_IZR 2), <- (plus_IZR _ 1); apply IZR_le; lia).
  rewrite mult_IZR in I.
  apply (Rmult_le_reg_r (IZR d)); [lra|].
  replace (IZR n * (IZR t / IZR d) * IZR d)%R with (IZR n * IZR t)%R by (field; lra).
  lra.
Qed.

(** The other side under a quotient: at least 1 when the source is not
    too thin, 0 when it is. *)
Lemma scaled_other_side_positive (n t d : Z) (f : PyFloat.float) :
  0 < n < 2 ^ 31 -> 0 < d < 2 ^ 31 -> d < 2 * n * t ->
  normal_pos f (-114) 10 -> close (IZR t / IZR d) (B2R f) ->
  exists r, scaled n f = Ok r /\ 1 <= r.
Proof.
  intros Hn Hd H Nf [C1 _].
  destruct (FloatFacts.scaled_close n f ltac:(lia) (widen_normal f Nf))
    as (r & V & Hs & [D1 _] & Ge & _).
  exists r. split; [exact Hs|]. apply Ge.
  pose proof (cross_ratio_above_half n t d ltac:(lia) Hd H) as B.
  assert (Pn : (0 < IZR n)%R) by (apply IZR_lt; lia).
  assert (T : (IZR n * (IZR t / IZR d) <= IZR n * B2R f * (1 + u52))%R)
    by (rewrite Rmult_assoc; apply Rmult_le_compat_l; [lra|exact C1]).
  assert (U : (u52 = / 4503599627370496)%R) by reflexivity. rewrite U in *.
  set (P := (IZR n * (IZR t / IZR d))%R) in *. set (Q := (IZR n * B2R f)%R) in *.
  simpl IZR. lra.
Qed.

Lemma scaled_other_side_zero (n t d : Z) (f sc : PyFloat.float) :
  0 < n < 2 ^ 31 -> 0 < d < 2 ^ 31 -> 0 < t -> 2 * n * t < d ->
  close (IZR t / IZR d) (B2R f) ->
  normal_pos sc (-114) 10 -> (B2R sc <= B2R f)%R ->
  scaled n sc = Ok 0.
Proof.
  intros Hn Hd Ht H [_ C2] Ns Hle.
  destruct (FloatFacts.scaled_close n sc ltac:(lia) (widen_normal sc Ns))
    as (r & V & Hs & [D1 D2] & Ge & Le).
  rewrite Hs. f_equal.
  pose proof (cross_ratio_below_half n t d ltac:(lia) Hd H) as B.
  assert (Pn : (0 < IZR n)%R) by (apply IZR_lt; lia).
  assert (Psc : (0 < B2R sc)%R).
  { destruct Ns as (m & e & -> & ? & ?). rewrite FloatFacts.B2R_finite_pos.
    apply FloatFacts.F2R_pos. lia. }
  assert (T1 : (IZR n * B2R sc <= IZR n * B2R f)%R)
    by (apply Rmult_le_compat_l; [lra|exact Hle]).
  assert (T2 : (IZR n * B2R f <= IZR n * (IZR t / IZR d) * (1 + u52))%R)
    by (rewrite Rmult_assoc; apply Rmult_le_compat_l; [lra|exact C2]).
  assert (Q0 : (0 < IZR n * B2R sc)%R) by (apply Rmult_lt_0_compat; lra).
  assert (U : (u52 = / 4503599627370496)%R) by reflexivity. rewrite U in *.
  set (P := (IZR n * (IZR t / IZR d))%R) in *. set (Q := (IZR n * B2R f)%R) in *.
  set (S := (IZR n * B2R sc)%R) in *.
  apply Z.le_antisymm; [apply Le|apply Ge]; simpl IZR; lra.
Qed.

(** The size contain resizes to when the source is not too thin. *)
Lemma contain_size_positive (img : Image) (tw th : Z) :
  0 < width img < 2 ^ 31 -> 0 < height img < 2 ^ 31 ->
  0 < tw < 2 ^ 31 -> 0 < th < 2 ^ 31 ->
  width img < 2 * height img * tw -> height img < 2 * width img * th ->
  exists nw nh,
    contain_size img tw th = Ok (nw, nh) /\ 1 <= nw <= tw /\ 1 <= nh <= th.
Proof.
  intros Hw Hh Htw Hth Tw Th.
  destruct (fit_quotients img tw th Hw Hh Htw Hth)
    as (f1 & f2 & E1 & E2 & N1 & N2 & C1 & C2 & S1 & S2).
  destruct (FloatFacts.contain_within_target img tw th Hw Hh Htw Hth)
    as (sn & nw & nh & Hsn & Hnz & Bw & Bh).
  exists nw, nh. split; [unfold contain_size; rewrite Hsn; exact Hnz|].
  unfold contain_scale in Hsn. rewrite E1, E2 in Hsn. cbn [rbind] in Hsn.
  injection Hsn as <-.
  apply scaled_size_inv in Hnz. destruct Hnz as [Yw Yh].
  destruct (min_cases f1 f2) as [E | E]; rewrite E in *.
  - destruct (scaled_other_side_positive (height img) tw (width img) f1)
      as (r & Hr & Gr); try lia; try assumption.
    assert (nw = tw) by congruence. assert (nh = r) by congruence. lia.
  - destruct (scaled_other_side_positive (width img) th (height img) f2)
      as (r & Hr & Gr); try lia; try assumption.
    assert (nh = th) by congruence. assert (nw = r) by congruence. lia.
Qed.

(** A source more than twice as wide as the target ratio allows scales
    to height 0, one more than twice as tall to width 0. *)
Lemma contain_thin_wide (img : Image) (tw th : Z) :
  0 < width img < 2 ^ 31 -> 0 < height img < 2 ^ 31 ->
  0 < tw < 2 ^ 31 -> 0 < th < 2 ^ 31 ->
  2 * height img * tw < width img ->
  contain_size img tw th = Ok (tw, 0).
Proof.
  intros Hw Hh Htw Hth Thin.
  destruct (fit_quotients img tw th Hw Hh Htw Hth)
    as (f1 & f2 & E1 & E2 & N1 & N2 & C1 & C2 & S1 & S2).
  destruct (FloatFacts.min_normal f1 f2 _ _ N1 N2) as (Ns & L1 & L2).
  assert (Z0 : scaled (height img) (PyFloat.min f1 f2) = Ok 0)
    by (apply (scaled_other_side_zero (height img) tw (width img) f1); (assumption || lia)).
  assert (Zw : scaled (width img) (PyFloat.min f1 f2) = Ok tw).
  { destruct (min_cases f1 f2) as [E | E]; rewrite E in *; [exact S1|].
    rewrite S2 in Z0. injection Z0 as Z0. lia. }
  unfold contain_size, contain_scale. rewrite E1, E2. cbn [rbind].
  apply scaled_size_of_sides; assumption.
Qed.

Lemma contain_thin_tall (img : Image) (tw th : Z) :
  0 < width img < 2 ^ 31 -> 0 < height img < 2 ^ 31 ->
  0 < tw < 2 ^ 31 -> 0 < th < 2 ^ 31 ->
  2 * width img * th < height img ->
  contain_size img tw th = Ok (0, th).
Proof.
  intros Hw Hh Htw Hth Thin.
  destruct (fit_quotients img tw th Hw Hh Htw Hth)
    as (f1 & f2 & E1 & E2 & N1 & N2 & C1 & C2 & S1 & S2).
  destruct (FloatFacts.min_normal f1 f2 _ _ N1 N2) as (Ns & L1 & L2).
  assert (Z0 : scaled (width img) (PyFloat.min f1 f2) = Ok 0)
    by (apply (scaled_other_side_zero (width img) th (height img) f2); (assumption || lia)).
  assert (Zh : scaled (height img) (PyFloat.min f1 f2) = Ok th).
  { destruct (min_cases f1 f2) as [E | E]; rewrite E in *; [|exact S2].
    rewrite S1 in Z0. injection Z0 as Z0. lia. }
  unfold contain_size, contain_scale. rewrite E1, E2. cbn [rbind].
  apply scaled_size_of_sides; assumption.
Qed.

Lemma contain_thin_fails (alloc : Allocator) (img : Image) (tw th : Z) :
  0 < width img < 2 ^ 31 -> 0 < height img < 2 ^ 31 ->
  0 < tw < 2 ^ 31 -> 0 < th < 2 ^ 31 ->
  2 * height img * tw < width img \/ 2 * width img * th < height img ->
  exists sz,
    run (resize_to_poster alloc img (tw, th) "contain")
    = ([Resize sz LANCZOS], Raise (ValueError "height and width must be > 0")).
Proof.
  intros Hw Hh Htw Hth [Thin | Thin].
  - exists (tw, 0). apply run_contain_degenerate; try lia.
    apply contain_thin_wide; assumption.
  - exists (0, th). apply run_contain_degenerate; try lia.
    apply contain_thin_tall; assumption.
Qed.

(** X5.  Where the contain policy works (sides from 1 to below [2^31]): if
    [width < 2 * height * tw] and [height < 2 * width * th] the scaled size
    has sides from 1 up to the target's, and the call returns an image of
    exactly the target size when Pillow gets the memory for the scaled
    image and for the background; if [2 * height * tw < width] the scaled
    height rounds to 0 and the call raises the [ValueError] of
    [resize((tw, 0))]; if [2 * width * th < height] the scaled width rounds
    to 0 and it raises on [resize((0, th))], in both cases whatever memory
    there is.  (The two equalities, where the exact scaled side is one
    half, are not decided here.) *)
Theorem contain_thin_source_boundary (alloc : Allocator) (img : Image) (tw th : Z) :
  0 < width img < 2 ^ 31 -> 0 < height img < 2 ^ 31 ->
  0 < tw < 2 ^ 31 -> 0 < th < 2 ^ 31 ->
  (width img < 2 * height img * tw -> height img < 2 * width img * th ->
   exists nw nh,
     contain_size img tw th = Ok (nw, nh)
     /\ 1 <= nw <= tw /\ 1 <= nh <= th
     /\ (alloc nw nh = true -> alloc tw th = true ->
         exists out,
           snd (run (resize_to_poster alloc img (tw, th) "contain")) = Ok out
           /\ size out = (tw, th)))
  /\ (2 * height img * tw < width img ->
      run (resize_to_poster alloc img (tw, th) "contain")
      = ([Resize (tw, 0) LANCZOS], Raise (ValueError "height and width must be > 0")))
  /\ (2 * width img * th < height img ->
      run (resize_to_poster alloc img (tw, th) "contain")
      = ([Resize (0, th) LANCZOS], Raise (ValueError "height and width must be > 0"))).
Proof.
  intros Hw Hh Htw Hth. split; [|split].
  - intros Tw Th.
    destruct (contain_size_positive img tw th Hw Hh Htw Hth Tw Th)
      as (nw & nh & Hs & Bw & Bh).
    exists nw, nh. split; [exact Hs|]. split; [exact Bw|]. split; [exact Bh|].
    intros A1 A2.
    rewrite (run_contain alloc img tw th nw nh Hs) by (assumption || lia).
    eexists. split; reflexivity.
  - intros Thin. apply run_contain_degenerate; try lia.
    apply contain_thin_wide; assumption.
  - intros Thin. apply run_contain_degenerate; try lia.
    apply contain_thin_tall; assumption.
Qed.

Lemma contain_thin_source_boundary_witness :
  (exists out,
     snd (run (resize_to_poster generous (blank 9000 1 black) (4960, 7016) "contain"))
     = Ok out
     /\ size out = (4960, 7016))
  /\ run (resize_to_poster generous (blank 10000 1 black) (4960, 7016) "contain")
     = ([Resize (4960, 0) LANCZOS], Raise (ValueError "height and width must be > 0"))
  /\ run (resize_to_poster generous (blank 1 20000 black) (4960, 7016) "contain")
     = ([Resize (0, 7016) LANCZOS], Raise (ValueError "height and width must be > 0")).
Proof.
  split; [|split].
  - destruct (contain_thin_source_boundary generous (blank 9000 1 black) 4960 7016)
      as (K & _);
      try (cbn [blank width height]; change (2 ^ 31) with 2147483648; lia).
    destruct K as (nw & nh & _ & _ & _ & K);
      try (cbn [blank width height]; lia).
    apply K; reflexivity.
  - apply (contain_thin_source_boundary generous (blank 10000 1 black) 4960 7016);
      cbn [blank width height]; change (2 ^ 31) with 2147483648; lia.
  - apply (contain_thin_source_boundary generous (blank 1 20000 black) 4960 7016);
      cbn [blank width height]; change (2 ^ 31) with 2147483648; lia.
Defined.

(** X6.  Under contain, for a source that is not too thin (the two
    inequalities of X5), the scaled size [(nw, nh)] has sides at least 1 and
    at most the target's; the paste corner [left = (tw - nw) // 2],
    [top = (th - nh) // 2] puts it fully inside the canvas, and the right
    and bottom margins exceed the left and top ones by at most one pixel.
    When Pillow gets the memory for the scaled image and the background,
    the run returns an RGB image of the target size after the calls
    resize, new, paste, and a pixel of it is the resized source's, as
    [paste] stores it in RGB, when it falls in the pasted rectangle, white
    otherwise. *)
Theorem contain_letterbox_geometry (alloc : Allocator) (img : Image) (tw th : Z) :
  0 < width img < 2 ^ 31 -> 0 < height img < 2 ^ 31 ->
  0 < tw < 2 ^ 31 -> 0 < th < 2 ^ 31 ->
  width img < 2 * height img * tw -> height img < 2 * width img * th ->
  exists nw nh left top,
    contain_size img tw th = Ok (nw, nh)
    /\ left = (tw - nw) / 2 /\ top = (th - nh) / 2
    /\ 1 <= nw <= tw /\ 1 <= nh <= th
    /\ 0 <= left /\ left + nw <= tw /\ 0 <= top /\ top + nh <= th
    /\ 0 <= tw - (left + nw) - left <= 1
    /\ 0 <= th - (top + nh) - top <= 1
    /\ (alloc nw nh = true -> alloc tw th = true ->
        exists out,
          run (resize_to_poster alloc img (tw, th) "contain")
          = ([Resize (nw, nh) LANCZOS; New (tw, th) white; Paste (left, top)], Ok out)
          /\ size out = (tw, th) /\ im_mode out = RGB
          /\ forall x y, 0 <= x < tw -> 0 <= y < th ->
               getpixel out x y
               = Some (if (left <=? x) && (x <? left + nw)
                          && (top <=? y) && (y <? top + nh)
                       then paste_pixel RGB (im_mode img)
                              (pix (resized img nw nh LANCZOS) (x - left) (y - top))
                       else white)).
Proof.
  intros Hw Hh Htw Hth Tw Th.
  destruct (contain_size_positive img tw th Hw Hh Htw Hth Tw Th)
    as (nw & nh & Hs & Bw & Bh).
  pose proof (half_excess_bounds (tw - nw) ltac:(lia)) as Ew.
  pose proof (half_excess_bounds (th - nh) ltac:(lia)) as Eh.
  destruct (floor_half_split (tw - nw)) as (Fw & _).
  destruct (floor_half_split (th - nh)) as (Fh & _).
  pose proof (Z.mod_pos_bound (tw - nw) 2 ltac:(lia)) as Mw.
  pose proof (Z.mod_pos_bound (th - nh) 2 ltac:(lia)) as Mh.
  exists nw, nh, ((tw - nw) / 2), ((th - nh) / 2).
  split; [exact Hs|]. split; [reflexivity|]. split; [reflexivity|].
  repeat (split; [lia|]).
  intros A1 A2.
  eexists. split; [apply (run_contain alloc img tw th nw nh Hs); (assumption || lia)|].
  split; [reflexivity|]. split; [reflexivity|].
  intros x y Hx Hy.
  destruct (resized_sides img nw nh LANCZOS) as [Rw Rh].
  pose proof (resized_mode img nw nh LANCZOS) as Rm.
  remember (resized img nw nh LANCZOS) as R eqn:ER. clear ER.
  cbv [getpixel in_bounds pasted blank width height pix im_mode].
  fold (width R) (height R) (pix R) (im_mode R). rewrite Rw, Rh, Rm.
  set (l := (tw - nw) / 2) in *. set (t := (th - nh) / 2) in *.
  replace (0 <=? x) with true by (symmetry; apply Z.leb_le; lia).
  replace (x <? tw) with true by (symmetry; apply Z.ltb_lt; lia).
  replace (0 <=? y) with true by (symmetry; apply Z.leb_le; lia).
  replace (y <? th) with true by (symmetry; apply Z.ltb_lt; lia).
  cbn [andb]. f_equal.
  replace (0 <=? x - l) with (l <=? x)
    by (destruct (Z.leb_spec l x), (Z.leb_spec 0 (x - l)); (reflexivity || lia)).
  replace (x - l <? nw) with (x <? l + nw)
    by (destruct (Z.ltb_spec x (l + nw)), (Z.ltb_spec (x - l) nw); (reflexivity || lia)).
  replace (0 <=? y - t) with (t <=? y)
    by (destruct (Z.leb_spec t y), (Z.leb_spec 0 (y - t)); (reflexivity || lia)).
  replace (y - t <? nh) with (y <? t + nh)
    by (destruct (Z.ltb_spec y (t + nh)), (Z.ltb_spec (y - t) nh); (reflexivity || lia)).
  reflexivity.
Qed.

Lemma contain_letterbox_geometry_witness :
  exists out,
    run (resize_to_poster generous (blank 1000 1500 black) (4960, 7016) "contain")
    = ([Resize (4677, 7016) LANCZOS; New (4960, 7016) white; Paste (141, 0)], Ok out)
    /\ size out = (4960, 7016) /\ im_mode out = RGB
    /\ forall x y, 0 <= x < 4960 -> 0 <= y < 7016 ->
         getpixel out x y
         = Some (if (141 <=? x) && (x <? 141 + 4677) && (0 <=? y) && (y <? 0 + 7016)
                 then paste_pixel RGB (im_mode (blank 1000 1500 black))
                        (pix (resized (blank 1000 1500 black) 4677 7016 LANCZOS)
                           (x - 141) (y - 0))
                 else white).
Proof.
  destruct (contain_letterbox_geometry generous (blank 1000 1500 black) 4960 7016)
    as (nw & nh & left & top & Hs & El & Et & _ & _ & _ & _ & _ & _ & _ & _ & K);
    try (cbn [blank width height]; change (2 ^ 31) with 2147483648; lia).
  assert (E : contain_size (blank 1000 1500 black) 4960 7016 = Ok (4677, 7016))
    by (vm_compute; reflexivity).
  rewrite E in Hs.
  assert (E1 : nw = 4677) by congruence. assert (E2 : nh = 7016) by congruence.
  subst nw nh.
  change ((4960 - 4677) / 2) with 141 in El. change ((7016 - 7016) / 2) with 0 in Et.
  subst left top.
  apply K; reflexivity.
Defined.

(** ** What a returned poster always satisfies *)

Lemma int_truediv_returned (a b : Z) (f : PyFloat.float) :
  PyFloat.int_truediv a b = Ok f -> b <> 0.
Proof.
  unfold PyFloat.int_truediv. destruct (Z.eqb_spec b 0); [discriminate|auto].
Qed.

Lemma scale_returned (img : Image) (tw th : Z) (sc : PyFloat.float) :
  cover_scale img tw th = Ok sc \/ contain_scale img tw th = Ok sc ->
  width img <> 0 /\ height img <> 0.
Proof.
  unfold cover_scale, contain_scale.
  destruct (PyFloat.int_truediv tw (width img)) as [sx|e] eqn:Ex;
    [|intros [H|H]; discriminate H].
  destruct (PyFloat.int_truediv th (height img)) as [sy|e] eqn:Ey;
    [|intros [H|H]; discriminate H].
  intros _. split; eapply int_truediv_returned; eassumption.
Qed.

Lemma resize_returned (alloc : Allocator) (im : Image) (w h : Z)
      (f : resampling) (tr tr' : list event) (out : Image) :
  width im <> 0 -> height im <> 0 ->
  Image_resize alloc im (w, h) f tr = (tr', Ok out) ->
  tr' = tr ++ [Resize (w, h) f] /\ out = resized im w h f /\ 1 <= w /\ 1 <= h.
Proof.
  intros Hw Hh. unfold Image_resize, bind, emit, raise, ret.
  destruct (same_size im w h) eqn:S.
  - intros E. injection E as <- <-.
    unfold same_size in S. apply andb_true_iff in S. destruct S as [S S4].
    apply andb_true_iff in S. destruct S as [S S3].
    apply andb_true_iff in S. destruct S as [S1 S2].
    apply Z.leb_le in S1, S2. apply Z.eqb_eq in S3, S4.
    repeat split; lia.
  - destruct (negb _); [discriminate|].
    destruct (Z.ltb_spec w 1); cbn [orb]; [discriminate|].
    destruct (Z.ltb_spec h 1); [discriminate|].
    destruct (alloc w h); [|discriminate].
    intros E. injection E as <- <-. repeat split; lia.
Qed.

Lemma crop_returned (alloc : Allocator) (im : Image) (l u r lo : Z)
      (tr tr' : list event) (out : Image) :
  Image_crop alloc im (l, u, r, lo) tr = (tr', Ok out) ->
  tr' = tr ++ [Crop (l, u, r, lo)] /\ out = cropped im (l, u, r, lo)
  /\ l <= r /\ u <= lo.
Proof.
  unfold Image_crop, bind, emit, raise, ret.
  destruct (Z.ltb_spec r l); [discriminate|].
  destruct (Z.ltb_spec lo u); [discriminate|].
  destruct (bomb _ _); [discriminate|].
  destruct (negb _); [discriminate|].
  destruct (alloc _ _); [|discriminate].
  intros E. injection E as <- <-. repeat split; lia.
Qed.

Lemma new_returned (alloc : Allocator) (w h : Z) (fill : pixel)
      (tr tr' : list event) (out : Image) :
  Image_new alloc (w, h) fill tr = (tr', Ok out) ->
  tr' = tr ++ [New (w, h) fill] /\ out = blank w h fill /\ 0 <= w /\ 0 <= h.
Proof.
  unfold Image_new, bind, emit, raise, ret.
  destruct (Z.ltb_spec w 0); cbn [orb]; [discriminate|].
  destruct (Z.ltb_spec h 0); [discriminate|].
  destruct (negb _); [discriminate|].
  destruct (alloc _ _); [|discriminate].
  intros E. injection E as <- <-. repeat split; lia.
Qed.

Lemma paste_returned (bg im : Image) (l t : Z) (tr tr' : list event) (out : Image) :
  Image_paste bg im (l, t) tr = (tr', Ok out) ->
  tr' = tr ++ [Paste (l, t)] /\ out = pasted bg im l t.
Proof.
  unfold Image_paste, bind, emit, raise, ret. cbn [fst snd].
  destruct (negb _); [discriminate|].
  intros E. injection E as <- <-. split; reflexivity.
Qed.

(** X13.  Whatever the source, target and mode, when [resize_to_poster]
    returns an image, that image has exactly the target size, the target
    sides are not negative, and the calls made were one [resize] to a size
    with both sides at least 1 followed by the centre [crop] (cover) or by
    [Image.new] and the centred [paste] (contain). *)
Theorem returned_poster_has_target_size (alloc : Allocator) (img : Image)
        (tw th : Z) (mode : string) (tr : list event) (out : Image) :
  run (resize_to_poster alloc img (tw, th) mode) = (tr, Ok out) ->
  size out = (tw, th) /\ 0 <= tw /\ 0 <= th
  /\ exists new_w new_h,
       1 <= new_w /\ 1 <= new_h
       /\ ((mode = "cover"
            /\ tr = [Resize (new_w, new_h) LANCZOS;
                     Crop ((new_w - tw) / 2, (new_h - th) / 2,
                           (new_w - tw) / 2 + tw, (new_h - th) / 2 + th)])
           \/ (mode = "contain"
               /\ tr = [Resize (new_w, new_h) LANCZOS; New (tw, th) white;
                        Paste ((tw - new_w) / 2, (th - new_h) / 2)])).
Proof.
  unfold run, resize_to_poster.
  destruct (String.eqb_spec mode "cover") as [-> | Hc].
  - unfold bind at 1 2, lift.
    destruct (cover_scale img tw th) as [sc|e] eqn:Hsc; [|discriminate].
    destruct (scale_returned img tw th sc (or_introl Hsc)) as [Nw Nh].
    destruct (scaled_size img sc) as [[nw nh]|e]; [|discriminate].
    unfold bind.
    destruct (Image_resize alloc img (nw, nh) LANCZOS []) as [tr1 [im1|e]] eqn:Hr;
      [|discriminate].
    destruct (resize_returned _ _ _ _ _ _ _ _ Nw Nh Hr) as (-> & -> & B1 & B2).
    intros Hk. destruct (crop_returned _ _ _ _ _ _ _ _ _ Hk) as (-> & -> & C1 & C2).
    split; [cbv [size cropped width height]; f_equal; lia|].
    split; [lia|]. split; [lia|].
    exists nw, nh. split; [lia|]. split; [lia|]. left. split; reflexivity.
  - destruct (String.eqb_spec mode "contain") as [-> | Hn].
    + unfold bind at 1 2, lift.
      destruct (contain_scale img tw th) as [sc|e] eqn:Hsc; [|discriminate].
      destruct (scale_returned img tw th sc (or_intror Hsc)) as [Nw Nh].
      destruct (scaled_size img sc) as [[nw nh]|e]; [|discriminate].
      unfold bind.
      destruct (Image_resize alloc img (nw, nh) LANCZOS []) as [tr1 [im1|e]] eqn:Hr;
        [|discriminate].
      destruct (resize_returned _ _ _ _ _ _ _ _ Nw Nh Hr) as (-> & -> & B1 & B2).
      destruct (Image_new alloc (tw, th) white _) as [tr2 [bg|e]] eqn:Hb;
        [|discriminate].
      destruct (new_returned _ _ _ _ _ _ _ Hb) as (-> & -> & C1 & C2).
      intros Hk. destruct (paste_returned _ _ _ _ _ _ _ Hk) as (-> & ->).
      split; [reflexivity|].
      split; [lia|]. split; [lia|].
      exists nw, nh. split; [lia|]. split; [lia|]. right. split; reflexivity.
    + unfold raise. discriminate.
Qed.

Lemma returned_poster_has_target_size_witness :
  exists tr out,
    run (resize_to_poster generous (blank 3 7 black) (10, 10) "cover") = (tr, Ok out)
    /\ size out = (10, 10) /\ 0 <= 10 /\ 0 <= 10
    /\ exists new_w new_h,
         1 <= new_w /\ 1 <= new_h
         /\ (("cover" = "cover"
              /\ tr = [Resize (new_w, new_h) LANCZOS;
                       Crop ((new_w - 10) / 2, (new_h - 10) / 2,
                             (new_w - 10) / 2 + 10, (new_h - 10) / 2 + 10)])
             \/ ("cover" = "contain"
                 /\ tr = [Resize (new_w, new_h) LANCZOS; New (10, 10) white;
                          Paste ((10 - new_w) / 2, (10 - new_h) / 2)])).
Proof.
  eexists. eexists. split; [vm_compute; reflexivity|].
  eapply (returned_poster_has_target_size generous (blank 3 7 black) 10 10 "cover").
  vm_compute. reflexivity.
Defined.

(** ** Division by a zero source side *)

Lemma int_truediv_never_zero_division a b :
  b <> 0 -> rnever ZeroDivisionError (PyFloat.int_truediv a b).
Proof.
  intros Hb. unfold PyFloat.int_truediv.
  unfold rnever.
  destruct (Z.eqb_spec b 0) as [E | _]; [contradiction|].
  destruct (SFdiv _ _ _ _); discriminate.
Qed.

Lemma round_never_zero_division x : rnever ZeroDivisionError (PyFloat.round x).
Proof. unfold rnever; destruct x as [s|s| |[] m e]; discriminate. Qed.

Lemma scaled_never_zero_division n sc : rnever ZeroDivisionError (scaled n sc).
Proof.
  unfold scaled. apply rnever_rbind; [|apply round_never_zero_division].
  unfold rnever, PyFloat.int_mul, PyFloat.of_int.
  destruct (binary_normalize _ _ _ _ _); discriminate.
Qed.

Lemma scaled_size_never_zero_division img sc :
  rnever ZeroDivisionError (scaled_size img sc).
Proof.
  unfold scaled_size.
  apply rnever_rbind; [apply scaled_never_zero_division|]. intros a.
  apply rnever_rbind; [apply scaled_never_zero_division|]. intros b.
  discriminate.
Qed.

Lemma resize_never_zero_division alloc im sz f :
  never ZeroDivisionError (Image_resize alloc im sz f).
Proof.
  unfold Image_resize. apply never_bind; [apply never_emit|]. intros _.
  destruct sz as [w h]. never_cases.
Qed.

Lemma crop_never_zero_division alloc im b :
  never ZeroDivisionError (Image_crop alloc im b).
Proof.
  unfold Image_crop. apply never_bind; [apply never_emit|]. intros _.
  destruct b as [[[l u] r] lo]. never_cases.
Qed.

Lemma new_never_zero_division alloc sz c :
  never ZeroDivisionError (Image_new alloc sz c).
Proof.
  unfold Image_new. apply never_bind; [apply never_emit|]. intros _.
  destruct sz as [w h]. never_cases.
Qed.

Lemma paste_never_zero_division bg im off :
  never ZeroDivisionError (Image_paste bg im off).
Proof.
  unfold Image_paste. apply never_bind; [apply never_emit|]. intros _.
  never_cases.
Qed.

(** X12.  [resize_to_poster] divides by the source sides without a check.
    Under cover or contain a source of width 0 ends with
    [ZeroDivisionError] before any Pillow call, and a source of height 0
    with [ZeroDivisionError] or, when [tw / width] already overflows, with
    [OverflowError]; for a source with both sides non-zero no mode and no
    target ever raises [ZeroDivisionError]. *)
Theorem zero_division_only_on_empty_source (alloc : Allocator) (img : Image)
        (tw th : Z) (mode : string) :
  (mode = "cover" \/ mode = "contain" ->
   (width img = 0 ->
    run (resize_to_poster alloc img (tw, th) mode) = ([], Raise ZeroDivisionError))
   /\ (height img = 0 ->
       run (resize_to_poster alloc img (tw, th) mode) = ([], Raise ZeroDivisionError)
       \/ run (resize_to_poster alloc img (tw, th) mode) = ([], Raise OverflowError)))
  /\ (width img <> 0 -> height img <> 0 ->
      snd (run (resize_to_poster alloc img (tw, th) mode)) <> Raise ZeroDivisionError).
Proof.
  split.
  - intros Hm. split.
    + intros W0.
      destruct Hm as [-> | ->]; unfold run, resize_to_poster;
        cbn [String.eqb Ascii.eqb Bool.eqb andb];
        unfold bind, lift, cover_scale, contain_scale, PyFloat.int_truediv;
        rewrite W0; reflexivity.
    + intros H0.
      assert (Q : forall k : PyFloat.float -> PyFloat.float -> PyFloat.float,
                 rbind (PyFloat.int_truediv tw (width img)) (fun sx =>
                 rbind (PyFloat.int_truediv th (height img)) (fun sy => Ok (k sx sy)))
                 = Raise ZeroDivisionError
                 \/ rbind (PyFloat.int_truediv tw (width img)) (fun sx =>
                    rbind (PyFloat.int_truediv th (height img)) (fun sy => Ok (k sx sy)))
                    = Raise OverflowError).
      { intros k. rewrite H0.
        destruct (PyFloat.int_truediv tw (width img)) as [f|e] eqn:E.
        - left. reflexivity.
        - cbn [rbind]. destruct (Z.eq_dec (width img) 0) as [W0 | W0].
          + left. unfold PyFloat.int_truediv in E. rewrite W0 in E.
            cbn in E. congruence.
          + right. f_equal. exact (SignFacts.int_truediv_raises _ _ _ W0 E). }
      destruct Hm as [-> | ->]; unfold run, resize_to_poster;
        cbn [String.eqb Ascii.eqb Bool.eqb andb];
        unfold bind, lift, cover_scale, contain_scale.
      * destruct (Q PyFloat.max) as [-> | ->]; [left|right]; reflexivity.
      * destruct (Q PyFloat.min) as [-> | ->]; [left|right]; reflexivity.
  - intros W0 H0.
    apply rnever_neq.
    assert (N : never ZeroDivisionError (resize_to_poster alloc img (tw, th) mode)).
    { unfold resize_to_poster.
      destruct (mode =? "cover")%string.
      - apply never_bind.
        { apply never_lift. unfold cover_scale.
          apply rnever_rbind; [apply int_truediv_never_zero_division; exact W0|].
          intros sx.
          apply rnever_rbind; [apply int_truediv_never_zero_division; exact H0|].
          intros sy. discriminate. }
        intros sc. apply never_bind;
          [apply never_lift, scaled_size_never_zero_division|].
        intros [nw nh]. apply never_bind; [apply resize_never_zero_division|].
        intros im. apply crop_never_zero_division.
      - destruct (mode =? "contain")%string.
        + apply never_bind.
          { apply never_lift. unfold contain_scale.
            apply rnever_rbind; [apply int_truediv_never_zero_division; exact W0|].
            intros sx.
            apply rnever_rbind; [apply int_truediv_never_zero_division; exact H0|].
            intros sy. discriminate. }
          intros sc. apply never_bind;
            [apply never_lift, scaled_size_never_zero_division|].
          intros [nw nh]. apply never_bind; [apply resize_never_zero_division|].
          intros im. apply never_bind; [apply new_never_zero_division|].
          intros bg. apply paste_never_zero_division.
        + apply never_raise. discriminate. }
    apply N.
Qed.

Lemma zero_division_only_on_empty_source_witness :
  run (resize_to_poster generous (blank 0 7 black) (10, 10) "cover")
  = ([], Raise ZeroDivisionError)
  /\ (run (resize_to_poster generous (blank 3 0 black) (10, 10) "contain")
      = ([], Raise ZeroDivisionError)
      \/ run (resize_to_poster generous (blank 3 0 black) (10, 10) "contain")
         = ([], Raise OverflowError))
  /\ snd (run (resize_to_poster generous (blank 3 7 black) (10, 10) "contain"))
     <> Raise ZeroDivisionError.
Proof.
  split; [|split].
  - apply (zero_division_only_on_empty_source generous (blank 0 7 black) 10 10 "cover");
      [left|]; reflexivity.
  - apply (zero_division_only_on_empty_source generous (blank 3 0 black) 10 10 "contain");
      [right|]; reflexivity.
  - apply (zero_division_only_on_empty_source generous (blank 3 7 black) 10 10 "contain");
      cbn [blank width height]; lia.
Defined.

(** ** The PDF page of a tile *)

Lemma int_mul_2 (x : PyFloat.float) :
  PyFloat.int_mul 2 x
  = Ok (PyFloat.mul (S754_finite false 4503599627370496 (-51)) x).
Proof.
  unfold PyFloat.int_mul.
  replace (PyFloat.of_int 2) with (Ok (S754_finite false 4503599627370496 (-51)))
    by (vm_compute; reflexivity).
  reflexivity.
Qed.

Lemma fhalf_returns (x : PyFloat.float) : exists y, fhalf x = Ok y.
Proof.
  unfold fhalf.
  replace (PyFloat.of_int 2) with (Ok (S754_finite false 4503599627370496 (-51)))
    by (vm_compute; reflexivity).
  cbn [rbind PyFloat.truediv]. eexists. reflexivity.
Qed.

Lemma truediv_zero (x y : PyFloat.float) :
  is_zero y = true -> PyFloat.truediv x y = Raise ZeroDivisionError.
Proof. destruct y; cbn; (discriminate || reflexivity). Qed.

Lemma truediv_nonzero (x y : PyFloat.float) :
  is_zero y = false ->
  PyFloat.truediv x y = Ok (SFdiv PyFloat.prec PyFloat.emax x y).
Proof. destruct y; cbn; (discriminate || reflexivity). Qed.

Lemma normal_pos_nonzero (f : PyFloat.float) (elo ehi : Z) :
  normal_pos f elo ehi -> is_zero f = false.
Proof. intros (m & e & -> & _). reflexivity. Qed.

Lemma pdf_placement_cases (tile_w tile_h : Z) (margin : PyFloat.float) :
  0 < tile_w < 2 ^ 62 -> 0 < tile_h < 2 ^ 62 ->
  exists dh,
    pdf_draw_h margin = Ok dh
    /\ (is_zero dh = true ->
        pdf_placement tile_w tile_h margin = Raise ZeroDivisionError)
    /\ (is_zero dh = false ->
        exists ar x y w h,
          PyFloat.int_truediv tile_w tile_h = Ok ar
          /\ pdf_placement tile_w tile_h margin = Ok (x, y, w, h)
          /\ ((h = dh /\ w = PyFloat.mul dh ar
               /\ y = PyFloat.mul margin Reportlab.mm)
              \/ (PyFloat.truediv w ar = Ok h
                  /\ x = PyFloat.mul margin Reportlab.mm))).
Proof.
  intros Hw Hh.
  destruct (FloatFacts.int_truediv_close tile_w tile_h Hw Hh)
    as (ar & Har & Nar & _).
  pose proof (normal_pos_nonzero ar _ _ Nar) as Zar.
  unfold pdf_draw_h. rewrite int_mul_2. cbn [rbind].
  eexists. split; [reflexivity|].
  unfold pdf_placement, Reportlab.A4. cbv beta iota.
  rewrite int_mul_2, Har. cbn [rbind snd].
  set (m2 := PyFloat.mul (S754_finite false 4503599627370496 (-51))
               (PyFloat.mul margin Reportlab.mm)).
  split.
  - intros Z. rewrite (truediv_zero _ _ Z). reflexivity.
  - intros Z. rewrite (truediv_nonzero _ _ Z). cbn [rbind].
    exists ar.
    destruct (SFltb _ ar).
    + rewrite (truediv_nonzero _ _ Zar). cbn [rbind].
      match goal with
      | |- context [fhalf ?a] => destruct (fhalf_returns a) as (dy & ->)
      end.
      cbn [rbind]. do 4 eexists. split; [reflexivity|]. split; [reflexivity|].
      right. split; [apply (truediv_nonzero _ _ Zar)|reflexivity].
    + match goal with
      | |- context [fhalf ?a] => destruct (fhalf_returns a) as (dx & ->)
      end.
      cbn [rbind]. do 4 eexists. split; [reflexivity|]. split; [reflexivity|].
      left. repeat split.
Qed.

(** X7.  [save_tile_pdf], for a tile with positive sides and every margin
    (any float): [2 * margin_pt] never fails; when the drawing height
    [page_h - 2 * margin_pt] is a float zero the call raises
    [ZeroDivisionError] at [draw_w / draw_h] and nothing is drawn;
    otherwise the placement is computed, fitted by height
    ([render_h = draw_h], [render_w = draw_h * tile_ar], [render_y] the
    margin) or fitted by width ([render_h = render_w / tile_ar],
    [render_x] the margin), and the call either draws the image exactly
    once, under the given name and at that placement, or raises and draws
    nothing; it raises when one of the four numbers is a NaN or an
    infinity. *)
Theorem pdf_page_needs_height (tile : Image) (dir name : string)
        (margin : PyFloat.float) (tr : list event) :
  0 < width tile < 2 ^ 62 -> 0 < height tile < 2 ^ 62 ->
  exists dh,
    pdf_draw_h margin = Ok dh
    /\ (is_zero dh = true ->
        save_tile_pdf tile dir name margin tr = (tr, Raise ZeroDivisionError))
    /\ (is_zero dh = false ->
        exists ar x y w h,
          PyFloat.int_truediv (width tile) (height tile) = Ok ar
          /\ pdf_placement (width tile) (height tile) margin = Ok (x, y, w, h)
          /\ ((h = dh /\ w = PyFloat.mul dh ar
               /\ y = PyFloat.mul margin Reportlab.mm)
              \/ (PyFloat.truediv w ar = Ok h
                  /\ x = PyFloat.mul margin Reportlab.mm))
          /\ (save_tile_pdf tile dir name margin tr
              = (tr ++ [DrawImage name x y w h], Ok tt)
              \/ exists e, save_tile_pdf tile dir name margin tr = (tr, Raise e))
          /\ (finite x && finite y && finite w && finite h = false ->
              exists e, save_tile_pdf tile dir name margin tr = (tr, Raise e))).
Proof.
  intros Hw Hh.
  destruct (pdf_placement_cases (width tile) (height tile) margin Hw Hh)
    as (dh & Hd & Z1 & Z2).
  destruct (as_rgb_sides tile) as [Ew Eh].
  exists dh. split; [exact Hd|]. split.
  - intros Z. unfold save_tile_pdf, bind, lift. rewrite Ew, Eh, (Z1 Z). reflexivity.
  - intros Z. destruct (Z2 Z) as (ar & x & y & w & h & Har & Hp & Hrel).
    exists ar, x, y, w, h. split; [exact Har|]. split; [exact Hp|].
    split; [exact Hrel|].
    unfold save_tile_pdf, bind, lift. rewrite Ew, Eh, Hp. unfold Canvas_drawImage.
    destruct (finite x && finite y && finite w && finite h).
    + split; [left; reflexivity|discriminate].
    + split; [right|intros _]; eexists; reflexivity.
Qed.

Lemma pdf_page_needs_height_witness :
  save_tile_pdf (blank 2480 3508 black) "./tiles" "tile_r1c1.pdf" margin_148_5 []
  = ([], Raise ZeroDivisionError)
  /\ exists ar x y w h,
       PyFloat.int_truediv 2480 3508 = Ok ar
       /\ pdf_placement 2480 3508 (S754_zero false) = Ok (x, y, w, h)
       /\ save_tile_pdf (blank 2480 3508 black) "./tiles" "tile_r1c1.pdf"
            (S754_zero false) []
          = ([DrawImage "tile_r1c1.pdf" x y w h], Ok tt).
Proof.
  assert (Hw : 0 < width (blank 2480 3508 black) < 2 ^ 62)
    by (cbn [blank width]; change (2 ^ 62) with 4611686018427387904; lia).
  assert (Hh : 0 < height (blank 2480 3508 black) < 2 ^ 62)
    by (cbn [blank height]; change (2 ^ 62) with 4611686018427387904; lia).
  split.
  - destruct (pdf_page_needs_height (blank 2480 3508 black) "./tiles" "tile_r1c1.pdf"
                margin_148_5 [] Hw Hh) as (dh & Hd & Z1 & _).
    apply Z1.
    assert (E : pdf_draw_h margin_148_5 = Ok (S754_zero false))
      by (vm_compute; reflexivity).
    rewrite E in Hd. assert (E' : dh = S754_zero false) by congruence.
    rewrite E'. reflexivity.
  - destruct (pdf_page_needs_height (blank 2480 3508 black) "./tiles" "tile_r1c1.pdf"
                (S754_zero false) [] Hw Hh) as (dh & Hd & _ & Z2).
    destruct Z2 as (ar & x & y & w & h & Har & Hp & _ & Hs & _).
    { assert (E : pdf_draw_h (S754_zero false)
                  = Ok (S754_finite false 7405340676649445 (-43)))
        by (vm_compute; reflexivity).
      rewrite E in Hd. assert (E' : dh = S754_finite false 7405340676649445 (-43))
        by congruence.
      rewrite E'. reflexivity. }
    exists ar, x, y, w, h. split; [exact Har|]. split; [exact Hp|].
    destruct Hs as [Hs | (e & He)]; [exact Hs|].
    vm_compute in He. discriminate He.
Defined.

(** ** [main] from the page size to the files *)

Lemma files_written_app (tr1 tr2 : list event) :
  files_written (tr1 ++ tr2) = files_written tr1 ++ files_written tr2.
Proof. unfold files_written. apply flat_map_app. Qed.

Lemma calls_write_nothing (tr : list event) :
  Forall is_call tr -> files_written tr = [] /\ png_tiles tr = [].
Proof.
  induction 1 as [|e tr He _ [IH1 IH2]]; [split; reflexivity|].
  destruct e; try contradiction; split; assumption.
Qed.

Lemma adds_poster (alloc : Allocator) (img : Image) (target : Z * Z) (mode : string) :
  adds is_call (resize_to_poster alloc img target mode).
Proof.
  destruct target as [tw th]. unfold resize_to_poster.
  destruct (mode =? "cover")%string.
  - apply adds_bind; [apply adds_lift|intros sc].
    apply adds_bind; [apply adds_lift|intros [nw nh]].
    apply adds_bind; [apply adds_resize; exact I|intros im].
    apply adds_crop. exact I.
  - destruct (mode =? "contain")%string; [|apply adds_raise].
    apply adds_bind; [apply adds_lift|intros sc].
    apply adds_bind; [apply adds_lift|intros [nw nh]].
    apply adds_bind; [apply adds_resize; exact I|intros im].
    apply adds_bind; [apply adds_new; exact I|intros bg].
    apply adds_paste. exact I.
Qed.

Lemma adds_slice (alloc : Allocator) (poster : Image) (W H : Z) :
  adds is_call (slice_2x2 alloc poster W H).
Proof.
  unfold slice_2x2. apply adds_for_fold. intros tiles row.
  apply adds_for_fold. intros tiles' col.
  apply adds_bind; [apply adds_crop; exact I|intros tile]. apply adds_ret.
Qed.

(** The calls of [resize_to_poster] write no file. *)
Lemma poster_writes_nothing (alloc : Allocator) (img : Image) (target : Z * Z)
      (mode : string) :
  files_written (fst (run (resize_to_poster alloc img target mode))) = []
  /\ png_tiles (fst (run (resize_to_poster alloc img target mode))) = [].
Proof.
  destruct (adds_poster alloc img target mode []) as (tr' & E & F).
  unfold run. rewrite E. cbn [app]. apply calls_write_nothing, F.
Qed.

(** The poster of [main] under each policy, for a page of positive
    size. *)
Lemma main_poster (alloc : Allocator) (img : Image) (mode : string) (W H : Z) :
  0 < width img < 2 ^ 31 -> 0 < height img < 2 ^ 31 ->
  0 < W < 2 ^ 30 -> 0 < H < 2 ^ 30 ->
  (mode = "cover" /\ bomb (W * 2) (H * 2) = false)
  \/ (mode = "contain"
      /\ width img < 2 * height img * (W * 2)
      /\ height img < 2 * width img * (H * 2)) ->
  exists nw nh,
    poster_size img (W * 2) (H * 2) mode = Ok (nw, nh)
    /\ 1 <= nw /\ 1 <= nh
    /\ (nw < 2 ^ 31 -> nh < 2 ^ 31 ->
        alloc nw nh = true -> alloc (W * 2) (H * 2) = true ->
        exists tr0 poster,
          run (resize_to_poster alloc (rgb_or_rgba img) (W * 2, H * 2) mode)
          = (tr0, Ok poster)
          /\ size poster = (W * 2, H * 2)).
Proof.
  intros Hw Hh HW HH Hmode.
  destruct (rgb_or_rgba_sides img) as [Ew Eh].
  change (2 ^ 30) with 1073741824 in *. change (2 ^ 31) with 2147483648 in *.
  destruct Hmode as [(-> & Hb) | (-> & Tw & Th)].
  - destruct (cover_run_returns_target alloc (rgb_or_rgba img) (W * 2) (H * 2))
      as (nw & nh & Hcs & Gw & Gh & Hrun & Hsz);
      rewrite ?Ew, ?Eh; try assumption;
      try (change (2 ^ 31) with 2147483648; lia).
    rewrite cover_size_rgb_or_rgba in Hcs.
    exists nw, nh. split; [exact Hcs|]. split; [lia|]. split; [lia|].
    intros Bw Bh A1 A2. do 2 eexists.
    split; [apply Hrun; assumption|exact Hsz].
  - destruct (contain_size_positive img (W * 2) (H * 2))
      as (nw & nh & Hs & Bw & Bh);
      try assumption; try (change (2 ^ 31) with 2147483648; lia).
    exists nw, nh. split; [exact Hs|]. split; [lia|]. split; [lia|].
    intros _ _ A1 A2. do 2 eexists.
    split.
    + apply (run_contain alloc (rgb_or_rgba img) _ _ nw nh);
        try assumption; try (change (2 ^ 31) with 2147483648; lia).
      rewrite contain_size_rgb_or_rgba. exact Hs.
    + reflexivity.
Qed.

(** At margin 0 the PDF page of an A4 tile is drawn, at every resolution
    whose tile [crop] accepts. *)
Lemma pdf_pages_drawn :
  forallb (fun d =>
      match a4_pixels d with
      | Ok (W, H) =>
          match pdf_page W H (S754_zero false) with
          | Ok _ => true
          | Raise _ => false
          end
      | Raise _ => false
      end) tile_dpis
  = true.
Proof. vm_compute. reflexivity. Qed.

Lemma tile_dpi_range (d W H : Z) :
  1 <= d < 2 ^ 31 -> a4_pixels d = Ok (W, H) -> bomb W H = false ->
  In d tile_dpis.
Proof.
  intros Hd Ha Hb. destruct (a4_pixels_bounds d W H Hd Ha) as [BW BH].
  apply bomb_limit in Hb.
  assert (D : d <= 1426).
  { rewrite !Z.max_r in Hb by lia. nia. }
  unfold tile_dpis. apply in_map_iff. exists (Z.to_nat d).
  split; [lia|]. apply in_seq. lia.
Qed.

Lemma pdf_page_at_margin_0 (d W H : Z) :
  1 <= d < 2 ^ 31 -> a4_pixels d = Ok (W, H) -> bomb W H = false ->
  exists g, pdf_page W H (S754_zero false) = Ok g.
Proof.
  intros Hd Ha Hb.
  pose proof (proj1 (forallb_forall _ _) pdf_pages_drawn d
                (tile_dpi_range d W H Hd Ha Hb)) as K.
  cbv beta in K. rewrite Ha in K.
  destruct (pdf_page W H (S754_zero false)) as [g|e]; [|discriminate K].
  exists g. reflexivity.
Qed.

(** At these resolutions the DPI tag of the PNG files can be written. *)
Lemma png_tags_written : forallb png_tag_ok tile_dpis = true.
Proof. vm_compute. reflexivity. Qed.

Lemma png_tag_at (d W H : Z) :
  1 <= d < 2 ^ 31 -> a4_pixels d = Ok (W, H) -> bomb W H = false ->
  png_tag_ok d = true.
Proof.
  intros Hd Ha Hb.
  exact (proj1 (forallb_forall _ _) png_tags_written d (tile_dpi_range d W H Hd Ha Hb)).
Qed.

Lemma files_written_crops (bs : list box) : files_written (map Crop bs) = [].
Proof. induction bs as [|b bs IH]; [reflexivity|exact IH]. Qed.

(** What the files of a complete run are. *)
Lemma nine_files_written (args : Args) (poster : Image) (W H : Z)
      (g : PyFloat.float * PyFloat.float * PyFloat.float * PyFloat.float)
      (tr0 : list event) :
  files_written tr0 = [] -> png_tiles tr0 = [] ->
  files_written (tr0 ++ map (fun rc => Crop (tile_box W H rc)) grid
                     ++ flat_map (tile_files args poster W H g) grid
                     ++ [WriteText (outdir args) "README.txt"])
  = nine_files args
  /\ png_tiles (tr0 ++ map (fun rc => Crop (tile_box W H rc)) grid
                    ++ flat_map (tile_files args poster W H g) grid
                    ++ [WriteText (outdir args) "README.txt"])
     = [(tile_name args 0 0 ".png", (W, H)); (tile_name args 0 1 ".png", (W, H));
        (tile_name args 1 0 ".png", (W, H)); (tile_name args 1 1 ".png", (W, H))].
Proof.
  intros F P. destruct g as [[[x y] w] h].
  rewrite files_written_app, png_tiles_app, F, P.
  unfold grid, tile_files, nine_files.
  cbn [files_written png_tiles flat_map map app String.eqb Ascii.eqb Bool.eqb fst snd].
  rewrite !as_rgb_size, !cropped_tile_size. split; reflexivity.
Qed.

Lemma first_file_written (args : Args) (poster : Image) (W H : Z)
      (tr0 : list event) :
  files_written tr0 = [] -> png_tiles tr0 = [] ->
  files_written (tr0 ++ map (fun rc => Crop (tile_box W H rc)) grid
                     ++ [Save (outdir args) (tile_name args 0 0 ".png") "PNG"
                           (as_rgb (cropped poster (tile_box W H (0, 0))))])
  = [tile_name args 0 0 ".png"]
  /\ png_tiles (tr0 ++ map (fun rc => Crop (tile_box W H rc)) grid
                    ++ [Save (outdir args) (tile_name args 0 0 ".png") "PNG"
                          (as_rgb (cropped poster (tile_box W H (0, 0))))])
     = [(tile_name args 0 0 ".png", (W, H))].
Proof.
  intros F P.
  rewrite files_written_app, png_tiles_app, F, P.
  unfold grid.
  cbn [files_written png_tiles flat_map map app String.eqb Ascii.eqb Bool.eqb fst snd].
  rewrite !as_rgb_size, !cropped_tile_size. split; reflexivity.
Qed.

(** X9.  With the default margin 0, for every [dpi] from 1 whose tile is
    within the pixel limit of [crop] (which bounds [dpi] by 1426) and every
    source with sides from 1 to below [2^31], under cover when the poster
    is within that limit too, and under contain when the source is not too
    thin: the size the policy resizes to has sides at least 1, and when
    they are below [2^31] and Pillow gets the memory for the scaled image,
    the poster and a tile, [main] returns the four tiles of the grid in row
    order, each of the size [a4_pixels(dpi)]; it writes the four PNG files
    at that size, and the files it writes are, in order, the PNG and the
    PDF of r1c1, r1c2, r2c1, r2c2 and then [README.txt]. *)
Theorem main_writes_nine_files (alloc : Allocator) (img : Image) (args : Args)
        (W H : Z) :
  0 < width img < 2 ^ 31 -> 0 < height img < 2 ^ 31 ->
  1 <= dpi args < 2 ^ 31 ->
  a4_pixels (dpi args) = Ok (W, H) -> bomb W H = false ->
  margin_mm args = S754_zero false ->
  (mode args = "cover" /\ bomb (W * 2) (H * 2) = false)
  \/ (mode args = "contain"
      /\ width img < 2 * height img * (W * 2)
      /\ height img < 2 * width img * (H * 2)) ->
  exists nw nh,
    poster_size img (W * 2) (H * 2) (mode args) = Ok (nw, nh)
    /\ 1 <= nw /\ 1 <= nh
    /\ (nw < 2 ^ 31 -> nh < 2 ^ 31 ->
        alloc nw nh = true -> alloc (W * 2) (H * 2) = true -> alloc W H = true ->
        exists tiles,
          snd (run (main alloc img args)) = Ok tiles
          /\ map (fun t => (fst t, size (snd t))) tiles
             = [((0, 0), (W, H)); ((0, 1), (W, H)); ((1, 0), (W, H)); ((1, 1), (W, H))]
          /\ png_tiles (fst (run (main alloc img args)))
             = [(tile_name args 0 0 ".png", (W, H)); (tile_name args 0 1 ".png", (W, H));
                (tile_name args 1 0 ".png", (W, H)); (tile_name args 1 1 ".png", (W, H))]
          /\ files_written (fst (run (main alloc img args))) = nine_files args).
Proof.
  intros Hw Hh Hd Ha Hb Hm Hmode.
  destruct (a4_pixels_bounds _ _ _ Hd Ha) as [BW BH].
  pose proof (tile_dpi_range _ _ _ Hd Ha Hb) as Hin.
  assert (D : dpi args <= 1426).
  { unfold tile_dpis in Hin. apply in_map_iff in Hin.
    destruct Hin as (n & <- & Hn). apply in_seq in Hn. lia. }
  assert (HW : 0 < W < 2 ^ 30) by (change (2 ^ 30) with 1073741824; lia).
  assert (HH : 0 < H < 2 ^ 30) by (change (2 ^ 30) with 1073741824; lia).
  destruct (main_poster alloc img (mode args) W H Hw Hh HW HH Hmode)
    as (nw & nh & Hps & B1 & B2 & K).
  exists nw, nh. split; [exact Hps|]. split; [exact B1|]. split; [exact B2|].
  intros Bw Bh A1 A2 A3.
  destruct (K Bw Bh A1 A2) as (tr0 & poster & Hp & Hsz).
  destruct (poster_writes_nothing alloc (rgb_or_rgba img) (W * 2, H * 2) (mode args))
    as [Hq Hq2].
  rewrite Hp in Hq, Hq2. cbn [fst] in Hq, Hq2.
  destruct (pdf_page_at_margin_0 _ _ _ Hd Ha Hb) as (g & Hg).
  rewrite (main_files alloc img args W H tr0 poster Ha (png_tag_at _ _ _ Hd Ha Hb)
             HW HH Hb A3 Hp).
  rewrite Hm, Hg. cbn [fst snd].
  exists (tiles_of poster W H). split; [reflexivity|].
  split; [unfold tiles_of, grid; cbn [map fst snd];
          rewrite !cropped_tile_size; reflexivity|].
  destruct (nine_files_written args poster W H g tr0 Hq Hq2) as [N1 N2].
  split; assumption.
Qed.

Lemma main_writes_nine_files_witness :
  exists tiles,
    snd (run (main generous (blank 1000 1500 black)
                (mkArgs "input.jpg" "./tiles" "tile" 72 "contain" (S754_zero false))))
    = Ok tiles
    /\ map (fun t => (fst t, size (snd t))) tiles
       = [((0, 0), (595, 842)); ((0, 1), (595, 842));
          ((1, 0), (595, 842)); ((1, 1), (595, 842))]
    /\ png_tiles (fst (run (main generous (blank 1000 1500 black)
                             (mkArgs "input.jpg" "./tiles" "tile" 72 "contain"
                                (S754_zero false)))))
       = [("tile_r1c1.png", (595, 842)); ("tile_r1c2.png", (595, 842));
          ("tile_r2c1.png", (595, 842)); ("tile_r2c2.png", (595, 842))]
    /\ files_written (fst (run (main generous (blank 1000 1500 black)
                                  (mkArgs "input.jpg" "./tiles" "tile" 72 "contain"
                                     (S754_zero false)))))
       = ["tile_r1c1.png"; "tile_r1c1.pdf"; "tile_r1c2.png"; "tile_r1c2.pdf";
          "tile_r2c1.png"; "tile_r2c1.pdf"; "tile_r2c2.png"; "tile_r2c2.pdf";
          "README.txt"].
Proof.
  destruct (main_writes_nine_files generous (blank 1000 1500 black)
              (mkArgs "input.jpg" "./tiles" "tile" 72 "contain" (S754_zero false))
              595 842)
    as (nw & nh & Hps & _ & _ & K);
    cbn [blank width height dpi mode margin_mm];
    try (change (2 ^ 31) with 2147483648; lia); try (vm_compute; reflexivity).
  { right. split; [reflexivity|]. lia. }
  assert (E : poster_size (blank 1000 1500 black) (595 * 2) (842 * 2) "contain"
              = Ok (1123, 1684)) by (vm_compute; reflexivity).
  cbn [mode] in Hps. rewrite E in Hps.
  assert (E1 : nw = 1123) by congruence. assert (E2 : nh = 1684) by congruence.
  subst nw nh.
  apply K; try reflexivity; change (2 ^ 31) with 2147483648; lia.
Defined.

(** X8.  When the margin leaves no page height ([draw_h] is a float zero, as
    for [--margin-mm 148.5]), a run of [main] that gets its poster and cuts
    its tiles ([dpi] from 1 to below [2^31], a tile within the pixel limit
    of [crop], memory for a tile) writes the PNG of tile r1c1 at the page size and
    then ends with [ZeroDivisionError] in [save_tile_pdf]: one file is left
    behind, no PDF and no README. *)
Theorem main_stops_after_first_png (alloc : Allocator) (img : Image) (args : Args)
        (W H : Z) (dh : PyFloat.float) (tr0 : list event) (poster : Image) :
  1 <= dpi args < 2 ^ 31 ->
  a4_pixels (dpi args) = Ok (W, H) ->
  0 < W < 2 ^ 30 -> 0 < H < 2 ^ 30 ->
  bomb W H = false -> alloc W H = true ->
  pdf_draw_h (margin_mm args) = Ok dh -> is_zero dh = true ->
  run (resize_to_poster alloc (rgb_or_rgba img) (W * 2, H * 2) (mode args))
  = (tr0, Ok poster) ->
  snd (run (main alloc img args)) = Raise ZeroDivisionError
  /\ png_tiles (fst (run (main alloc img args))) = [(tile_name args 0 0 ".png", (W, H))]
  /\ files_written (fst (run (main alloc img args))) = [tile_name args 0 0 ".png"].
Proof.
  intros Hd Ha HW HH Hb A3 Hm Hz Hp.
  destruct (poster_writes_nothing alloc (rgb_or_rgba img) (W * 2, H * 2) (mode args))
    as [Hq Hq2].
  rewrite Hp in Hq, Hq2. cbn [fst] in Hq, Hq2.
  assert (Pg : pdf_page W H (margin_mm args) = Raise ZeroDivisionError).
  { destruct (pdf_placement_cases W H (margin_mm args)) as (dh' & Hd' & Z1 & _);
      try (change (2 ^ 30) with 1073741824 in *;
           change (2 ^ 62) with 4611686018427387904; lia).
    rewrite Hm in Hd'. assert (E : dh' = dh) by congruence. subst dh'.
    unfold pdf_page. rewrite (Z1 Hz). reflexivity. }
  rewrite (main_files alloc img args W H tr0 poster Ha (png_tag_at _ _ _ Hd Ha Hb)
             HW HH Hb A3 Hp).
  rewrite Pg. cbn [fst snd]. split; [reflexivity|].
  destruct (first_file_written args poster W H tr0 Hq Hq2) as [N1 N2].
  split; assumption.
Qed.

Lemma main_stops_after_first_png_witness :
  snd (run (main generous (blank 1000 1500 black) (cover_300 margin_148_5)))
  = Raise ZeroDivisionError
  /\ png_tiles (fst (run (main generous (blank 1000 1500 black)
                            (cover_300 margin_148_5))))
     = [("tile_r1c1.png", (2480, 3508))]
  /\ files_written (fst (run (main generous (blank 1000 1500 black)
                                (cover_300 margin_148_5))))
     = ["tile_r1c1.png"].
Proof.
  eapply (main_stops_after_first_png generous (blank 1000 1500 black)
            (cover_300 margin_148_5) 2480 3508 (S754_zero false));
    try (vm_compute; reflexivity);
    try (cbn [cover_300 dpi]; change (2 ^ 31) with 2147483648; lia);
    change (2 ^ 30) with 1073741824; lia.
Defined.

(** ** Failures do not depend on the pixels

    Whether a Pillow call is refused is decided by sizes alone, so a run of
    [resize_to_poster] that fails on an image fails in the same way on
    every image of the same size, whatever its mode and pixels. *)

Lemma resize_by_size (alloc : Allocator) (im im' : Image) (sz : Z * Z)
      (f : resampling) (tr : list event) :
  width im' = width im -> height im' = height im ->
  Image_resize alloc im' sz f tr
  = match Image_resize alloc im sz f tr with
    | (t, Ok _) => (t, Ok (resized im' (fst sz) (snd sz) f))
    | (t, Raise e) => (t, Raise e)
    end.
Proof.
  intros Ew Eh. destruct sz as [w h].
  unfold Image_resize, bind, emit, ret, raise, same_size. rewrite Ew, Eh.
  repeat match goal with
         | |- context [if ?c then _ else _] => destruct c
         end; reflexivity.
Qed.

Lemma crop_by_size (alloc : Allocator) (im im' : Image) (b : box) (tr : list event) :
  Image_crop alloc im' b tr
  = match Image_crop alloc im b tr with
    | (t, Ok _) => (t, Ok (cropped im' b))
    | (t, Raise e) => (t, Raise e)
    end.
Proof.
  destruct b as [[[l u] r] lo].
  unfold Image_crop, bind, emit, ret, raise.
  repeat match goal with
         | |- context [if ?c then _ else _] => destruct c
         end; reflexivity.
Qed.

Lemma paste_by_size (bg im im' : Image) (offset : Z * Z) (tr : list event) :
  width im' = width im -> height im' = height im ->
  Image_paste bg im' offset tr
  = match Image_paste bg im offset tr with
    | (t, Ok _) => (t, Ok (pasted bg im' (fst offset) (snd offset)))
    | (t, Raise e) => (t, Raise e)
    end.
Proof.
  intros Ew Eh. unfold Image_paste, bind, emit, ret, raise. rewrite Ew, Eh.
  repeat match goal with
         | |- context [if ?c then _ else _] => destruct c
         end; reflexivity.
Qed.

Lemma scales_by_size (img img' : Image) (tw th : Z) :
  width img' = width img -> height img' = height img ->
  cover_scale img' tw th = cover_scale img tw th
  /\ contain_scale img' tw th = contain_scale img tw th
  /\ forall sc, scaled_size img' sc = scaled_size img sc.
Proof.
  intros Ew Eh. unfold cover_scale, contain_scale, scaled_size.
  rewrite Ew, Eh. repeat split.
Qed.

Lemma resize_returns_resized (alloc : Allocator) (im : Image) (w h : Z)
      (f : resampling) (tr t : list event) (out : Image) :
  Image_resize alloc im (w, h) f tr = (t, Ok out) -> out = resized im w h f.
Proof.
  unfold Image_resize, bind, emit, ret, raise.
  repeat match goal with
         | |- context [if ?c then _ else _] => destruct c
         end; intros E; try discriminate E; congruence.
Qed.

Lemma poster_failure_by_size (alloc : Allocator) (img img' : Image)
      (target : Z * Z) (mode : string) (tr : list event) (e : exn) :
  width img' = width img -> height img' = height img ->
  run (resize_to_poster alloc img target mode) = (tr, Raise e) ->
  run (resize_to_poster alloc img' target mode) = (tr, Raise e).
Proof.
  intros Ew Eh. destruct target as [tw th].
  destruct (scales_by_size img img' tw th Ew Eh) as (Sc & Sn & Ss).
  unfold run, resize_to_poster, bind, lift.
  rewrite Sc, Sn.
  destruct (mode =? "cover")%string.
  - destruct (cover_scale img tw th) as [sc|e1]; [|exact (fun E => E)].
    rewrite Ss.
    destruct (scaled_size img sc) as [[nw nh]|e1]; [|exact (fun E => E)].
    rewrite (resize_by_size alloc img img' (nw, nh) LANCZOS [] Ew Eh).
    destruct (Image_resize alloc img (nw, nh) LANCZOS []) as [t1 [im1|e1]];
      [|exact (fun E => E)].
    rewrite (crop_by_size alloc im1 (resized img' (fst (nw, nh)) (snd (nw, nh)) LANCZOS)).
    destruct (Image_crop alloc im1 _ t1) as [t2 [im2|e2]]; [discriminate|].
    exact (fun E => E).
  - destruct (mode =? "contain")%string; [|exact (fun E => E)].
    destruct (contain_scale img tw th) as [sc|e1]; [|exact (fun E => E)].
    rewrite Ss.
    destruct (scaled_size img sc) as [[nw nh]|e1]; [|exact (fun E => E)].
    rewrite (resize_by_size alloc img img' (nw, nh) LANCZOS [] Ew Eh).
    destruct (Image_resize alloc img (nw, nh) LANCZOS []) as [t1 [im1|e1]] eqn:Hr;
      [|exact (fun E => E)].
    destruct (Image_new alloc (tw, th) white t1) as [t2 [bg|e2]];
      [|exact (fun E => E)].
    apply resize_returns_resized in Hr. subst im1.
    cbn [fst snd].
    destruct (resized_sides img nw nh LANCZOS) as [R1 R2].
    destruct (resized_sides img' nw nh LANCZOS) as [R3 R4].
    rewrite (paste_by_size bg (resized img nw nh LANCZOS) (resized img' nw nh LANCZOS))
      by congruence.
    destruct (Image_paste bg (resized img nw nh LANCZOS) _ t2) as [t3 [im3|e3]];
      [discriminate|].
    exact (fun E => E).
Qed.

(** X14.  A run of [main] that gets no poster writes nothing: when
    [a4_pixels] raises, [main] ends with that exception after no call; when
    [resize_to_poster] raises on the source, [main] ends with the same
    exception and the same calls, none of which writes a file.  In
    particular (sides from 1 to below [2^31], [dpi] from 1 to below
    [2^26]) contain on a source that is too thin for the poster ends with
    the [ValueError] of the rejected [resize] as the only call. *)
Theorem main_without_poster_writes_nothing (alloc : Allocator) (img : Image)
        (args : Args) :
  (forall e, a4_pixels (dpi args) = Raise e ->
             run (main alloc img args) = ([], Raise e))
  /\ (forall W H tr e,
        a4_pixels (dpi args) = Ok (W, H) ->
        run (resize_to_poster alloc img (W * 2, H * 2) (mode args)) = (tr, Raise e) ->
        run (main alloc img args) = (tr, Raise e) /\ files_written tr = [])
  /\ (forall W H,
        0 < width img < 2 ^ 31 -> 0 < height img < 2 ^ 31 ->
        1 <= dpi args < 2 ^ 26 ->
        a4_pixels (dpi args) = Ok (W, H) -> mode args = "contain" ->
        2 * height img * (W * 2) < width img \/ 2 * width img * (H * 2) < height img ->
        exists sz,
          run (main alloc img args)
          = ([Resize sz LANCZOS], Raise (ValueError "height and width must be > 0"))).
Proof.
  destruct (rgb_or_rgba_sides img) as [Ew Eh].
  split; [|split].
  - intros e Ha. unfold run, main. rewrite Ha. reflexivity.
  - intros W H tr e Ha Hp. split.
    + apply (main_stops_at_poster alloc img args W H tr e Ha).
      apply (poster_failure_by_size alloc img (rgb_or_rgba img) _ _ _ _ Ew Eh Hp).
    + destruct (poster_writes_nothing alloc img (W * 2, H * 2) (mode args)) as [Hq _].
      rewrite Hp in Hq. exact Hq.
  - intros W H Hw Hh Hd Ha Hm Thin.
    change (2 ^ 26) with 67108864 in Hd.
    assert (Hd' : 1 <= dpi args < 2 ^ 31) by (change (2 ^ 31) with 2147483648; lia).
    destruct (a4_pixels_bounds _ _ _ Hd' Ha) as [BW BH].
    assert (HW : 0 < W * 2 < 2 ^ 31) by (change (2 ^ 31) with 2147483648; lia).
    assert (HH : 0 < H * 2 < 2 ^ 31) by (change (2 ^ 31) with 2147483648; lia).
    destruct (contain_thin_fails alloc img (W * 2) (H * 2) Hw Hh HW HH Thin) as (sz & Hp).
    exists sz. apply (main_stops_at_poster alloc img args W H _ _ Ha).
    rewrite Hm.
    apply (poster_failure_by_size alloc img (rgb_or_rgba img) _ _ _ _ Ew Eh Hp).
Qed.

Lemma main_without_poster_writes_nothing_witness :
  exists sz,
    run (main generous (blank 10000 1 black)
           (mkArgs "input.jpg" "./tiles" "tile" 300 "contain" (S754_zero false)))
    = ([Resize sz LANCZOS], Raise (ValueError "height and width must be > 0")).
Proof.
  apply (proj2 (proj2 (main_without_poster_writes_nothing generous (blank 10000 1 black)
                         (mkArgs "input.jpg" "./tiles" "tile" 300 "contain"
                            (S754_zero false)))) 2480 3508);
    cbn [blank width height dpi mode margin_mm];
    try (change (2 ^ 31) with 2147483648; change (2 ^ 26) with 67108864; lia);
    try (vm_compute; reflexivity).
Defined.

(** ** File names *)

Lemma append_inj_l (p a b : string) : (p ++ a = p ++ b)%string -> a = b.
Proof.
  induction p as [|c p IH]; cbn [String.append]; intros H; [exact H|].
  injection H as H. apply IH, H.
Qed.

Lemma length_append (p s : string) :
  String.length (p ++ s)%string = (String.length p + String.length s)%nat.
Proof.
  induction p as [|c p IH]; cbn [String.append String.length Nat.add];
    [reflexivity|f_equal; exact IH].
Qed.

Lemma no_name_is_readme (p s : string) :
  String.length s = 9%nat -> (forall c, String c s <> "README.txt") ->
  (p ++ s)%string <> "README.txt".
Proof.
  intros L N H. destruct p as [|c p].
  - cbn [String.append] in H. rewrite H in L. discriminate L.
  - destruct p as [|c' p].
    + exact (N c H).
    + apply (f_equal String.length) in H.
      cbn [String.append String.length] in H. rewrite length_append, L in H.
      lia.
Qed.

Ltac names_differ H :=
  first [ apply append_inj_l in H; discriminate H
        | symmetry in H; revert H; apply no_name_is_readme;
          [reflexivity | intros ?; discriminate]
        | revert H; apply no_name_is_readme;
          [reflexivity | intros ?; discriminate] ].

Ltac no_dup_names :=
  repeat (apply NoDup_cons;
          [cbn [In]; intros H;
           repeat (destruct H as [H | H]; [names_differ H|]); exact H|]);
  apply NoDup_nil.

Lemma tile_names (args : Args) :
  [tile_name args 0 0 ".png"; tile_name args 0 0 ".pdf";
   tile_name args 0 1 ".png"; tile_name args 0 1 ".pdf";
   tile_name args 1 0 ".png"; tile_name args 1 0 ".pdf";
   tile_name args 1 1 ".png"; tile_name args 1 1 ".pdf"]
  = map (fun s => (prefix args ++ s)%string)
      ["_r1c1.png"; "_r1c1.pdf"; "_r1c2.png"; "_r1c2.pdf";
       "_r2c1.png"; "_r2c1.pdf"; "_r2c2.png"; "_r2c2.pdf"].
Proof. reflexivity. Qed.

Lemma main_names_distinct (args : Args) :
  NoDup [tile_name args 0 0 ".png"; tile_name args 0 0 ".pdf";
         tile_name args 0 1 ".png"; tile_name args 0 1 ".pdf";
         tile_name args 1 0 ".png"; tile_name args 1 0 ".pdf";
         tile_name args 1 1 ".png"; tile_name args 1 1 ".pdf";
         "README.txt"].
Proof.
  change (NoDup ([tile_name args 0 0 ".png"; tile_name args 0 0 ".pdf";
                  tile_name args 0 1 ".png"; tile_name args 0 1 ".pdf";
                  tile_name args 1 0 ".png"; tile_name args 1 0 ".pdf";
                  tile_name args 1 1 ".png"; tile_name args 1 1 ".pdf"]
                 ++ ["README.txt"])).
  rewrite tile_names. cbn [map app].
  no_dup_names.
Qed.

Lemma main_names_distinct_nine (args : Args) : NoDup (nine_files args).
Proof. apply main_names_distinct. Qed.

(** ** The files of every run *)

Lemma save_tile_png_cases (tile : Image) (dir name : string) (dpi : Z)
      (tr : list event) :
  save_tile_png tile dir name dpi tr
  = (tr ++ [Save dir name "PNG" (as_rgb tile)], Ok tt)
  \/ exists e, save_tile_png tile dir name dpi tr = (tr, Raise e).
Proof.
  unfold save_tile_png, Image_save_png_dpi, bind, lift.
  destruct (png_pixels_per_metre dpi) as [ppm|e]; [|right; eexists; reflexivity].
  destruct (_ || _); [right; eexists; reflexivity|].
  unfold Image_save.
  change ("PNG" =? "JPEG")%string with false. cbv iota.
  destruct (_ || _); [right; eexists; reflexivity|left; reflexivity].
Qed.

(** A slicing loop that returns has cut the four tiles. *)
Lemma slice_returned (alloc : Allocator) (poster : Image) (W H : Z)
      (tr tr' : list event) (tiles : list ((Z * Z) * Image)) :
  slice_2x2 alloc poster W H tr = (tr', Ok tiles) -> tiles = tiles_of poster W H.
Proof.
  unfold slice_2x2. change (range 2) with [0; 1].
  cbn [for_fold]. unfold bind, ret.
  destruct (Image_crop alloc poster _ tr) as [t1 [c1|e]] eqn:H1; [|discriminate].
  destruct (Image_crop alloc poster _ t1) as [t2 [c2|e]] eqn:H2; [|discriminate].
  destruct (Image_crop alloc poster _ t2) as [t3 [c3|e]] eqn:H3; [|discriminate].
  destruct (Image_crop alloc poster _ t3) as [t4 [c4|e]] eqn:H4; [|discriminate].
  apply crop_returned in H1, H2, H3, H4.
  destruct H1 as (_ & -> & _), H2 as (_ & -> & _), H3 as (_ & -> & _),
    H4 as (_ & -> & _).
  intros E. injection E as _ <-. reflexivity.
Qed.

(** The files of the saving loop are written in the order of the tiles,
    the PNG of a tile before its PDF. *)
Lemma save_loop_files (args : Args) (tiles : list ((Z * Z) * Image))
      (tr tr' : list event) (r : result unit) :
  for_fold tiles tt
    (fun _ t =>
       let '((row, col), tile) := t in
       save_tile_png tile (outdir args) (tile_name args row col ".png") (dpi args) ;;;
       save_tile_pdf tile (outdir args) (tile_name args row col ".pdf")
         (margin_mm args)) tr
  = (tr', r) ->
  exists n,
    files_written tr'
    = files_written tr
      ++ firstn n (flat_map (fun t => [tile_name args (fst (fst t)) (snd (fst t)) ".png";
                                       tile_name args (fst (fst t)) (snd (fst t)) ".pdf"])
                     tiles)
    /\ (r = Ok tt -> n = (2 * List.length tiles)%nat).
Proof.
  revert tr. induction tiles as [|[[row col] tile] tiles IH]; intros tr.
  - cbn [for_fold]. unfold ret. intros E. injection E as <- <-.
    exists 0%nat. split; [rewrite app_nil_r; reflexivity|reflexivity].
  - cbn [for_fold flat_map fst snd List.length]. unfold bind at 1. unfold bind at 1.
    destruct (save_tile_png_cases tile (outdir args) (tile_name args row col ".png")
                (dpi args) tr) as [-> | (e & ->)].
    2:{ intros E. injection E as <- <-. exists 0%nat.
        split; [rewrite app_nil_r; reflexivity|discriminate]. }
    destruct (save_tile_pdf_cases tile (outdir args) (tile_name args row col ".pdf")
                (margin_mm args)
                (tr ++ [Save (outdir args) (tile_name args row col ".png") "PNG"
                          (as_rgb tile)]))
      as [(x & y & w & h & ->) | (e & ->)].
    2:{ intros E. injection E as <- <-. exists 1%nat.
        split; [rewrite files_written_app; reflexivity|discriminate]. }
    intros E. destruct (IH _ E) as (n & Hn & Hr).
    exists (S (S n)). split.
    + rewrite Hn, !files_written_app, <- !app_assoc. reflexivity.
    + intros Hok. rewrite (Hr Hok). lia.
Qed.

(** X10.  For every source image and all arguments, whether [main] finishes
    or fails, the files it writes are a prefix of the list r1c1.png,
    r1c1.pdf, r1c2.png, r1c2.pdf, r2c1.png, r2c1.pdf, r2c2.png, r2c2.pdf,
    README.txt; these nine names are pairwise different for every
    [--prefix], so no file is written twice; and a run that returns has
    written all nine. *)
Theorem main_never_overwrites (alloc : Allocator) (img : Image) (args : Args) :
  let names := [tile_name args 0 0 ".png"; tile_name args 0 0 ".pdf";
                tile_name args 0 1 ".png"; tile_name args 0 1 ".pdf";
                tile_name args 1 0 ".png"; tile_name args 1 0 ".pdf";
                tile_name args 1 1 ".png"; tile_name args 1 1 ".pdf";
                "README.txt"] in
  NoDup names
  /\ exists n,
       files_written (fst (run (main alloc img args))) = firstn n names
       /\ (forall tiles, snd (run (main alloc img args)) = Ok tiles -> n = 9%nat).
Proof.
  intros names. split; [apply main_names_distinct|].
  assert (K : forall tr r,
             main alloc img args [] = (tr, r) ->
             exists n, files_written tr = firstn n names
                       /\ (forall tiles, r = Ok tiles -> n = 9%nat)).
  2:{ unfold run. destruct (main alloc img args []) as [tr r] eqn:E.
      exact (K tr r eq_refl). }
  intros tr r. unfold main, bind at 1, lift.
  destruct (a4_pixels (dpi args)) as [[W H]|e].
  2:{ intros E. injection E as <- <-. exists 0%nat.
      split; [reflexivity|discriminate]. }
  cbv beta iota. cbn [fst snd]. unfold bind at 1.
  destruct (adds_poster alloc (rgb_or_rgba img) (W * 2, H * 2) (mode args) [])
    as (t0 & E0 & F0).
  destruct (resize_to_poster alloc (rgb_or_rgba img) (W * 2, H * 2) (mode args) [])
    as [tr0 [poster|e]]; cbn [fst app] in E0; subst tr0.
  2:{ intros E. injection E as <- <-. exists 0%nat.
      split; [apply calls_write_nothing, F0|discriminate]. }
  unfold bind at 1.
  destruct (adds_slice alloc poster W H t0) as (t1 & E1 & F1).
  destruct (slice_2x2 alloc poster W H t0) as [tr1 [tiles|e]] eqn:Hs;
    cbn [fst] in E1; subst tr1.
  2:{ intros E. injection E as <- <-. exists 0%nat. split; [|discriminate].
      rewrite files_written_app.
      rewrite (proj1 (calls_write_nothing _ F0)), (proj1 (calls_write_nothing _ F1)).
      reflexivity. }
  apply slice_returned in Hs. subst tiles.
  assert (Q : files_written (t0 ++ t1) = []).
  { rewrite files_written_app.
    rewrite (proj1 (calls_write_nothing _ F0)), (proj1 (calls_write_nothing _ F1)).
    reflexivity. }
  unfold bind at 1.
  match goal with
  | |- context [for_fold ?ts tt ?body (t0 ++ t1)] =>
      destruct (for_fold ts tt body (t0 ++ t1)) as [tr2 r2] eqn:Hl
  end.
  destruct (save_loop_files args _ _ _ _ Hl) as (n & Hn & Hr).
  rewrite Q in Hn. cbn [app] in Hn.
  unfold tiles_of, grid in Hn, Hr. cbn [map flat_map app fst snd List.length] in Hn, Hr.
  destruct r2 as [[]|e].
  - specialize (Hr eq_refl). subst n.
    unfold bind, emit, ret. intros E. injection E as <- <-. exists 9%nat.
    split; [|reflexivity].
    rewrite files_written_app, Hn. reflexivity.
  - intros E. injection E as <- <-.
    exists (Nat.min n 8). split; [|discriminate].
    rewrite Hn. unfold names.
    do 9 (destruct n as [|n]; [reflexivity|]). reflexivity.
Qed.

(** ** The two fixed-grid scripts in both orientations *)

Lemma stack_1x2_lossless (poster canvas : Image) (cell_w cell_h : Z) :
  0 <= cell_w < 2 ^ 30 -> 0 <= cell_h < 2 ^ 30 ->
  size poster = (cell_w, 2 * cell_h) -> size canvas = size poster ->
  im_mode canvas = im_mode poster ->
  lossless poster canvas
    [((0, 0, cell_w, cell_h), cropped poster (0, 0, cell_w, cell_h));
     ((0, cell_h, cell_w, cell_h + cell_h),
      cropped poster (0, cell_h, cell_w, cell_h + cell_h))].
Proof.
  intros Hw Hh Hp Hc Hm.
  assert (Pw : width poster = cell_w) by (unfold size in Hp; congruence).
  assert (Ph : height poster = 2 * cell_h) by (unfold size in Hp; congruence).
  assert (Cw : width canvas = cell_w) by (unfold size in Hp, Hc; congruence).
  assert (Ch : height canvas = 2 * cell_h) by (unfold size in Hp, Hc; congruence).
  change (2 ^ 30) with 1073741824 in *.
  unfold lossless.
  eexists. split.
  { unfold run, reassemble. cbn [map for_fold fst snd].
    cbv beta iota delta [bind ret].
    rewrite paste_run
      by (cbn [cropped width height]; change (2 ^ 31) with 2147483648; lia).
    cbv beta iota.
    rewrite paste_run
      by (cbn [cropped width height]; change (2 ^ 31) with 2147483648; lia).
    reflexivity. }
  split; [unfold size; cbn [pasted width height]; congruence|].
  intros x y.
  cbv [getpixel in_bounds pasted cropped width height pix fst snd im_mode].
  fold (width poster) (height poster) (width canvas) (height canvas)
       (im_mode poster) (im_mode canvas).
  rewrite ?Pw, ?Ph, ?Cw, ?Ch, ?Hm, ?paste_pixel_same.
  destruct (Z_lt_le_dec x 0), (Z_lt_le_dec x cell_w),
    (Z_lt_le_dec y 0), (Z_lt_le_dec y cell_h), (Z_lt_le_dec y (2 * cell_h));
    try lia; zbool; cbn [andb]; try reflexivity; f_equal; f_equal; lia.
Qed.

Lemma split_loop_trace (alloc : Allocator) (poster : Image) (cw ch : Z)
      (prefix : string) (tr : list event) :
  0 < cw <= 65500 -> 0 < ch <= 65500 ->
  bomb cw ch = false -> alloc cw ch = true ->
  mode_in (im_mode poster) jpeg_modes = true ->
  Script2x2.split_loop alloc poster cw ch prefix tr
  = (tr ++ split_2x2_events poster cw ch prefix, Ok tt).
Proof.
  intros Hw Hh Hb Ha Hm.
  assert (Bw : 0 <= cw < 2 ^ 30) by (change (2 ^ 30) with 1073741824; lia).
  assert (Bh : 0 <= ch < 2 ^ 30) by (change (2 ^ 30) with 1073741824; lia).
  unfold Script2x2.split_loop. change (range 2) with [0; 1].
  cbn [for_fold]. cbv beta iota delta [bind ret].
  rewrite (tile_crop_run alloc poster cw ch (0, 0)) by (cbn [fst snd]; auto; lia).
  cbv beta iota.
  rewrite (tile_save_run poster cw ch (0, 0)) by assumption. cbv beta iota.
  rewrite (tile_crop_run alloc poster cw ch (1, 0)) by (cbn [fst snd]; auto; lia).
  cbv beta iota.
  rewrite (tile_save_run poster cw ch (1, 0)) by assumption. cbv beta iota.
  rewrite (tile_crop_run alloc poster cw ch (0, 1)) by (cbn [fst snd]; auto; lia).
  cbv beta iota.
  rewrite (tile_save_run poster cw ch (0, 1)) by assumption. cbv beta iota.
  rewrite (tile_crop_run alloc poster cw ch (1, 1)) by (cbn [fst snd]; auto; lia).
  cbv beta iota.
  rewrite (tile_save_run poster cw ch (1, 1)) by assumption. cbv beta iota.
  unfold split_2x2_events. cbn [flat_map fst snd app].
  rewrite <- !app_assoc. reflexivity.
Qed.

(** On a mode JPEG does not store the loop stops at its first save. *)
Lemma split_loop_refused (alloc : Allocator) (poster : Image) (cw ch : Z)
      (prefix : string) (tr : list event) :
  0 < cw < 2 ^ 30 -> 0 < ch < 2 ^ 30 ->
  bomb cw ch = false -> alloc cw ch = true ->
  mode_in (im_mode poster) jpeg_modes = false ->
  Script2x2.split_loop alloc poster cw ch prefix tr
  = (tr ++ [Crop (tile_box cw ch (0, 0))],
     Raise (OSError ("cannot write mode " ++ mode_name (im_mode poster) ++ " as JPEG"))).
Proof.
  intros Hw Hh Hb Ha Hm.
  unfold Script2x2.split_loop. change (range 2) with [0; 1].
  cbn [for_fold]. cbv beta iota delta [bind ret].
  rewrite (tile_crop_run alloc poster cw ch (0, 0)) by (cbn [fst snd]; auto; lia).
  cbv beta iota.
  destruct (tile_sides poster cw ch (0, 0)) as [Ew Eh].
  rewrite save_jpeg_refused by (rewrite ?Ew, ?Eh, ?cropped_mode; (assumption || lia)).
  rewrite cropped_mode. reflexivity.
Qed.

Lemma crop_saves_2x2 (poster : Image) (cw ch : Z) (prefix : string) :
  crop_saves (split_2x2_events poster cw ch prefix)
  = map (fun rc => (tile_box cw ch rc, cropped poster (tile_box cw ch rc)))
      [(0, 0); (1, 0); (0, 1); (1, 1)].
Proof. reflexivity. Qed.

Lemma files_2x2 (poster : Image) (cw ch : Z) (prefix : string) :
  files_written (split_2x2_events poster cw ch prefix)
  = [(prefix ++ "_11.jpg")%string; (prefix ++ "_21.jpg")%string;
     (prefix ++ "_12.jpg")%string; (prefix ++ "_22.jpg")%string].
Proof. reflexivity. Qed.

(** X11.  [split_image_to_a4] of [2x2.py], for every source of positive
    size, every prefix and both values of [landscape], when Pillow gets the
    memory for the poster and for a tile.  On a source in a mode JPEG
    stores the call returns; the source is resized to twice the cell on
    each axis; the four JPEG files are written in the order [_11], [_21],
    [_12], [_22] under pairwise different names; each saved tile has the
    cell size and was cropped at [(col * w, row * h)]; and pasting the
    saved tiles back onto a canvas of the mode of the source reproduces the
    resized image pixel for pixel.  On a source in any other mode (RGBA,
    LA, P) the call raises the [OSError] of the first save and no file is
    written.  The cell is the page of [a4_pixels(300)], transposed when
    [landscape]. *)
Theorem split_2x2_any_orientation (alloc : Allocator) (img canvas : Image)
        (prefix : string) (landscape : bool) :
  let cw := fst (Script2x2.a4_cell landscape) in
  let ch := snd (Script2x2.a4_cell landscape) in
  0 < width img -> 0 < height img ->
  alloc (2 * cw) (2 * ch) = true -> alloc cw ch = true ->
  (mode_in (im_mode img) jpeg_modes = true ->
   size canvas = (2 * cw, 2 * ch) -> im_mode canvas = im_mode img ->
   exists tr,
     run (Script2x2.split_image_to_a4 alloc img prefix landscape)
     = (Resize (2 * cw, 2 * ch) LANCZOS :: tr, Ok tt)
     /\ files_written tr
        = [(prefix ++ "_11.jpg")%string; (prefix ++ "_21.jpg")%string;
           (prefix ++ "_12.jpg")%string; (prefix ++ "_22.jpg")%string]
     /\ NoDup (files_written tr)
     /\ map fst (crop_saves tr)
        = map (tile_box cw ch) [(0, 0); (1, 0); (0, 1); (1, 1)]
     /\ Forall (fun t => size (snd t) = (cw, ch)) (crop_saves tr)
     /\ lossless (resized img (2 * cw) (2 * ch) LANCZOS) canvas (crop_saves tr))
  /\ (mode_in (im_mode img) jpeg_modes = false ->
      exists tr e,
        run (Script2x2.split_image_to_a4 alloc img prefix landscape) = (tr, Raise e)
        /\ e = OSError ("cannot write mode " ++ mode_name (im_mode img) ++ " as JPEG")
        /\ files_written tr = [])
  /\ a4_pixels 300 = Ok (if landscape then (ch, cw) else (cw, ch)).
Proof.
  intros cw ch Hw Hh A1 A2.
  assert (Cs : (cw = 3508 /\ ch = 2480) \/ (cw = 2480 /\ ch = 3508))
    by (destruct landscape; [left|right]; split; reflexivity).
  assert (Bw : 0 < cw <= 65500) by (destruct Cs as [[-> ->]|[-> ->]]; lia).
  assert (Bh : 0 < ch <= 65500) by (destruct Cs as [[-> ->]|[-> ->]]; lia).
  assert (Hb : bomb cw ch = false) by (destruct Cs as [[-> ->]|[-> ->]]; reflexivity).
  assert (E : run (Script2x2.split_image_to_a4 alloc img prefix landscape)
              = Script2x2.split_loop alloc (resized img (2 * cw) (2 * ch) LANCZOS)
                  cw ch prefix [Resize (2 * cw, 2 * ch) LANCZOS]).
  { unfold run, Script2x2.split_image_to_a4.
    replace (Script2x2.a4_cell landscape) with (cw, ch)
      by (destruct landscape; reflexivity).
    cbv beta iota. unfold bind.
    replace (cw * 2) with (2 * cw) by lia. replace (ch * 2) with (2 * ch) by lia.
    rewrite resize_run by (try exact A1; change (2 ^ 31) with 2147483648; lia).
    reflexivity. }
  set (poster := resized img (2 * cw) (2 * ch) LANCZOS) in *.
  assert (Pm : im_mode poster = im_mode img) by apply resized_mode.
  split; [|split].
  - intros Hm Hc Hcm.
    rewrite E. rewrite split_loop_trace by (rewrite ?Pm; assumption).
    cbn [app]. eexists. split; [reflexivity|].
    rewrite crop_saves_2x2, files_2x2.
    split; [reflexivity|].
    split; [no_dup_names|].
    split; [rewrite map_map; reflexivity|].
    split; [repeat constructor; apply cropped_tile_size|].
    apply (grid_2x2_lossless poster canvas cw ch [(0, 0); (1, 0); (0, 1); (1, 1)]);
      try (change (2 ^ 30) with 1073741824; lia).
    + apply resized_size.
    + rewrite Hc. symmetry. apply resized_size.
    + congruence.
    + right. reflexivity.
  - intros Hm. rewrite E.
    rewrite split_loop_refused
      by (rewrite ?Pm; try assumption; change (2 ^ 30) with 1073741824; lia).
    do 2 eexists. split; [reflexivity|]. split; [rewrite Pm; reflexivity|reflexivity].
  - destruct landscape; vm_compute; reflexivity.
Qed.

Lemma split_2x2_any_orientation_witness :
  (exists tr,
     run (Script2x2.split_image_to_a4 generous (blank 1000 1500 black) "a4_part" false)
     = (Resize (2 * 2480, 2 * 3508) LANCZOS :: tr, Ok tt)
     /\ files_written tr
        = ["a4_part_11.jpg"; "a4_part_21.jpg"; "a4_part_12.jpg"; "a4_part_22.jpg"]
     /\ NoDup (files_written tr)
     /\ map fst (crop_saves tr)
        = map (tile_box 2480 3508) [(0, 0); (1, 0); (0, 1); (1, 1)]
     /\ Forall (fun t => size (snd t) = (2480, 3508)) (crop_saves tr)
     /\ lossless (resized (blank 1000 1500 black) (2 * 2480) (2 * 3508) LANCZOS)
          (blank 4960 7016 white) (crop_saves tr))
  /\ exists tr e,
       run (Script2x2.split_image_to_a4 generous
              (mkImage 1000 1500 (fun _ _ => black) RGBA) "a4_part" true)
       = (tr, Raise e)
       /\ e = OSError "cannot write mode RGBA as JPEG"
       /\ files_written tr = [].
Proof.
  split.
  - apply (split_2x2_any_orientation generous (blank 1000 1500 black)
             (blank 4960 7016 white) "a4_part" false);
      cbn [blank width height]; (lia || reflexivity).
  - apply (split_2x2_any_orientation generous
             (mkImage 1000 1500 (fun _ _ => black) RGBA) (blank 4960 7016 white)
             "a4_part" true);
      cbn [width height]; (lia || reflexivity).
Defined.

Lemma stack_loop_trace (alloc : Allocator) (img poster : Image) (cw ch : Z)
      (prefix : string) (landscape : bool) :
  Script2x1.a4_cell landscape = (cw, ch) ->
  0 < width img -> 0 < height img ->
  alloc cw (2 * ch) = true -> alloc cw ch = true ->
  poster = resized img cw (2 * ch) LANCZOS ->
  (mode_in (im_mode img) jpeg_modes = true ->
   run (Script2x1.split_image_to_a4 alloc img prefix landscape)
   = (Resize (cw, 2 * ch) LANCZOS :: split_2x1_events poster cw ch prefix, Ok tt))
  /\ (mode_in (im_mode img) jpeg_modes = false ->
      run (Script2x1.split_image_to_a4 alloc img prefix landscape)
      = ([Resize (cw, 2 * ch) LANCZOS; Crop (0, 0, cw, ch)],
         Raise (OSError ("cannot write mode " ++ mode_name (im_mode img) ++ " as JPEG")))).
Proof.
  intros Hc Hw Hh A1 A2 Hp.
  assert (Cs : (cw = 3508 /\ ch = 2480) \/ (cw = 2480 /\ ch = 3508))
    by (destruct landscape; cbn in Hc; [left|right]; split; congruence).
  assert (Bw : 0 < cw <= 65500) by (destruct Cs as [[-> ->]|[-> ->]]; lia).
  assert (Bh : 0 < ch <= 65500) by (destruct Cs as [[-> ->]|[-> ->]]; lia).
  assert (Hb : bomb cw ch = false) by (destruct Cs as [[-> ->]|[-> ->]]; reflexivity).
  assert (Pm : im_mode poster = im_mode img) by (subst poster; apply resized_mode).
  assert (E : run (Script2x1.split_image_to_a4 alloc img prefix landscape)
              = (c1 <- Image_crop alloc poster (0, 0, cw, ch) ;;
                 Image_save c1 "" (prefix ++ "_1.jpg") "JPEG" ;;;
                 c2 <- Image_crop alloc poster (0, ch, cw, ch + ch) ;;
                 Image_save c2 "" (prefix ++ "_2.jpg") "JPEG")
                  [Resize (cw, 2 * ch) LANCZOS]).
  { unfold run, Script2x1.split_image_to_a4. rewrite Hc.
    cbv beta iota. unfold bind at 1.
    replace (cw * 1) with cw by lia. replace (ch * 2) with (2 * ch) by lia.
    rewrite resize_run by (try exact A1; change (2 ^ 31) with 2147483648; lia).
    rewrite <- Hp. cbn [app]. change (range 2) with [0; 1]. cbn [for_fold].
    change (0 * ch) with 0. change (0 + ch) with ch.
    replace (1 * ch) with ch by lia.
    change (0 + 1) with 1. change (1 + 1) with 2.
    unfold bind, ret.
    destruct (Image_crop alloc poster (0, 0, cw, ch) _) as [t1 [c1|e1]]; [|reflexivity].
    destruct (Image_save c1 _ _ _ t1) as [t2 [[]|e2]]; [|reflexivity].
    destruct (Image_crop alloc poster (0, ch, cw, ch + ch) t2) as [t3 [c3|e3]];
      [|reflexivity].
    destruct (Image_save c3 _ _ _ t3) as [t4 [[]|e4]]; reflexivity. }
  rewrite E. unfold bind.
  rewrite (crop_run alloc poster 0 0 cw ch)
    by (rewrite ?Z.sub_0_r; try assumption; change (2 ^ 31) with 2147483648; lia).
  split.
  - intros Hm.
    rewrite save_jpeg_run
      by (rewrite ?cropped_mode, ?Pm; try exact Hm; cbn [cropped width height]; lia).
    rewrite (crop_run alloc poster 0 ch cw (ch + ch))
      by (rewrite ?Z.sub_0_r; replace (ch + ch - ch) with ch by lia;
          try assumption; change (2 ^ 31) with 2147483648; lia).
    rewrite save_jpeg_run
      by (rewrite ?cropped_mode, ?Pm; try exact Hm; cbn [cropped width height]; lia).
    reflexivity.
  - intros Hm.
    rewrite save_jpeg_refused
      by (rewrite ?cropped_mode, ?Pm; try exact Hm; cbn [cropped width height]; lia).
    rewrite cropped_mode, Pm. reflexivity.
Qed.

(** X15.  [split_image_to_a4] of [2x1.py], for every source of positive
    size, every prefix and both values of [landscape], when Pillow gets the
    memory for the poster and for a tile.  On a source in a mode JPEG
    stores the call returns; the source is resized to one cell wide and two
    cells high; the two JPEG files [_1] and [_2] are written under
    different names; tile [i] was cropped at [(0, i * h, w, i * h + h)] and
    has the cell size; and pasting the two tiles back onto a canvas of the
    mode of the source reproduces the resized image pixel for pixel.  On a
    source in any other mode the call raises the [OSError] of the first
    save and no file is written.  The cell is the page of
    [a4_pixels(300)], transposed when [landscape]. *)
Theorem split_2x1_any_orientation (alloc : Allocator) (img canvas : Image)
        (prefix : string) (landscape : bool) :
  let cw := fst (Script2x1.a4_cell landscape) in
  let ch := snd (Script2x1.a4_cell landscape) in
  0 < width img -> 0 < height img ->
  alloc cw (2 * ch) = true -> alloc cw ch = true ->
  (mode_in (im_mode img) jpeg_modes = true ->
   size canvas = (cw, 2 * ch) -> im_mode canvas = im_mode img ->
   exists tr,
     run (Script2x1.split_image_to_a4 alloc img prefix landscape)
     = (Resize (cw, 2 * ch) LANCZOS :: tr, Ok tt)
     /\ files_written tr = [(prefix ++ "_1.jpg")%string; (prefix ++ "_2.jpg")%string]
     /\ NoDup (files_written tr)
     /\ map fst (crop_saves tr) = [(0, 0, cw, ch); (0, ch, cw, 2 * ch)]
     /\ Forall (fun t => size (snd t) = (cw, ch)) (crop_saves tr)
     /\ lossless (resized img cw (2 * ch) LANCZOS) canvas (crop_saves tr))
  /\ (mode_in (im_mode img) jpeg_modes = false ->
      exists tr e,
        run (Script2x1.split_image_to_a4 alloc img prefix landscape) = (tr, Raise e)
        /\ e = OSError ("cannot write mode " ++ mode_name (im_mode img) ++ " as JPEG")
        /\ files_written tr = [])
  /\ a4_pixels 300 = Ok (if landscape then (ch, cw) else (cw, ch)).
Proof.
  intros cw ch Hw Hh A1 A2.
  assert (Hc : Script2x1.a4_cell landscape = (cw, ch))
    by (destruct landscape; reflexivity).
  assert (Cs : (cw = 3508 /\ ch = 2480) \/ (cw = 2480 /\ ch = 3508))
    by (destruct landscape; [left|right]; split; reflexivity).
  assert (Ha : a4_pixels 300 = Ok (if landscape then (ch, cw) else (cw, ch)))
    by (destruct landscape; vm_compute; reflexivity).
  clearbody cw ch.
  destruct (stack_loop_trace alloc img (resized img cw (2 * ch) LANCZOS) cw ch prefix
              landscape Hc Hw Hh A1 A2 eq_refl) as [Tok Tno].
  set (poster := resized img cw (2 * ch) LANCZOS) in *.
  split; [|split].
  - intros Hm Hcs Hcm. rewrite (Tok Hm).
    eexists. split; [reflexivity|].
    split; [reflexivity|].
    split; [cbn [split_2x1_events files_written flat_map app]; no_dup_names|].
    split; [cbn [split_2x1_events crop_saves map fst];
            replace (ch + ch) with (2 * ch) by lia; reflexivity|].
    split; [cbn [split_2x1_events crop_saves]; repeat constructor;
            unfold size; cbn [cropped width height snd]; f_equal; lia|].
    cbn [split_2x1_events crop_saves].
    apply (stack_1x2_lossless poster canvas cw ch);
      try (change (2 ^ 30) with 1073741824; destruct Cs as [[-> ->]|[-> ->]]; lia).
    + apply resized_size.
    + rewrite Hcs. symmetry. apply resized_size.
    + unfold poster. rewrite resized_mode. exact Hcm.
  - intros Hm. rewrite (Tno Hm).
    do 2 eexists. split; [reflexivity|]. split; reflexivity.
  - exact Ha.
Qed.

Lemma split_2x1_any_orientation_witness :
  (exists tr,
     run (Script2x1.split_image_to_a4 generous (blank 1000 1500 black) "a4_part" false)
     = (Resize (2480, 2 * 3508) LANCZOS :: tr, Ok tt)
     /\ files_written tr = ["a4_part_1.jpg"; "a4_part_2.jpg"]
     /\ NoDup (files_written tr)
     /\ map fst (crop_saves tr) = [(0, 0, 2480, 3508); (0, 3508, 2480, 2 * 3508)]
     /\ Forall (fun t => size (snd t) = (2480, 3508)) (crop_saves tr)
     /\ lossless (resized (blank 1000 1500 black) 2480 (2 * 3508) LANCZOS)
          (blank 2480 7016 white) (crop_saves tr))
  /\ exists tr e,
       run (Script2x1.split_image_to_a4 generous
              (mkImage 1000 1500 (fun _ _ => black) Palette) "a4_part" true)
       = (tr, Raise e)
       /\ e = OSError "cannot write mode P as JPEG"
       /\ files_written tr = [].
Proof.
  split.
  - apply (split_2x1_any_orientation generous (blank 1000 1500 black)
             (blank 2480 7016 white) "a4_part" false);
      cbn [blank width height]; (lia || reflexivity).
  - apply (split_2x1_any_orientation generous
             (mkImage 1000 1500 (fun _ _ => black) Palette) (blank 2480 7016 white)
             "a4_part" true);
      cbn [width height]; (lia || reflexivity).
Defined.

(** ** A resolution of zero or below *)

Lemma binary_round_aux_opp (mx ex : Z) (lx : location) :
  binary_round_aux PyFloat.prec PyFloat.emax true mx ex lx
  = SFopp (binary_round_aux PyFloat.prec PyFloat.emax false mx ex lx).
Proof.
  unfold binary_round_aux.
  destruct (shr_fexp _ _ mx ex lx) as [mrs e].
  destruct (shr_fexp _ _ _ e loc_Exact) as [mrs' e'].
  destruct (shr_m mrs'); try reflexivity.
  destruct (_ <=? _); reflexivity.
Qed.

Lemma SFopp_involutive (f : PyFloat.float) : SFopp (SFopp f) = f.
Proof. destruct f as [s|s| |s m e]; cbn; try destruct s; reflexivity. Qed.

Lemma mul_opp_r (mc : positive) (e : Z) (f : PyFloat.float) :
  PyFloat.mul (S754_finite false mc e) (SFopp f)
  = SFopp (PyFloat.mul (S754_finite false mc e) f).
Proof.
  destruct f as [s|s| |s m e']; unfold PyFloat.mul; cbn [SFopp SFmul xorb];
    try reflexivity.
  destruct s; cbn [negb].
  - rewrite binary_round_aux_opp, SFopp_involutive. reflexivity.
  - apply binary_round_aux_opp.
Qed.

Lemma of_int_neg (p : positive) :
  PyFloat.of_int (Zneg p)
  = rbind (PyFloat.of_int (Zpos p)) (fun f => Ok (SFopp f)).
Proof.
  unfold PyFloat.of_int, binary_normalize, binary_round.
  destruct (shl_align p 0 _) as [mz ez].
  rewrite binary_round_aux_opp.
  destruct (binary_round_aux _ _ false _ _ _) as [s|s| |s m e]; reflexivity.
Qed.

Lemma round_opp (f : PyFloat.float) :
  PyFloat.round (SFopp f) = rbind (PyFloat.round f) (fun z => Ok (- z)).
Proof.
  destruct f as [s|s| |[] m e]; cbn [SFopp PyFloat.round rbind negb];
    try reflexivity.
  f_equal. lia.
Qed.

Lemma a4_side_neg (mc : positive) (e : Z) (p : positive) :
  rbind (PyFloat.mul_int (S754_finite false mc e) (Zneg p)) PyFloat.round
  = rbind (rbind (PyFloat.mul_int (S754_finite false mc e) (Zpos p)) PyFloat.round)
      (fun z => Ok (- z)).
Proof.
  unfold PyFloat.mul_int. rewrite of_int_neg.
  destruct (PyFloat.of_int (Zpos p)) as [f|ex]; cbn [rbind]; [|reflexivity].
  rewrite mul_opp_r. apply round_opp.
Qed.

Lemma a4_pixels_nonpos (d : Z) :
  - 2 ^ 31 < d <= 0 ->
  a4_pixels d
  = Ok (- ((2100 * - d + 127) / 254), - ((2970 * - d + 127) / 254)).
Proof.
  intros Hd. destruct d as [|p|p]; [vm_compute; reflexivity|lia|].
  destruct mm_to_inches_values as [Ew Eh].
  unfold a4_pixels. rewrite Ew, Eh. cbn [rbind].
  rewrite !a4_side_neg.
  rewrite (a4_side_exact 4654310638522659 1050 (Zpos p)) by (simpl; lia).
  cbn [rbind].
  rewrite (a4_side_exact 6582525045910617 1485 (Zpos p)) by (simpl; lia).
  reflexivity.
Qed.

Lemma max_nonpos (a b : PyFloat.float) :
  nonpos_shape a -> nonpos_shape b -> nonpos_shape (PyFloat.max a b).
Proof. intros Ha Hb. unfold PyFloat.max. destruct (SFltb a b); assumption. Qed.

(** No poster comes out of a target with both sides at or below zero. *)
Lemma nonpos_target_fails (alloc : Allocator) (img : Image) (tw th : Z)
      (mode : string) :
  0 < width img -> 0 < height img -> tw <= 0 -> th <= 0 ->
  mode = "cover" \/ mode = "contain" ->
  exists tr e,
    run (resize_to_poster alloc img (tw, th) mode) = (tr, Raise e)
    /\ ((e = OverflowError /\ (tr = [] \/ exists sz, tr = [Resize sz LANCZOS]))
        \/ (e = ValueError "height and width must be > 0"
            /\ exists sz, tr = [Resize sz LANCZOS])).
Proof.
  intros Hw Hh Htw Hth Hm.
  assert (S : forall pick : PyFloat.float -> PyFloat.float -> PyFloat.float,
             (forall a b, nonpos_shape a -> nonpos_shape b -> nonpos_shape (pick a b)) ->
             rbind (PyFloat.int_truediv tw (width img)) (fun sx =>
             rbind (PyFloat.int_truediv th (height img)) (fun sy => Ok (pick sx sy)))
             = Raise OverflowError
             \/ exists sc,
                  rbind (PyFloat.int_truediv tw (width img)) (fun sx =>
                  rbind (PyFloat.int_truediv th (height img)) (fun sy =>
                  Ok (pick sx sy))) = Ok sc
                  /\ nonpos_shape sc).
  { intros pick Hpick.
    destruct (PyFloat.int_truediv tw (width img)) as [f1|e1] eqn:E1; cbn [rbind].
    2:{ left. apply SignFacts.int_truediv_raises in E1; [subst; reflexivity|lia]. }
    destruct (PyFloat.int_truediv th (height img)) as [f2|e2] eqn:E2; cbn [rbind].
    2:{ left. apply SignFacts.int_truediv_raises in E2; [subst; reflexivity|lia]. }
    right. eexists. split; [reflexivity|].
    destruct (SignFacts.int_truediv_shape _ _ _ Hw E1) as [_ N1].
    destruct (SignFacts.int_truediv_shape _ _ _ Hh E2) as [_ N2].
    apply Hpick; auto. }
  destruct Hm as [-> | ->]; unfold run, resize_to_poster;
    cbn [String.eqb Ascii.eqb Bool.eqb andb]; cbv iota.
  - unfold cover_scale.
    destruct (S PyFloat.max max_nonpos) as [E | (sc & E & Hsc)].
    + exists [], OverflowError. unfold bind at 1, lift at 1. rewrite E.
      split; [reflexivity|]. left. split; [reflexivity|]. left. reflexivity.
    + unfold bind at 1, lift at 1. rewrite E.
      apply (nonpos_scale_fails alloc img sc
               (fun new_w new_h img_resized =>
                  Image_crop alloc img_resized
                    ((new_w - tw) / 2, (new_h - th) / 2,
                     (new_w - tw) / 2 + tw, (new_h - th) / 2 + th)));
        assumption.
  - unfold contain_scale.
    destruct (S PyFloat.min) as [E | (sc & E & Hsc)].
    { intros a b Ha Hb. unfold PyFloat.min. destruct (SFltb b a); assumption. }
    + exists [], OverflowError. unfold bind at 1, lift at 1. rewrite E.
      split; [reflexivity|]. left. split; [reflexivity|]. left. reflexivity.
    + unfold bind at 1, lift at 1. rewrite E.
      apply (nonpos_scale_fails alloc img sc
               (fun new_w new_h img_resized =>
                  bg <- Image_new alloc (tw, th) white ;;
                  Image_paste bg img_resized ((tw - new_w) / 2, (th - new_h) / 2)));
        assumption.
Qed.

(** X2.  [main] does not check [--dpi].  For a resolution [dpi <= 0] (above
    [-2^31]) [a4_pixels] returns the mirrored sizes
    [- ((2100 * -dpi + 127) // 254)] and [- ((2970 * -dpi + 127) // 254)],
    both at most 0; for every source image of positive size and both
    policies the run of [main] then ends inside [resize_to_poster], with
    [OverflowError] before any Pillow call or in [resize] (a size that is
    no C [int]), or with the [ValueError] of [resize] for a side below 1;
    no file is written. *)
Theorem nonpositive_dpi_writes_nothing (alloc : Allocator) (img : Image)
        (args : Args) :
  0 < width img -> 0 < height img -> - 2 ^ 31 < dpi args <= 0 ->
  mode args = "cover" \/ mode args = "contain" ->
  exists W H tr e,
    a4_pixels (dpi args) = Ok (W, H)
    /\ W = - ((2100 * - dpi args + 127) / 254)
    /\ H = - ((2970 * - dpi args + 127) / 254)
    /\ W <= 0 /\ H <= 0
    /\ run (main alloc img args) = (tr, Raise e)
    /\ files_written tr = []
    /\ ((e = OverflowError /\ (tr = [] \/ exists sz, tr = [Resize sz LANCZOS]))
        \/ (e = ValueError "height and width must be > 0"
            /\ exists sz, tr = [Resize sz LANCZOS])).
Proof.
  intros Hw Hh Hd Hm.
  pose proof (a4_pixels_nonpos (dpi args) Hd) as Ha.
  set (W := - ((2100 * - dpi args + 127) / 254)) in *.
  set (H := - ((2970 * - dpi args + 127) / 254)) in *.
  assert (BW : W <= 0).
  { unfold W. pose proof (Z.div_pos (2100 * - dpi args + 127) 254). lia. }
  assert (BH : H <= 0).
  { unfold H. pose proof (Z.div_pos (2970 * - dpi args + 127) 254). lia. }
  destruct (rgb_or_rgba_sides img) as [Ew Eh].
  destruct (nonpos_target_fails alloc (rgb_or_rgba img) (W * 2) (H * 2) (mode args))
    as (tr & e & Hp & He); rewrite ?Ew, ?Eh; try assumption; try lia.
  exists W, H, tr, e.
  split; [exact Ha|]. split; [reflexivity|]. split; [reflexivity|].
  split; [exact BW|]. split; [exact BH|].
  split; [exact (main_stops_at_poster alloc img args W H tr e Ha Hp)|].
  split; [|exact He].
  destruct He as [[_ [-> | (sz & ->)]] | [_ (sz & ->)]]; reflexivity.
Qed.

Lemma nonpositive_dpi_writes_nothing_witness :
  exists W H tr e,
    a4_pixels (-300) = Ok (W, H)
    /\ W = - ((2100 * - -300 + 127) / 254)
    /\ H = - ((2970 * - -300 + 127) / 254)
    /\ W <= 0 /\ H <= 0
    /\ run (main generous (blank 1000 1500 black)
              (mkArgs "input.jpg" "./tiles" "tile" (-300) "cover" (S754_zero false)))
       = (tr, Raise e)
    /\ files_written tr = []
    /\ ((e = OverflowError /\ (tr = [] \/ exists sz, tr = [Resize sz LANCZOS]))
        \/ (e = ValueError "height and width must be > 0"
            /\ exists sz, tr = [Resize sz LANCZOS])).
Proof.
  apply (nonpositive_dpi_writes_nothing generous (blank 1000 1500 black)
           (mkArgs "input.jpg" "./tiles" "tile" (-300) "cover" (S754_zero false)));
    cbn [blank width height dpi mode]; try (change (2 ^ 31) with 2147483648; lia).
  left. reflexivity.
Defined.

(** ** [main] against [2x2.py] *)

Lemma rgb_or_rgba_rgb (img : Image) : im_mode img = RGB -> rgb_or_rgba img = img.
Proof. intros E. unfold rgb_or_rgba. rewrite E. reflexivity. Qed.

(** Crops of two images of one size that agree inside their bounds. *)
Lemma cropped_ext (p q : Image) (b : box) :
  size p = size q ->
  (forall X Y, in_bounds q X Y = true -> pix p X Y = pix q X Y) ->
  size (cropped p b) = size (cropped q b)
  /\ forall x y, getpixel (cropped p b) x y = getpixel (cropped q b) x y.
Proof.
  intros Hs Hpix. destruct b as [[[l u] r] lo].
  split; [reflexivity|]. intros x y.
  assert (Ew : width p = width q) by (unfold size in Hs; congruence).
  assert (Eh : height p = height q) by (unfold size in Hs; congruence).
  cbv [getpixel in_bounds cropped width height pix].
  fold (width p) (height p) (width q) (height q) (pix p) (pix q).
  rewrite Ew, Eh.
  destruct ((0 <=? x) && (x <? r - l) && (0 <=? y) && (y <? lo - u)); [|reflexivity].
  destruct ((0 <=? x + l) && (x + l <? width q) && (0 <=? y + u) && (y + u <? height q))
    eqn:E; [|reflexivity].
  rewrite (Hpix _ _ E). reflexivity.
Qed.

(** X16.  On an RGB source with the aspect ratio of the 2 x 2 portrait
    poster ([4960 * height = 7016 * width]), when Pillow gets the memory for
    the poster and for a tile, [main] at 300 dpi with the default margin,
    under either policy, and [2x2.py] with [landscape=False] both return
    and cut the same tiles: for every cell of the grid the tile [main]
    returns and the tile [2x2.py] saves for that cell's box have the same
    size, the same mode and the same pixels. *)
Theorem main_agrees_with_split_2x2 (alloc : Allocator) (img : Image) (args : Args)
        (prefix : string) :
  0 < width img < 2 ^ 31 -> 0 < height img < 2 ^ 31 ->
  4960 * height img = 7016 * width img ->
  im_mode img = RGB ->
  alloc 4960 7016 = true -> alloc 2480 3508 = true ->
  dpi args = 300 -> margin_mm args = S754_zero false ->
  mode args = "cover" \/ mode args = "contain" ->
  exists tiles,
    snd (run (main alloc img args)) = Ok tiles
    /\ snd (run (Script2x2.split_image_to_a4 alloc img prefix false)) = Ok tt
    /\ map fst tiles = [(0, 0); (0, 1); (1, 0); (1, 1)]
    /\ forall rc, In rc [(0, 0); (0, 1); (1, 0); (1, 1)] ->
         exists t1 t2,
           In (rc, t1) tiles
           /\ In (tile_box 2480 3508 rc, t2)
                (crop_saves (fst (run (Script2x2.split_image_to_a4 alloc img prefix
                                         false))))
           /\ size t1 = size t2 /\ im_mode t1 = im_mode t2
           /\ forall x y, getpixel t1 x y = getpixel t2 x y.
Proof.
  intros Hw Hh Hr Hrgb A1 A2 Hd Hg Hmode.
  destruct (same_aspect_sizes img 4960 7016 Hw Hh)
    as [Hcs Hns]; try (change (2 ^ 31) with 2147483648; lia).
  assert (Ha : a4_pixels (dpi args) = Ok (2480, 3508))
    by (rewrite Hd; exact a4_pixels_300).
  destruct (resized_sides img 4960 7016 LANCZOS) as [Rw Rh].
  pose proof (resized_mode img 4960 7016 LANCZOS) as Rm.
  set (R := resized img 4960 7016 LANCZOS) in *.
  assert (P : exists tr0 poster,
             run (resize_to_poster alloc (rgb_or_rgba img) (2480 * 2, 3508 * 2)
                    (mode args))
             = (tr0, Ok poster)
             /\ size poster = size R /\ im_mode poster = im_mode R
             /\ forall X Y, in_bounds R X Y = true -> pix poster X Y = pix R X Y).
  { rewrite (rgb_or_rgba_rgb img Hrgb).
    change (2480 * 2) with 4960. change (3508 * 2) with 7016.
    destruct Hmode as [-> | ->].
    - do 2 eexists.
      split; [apply (run_cover alloc img 4960 7016 4960 7016 Hcs);
              try assumption; try reflexivity;
              change (2 ^ 31) with 2147483648; lia|].
      fold R.
      split; [unfold size; cbn [cover_box cropped width height]; rewrite Rw, Rh;
              reflexivity|].
      split; [reflexivity|].
      intros X Y E. cbv [cover_box cropped pix].
      change ((4960 - 4960) / 2) with 0. change ((7016 - 7016) / 2) with 0.
      rewrite !Z.add_0_r, E. reflexivity.
    - do 2 eexists.
      split; [apply (run_contain alloc img 4960 7016 4960 7016 Hns);
              try assumption; change (2 ^ 31) with 2147483648; lia|].
      fold R.
      split; [unfold size; cbn [pasted blank width height]; rewrite Rw, Rh;
              reflexivity|].
      split; [cbn [pasted blank im_mode]; congruence|].
      intros X Y E. cbv [pasted blank pix im_mode].
      fold (pix R) (im_mode R).
      change ((4960 - 4960) / 2) with 0. change ((7016 - 7016) / 2) with 0.
      rewrite !Z.sub_0_r, E, Rm, Hrgb. apply paste_pixel_same. }
  destruct P as (tr0 & poster & Hp & Hsz & Hpm & Hpix).
  exists (tiles_of poster 2480 3508).
  split.
  { rewrite (main_files alloc img args 2480 3508 tr0 poster Ha)
      by (try assumption; try reflexivity; try (rewrite Hd; exact png_tag_300);
          change (2 ^ 30) with 1073741824; lia).
    rewrite Hg, pdf_page_a4_300. reflexivity. }
  assert (E : run (Script2x2.split_image_to_a4 alloc img prefix false)
              = ([Resize (4960, 7016) LANCZOS] ++ split_2x2_events R 2480 3508 prefix,
                 Ok tt)).
  { unfold run, Script2x2.split_image_to_a4. cbn [Script2x2.a4_cell].
    cbv beta iota. unfold bind.
    change (2480 * 2) with 4960. change (3508 * 2) with 7016.
    rewrite resize_run by (try exact A1; change (2 ^ 31) with 2147483648; lia).
    fold R. apply split_loop_trace; try assumption; try reflexivity; try lia.
    rewrite Rm, Hrgb. reflexivity. }
  rewrite E. cbn [fst snd app].
  split; [reflexivity|]. split; [reflexivity|].
  change (crop_saves (Resize (4960, 7016) LANCZOS :: split_2x2_events R 2480 3508 prefix))
    with (crop_saves (split_2x2_events R 2480 3508 prefix)).
  rewrite crop_saves_2x2.
  intros rc Hin.
  exists (cropped poster (tile_box 2480 3508 rc)), (cropped R (tile_box 2480 3508 rc)).
  split.
  { apply (in_map (fun rc => (rc, cropped poster (tile_box 2480 3508 rc)))), Hin. }
  split.
  { apply (in_map (fun rc => (tile_box 2480 3508 rc, cropped R (tile_box 2480 3508 rc)))).
    cbn [In] in *. tauto. }
  destruct (cropped_ext poster R (tile_box 2480 3508 rc) Hsz Hpix) as [S1 S2].
  split; [exact S1|]. split; [rewrite !cropped_mode; exact Hpm|exact S2].
Qed.

Lemma main_agrees_with_split_2x2_witness :
  exists tiles,
    snd (run (main generous (blank 1240 1754 black)
                (mkArgs "input.jpg" "./tiles" "tile" 300 "contain" (S754_zero false))))
    = Ok tiles
    /\ snd (run (Script2x2.split_image_to_a4 generous (blank 1240 1754 black)
                   "a4_part" false)) = Ok tt
    /\ map fst tiles = [(0, 0); (0, 1); (1, 0); (1, 1)]
    /\ forall rc, In rc [(0, 0); (0, 1); (1, 0); (1, 1)] ->
         exists t1 t2,
           In (rc, t1) tiles
           /\ In (tile_box 2480 3508 rc, t2)
                (crop_saves (fst (run (Script2x2.split_image_to_a4 generous
                                         (blank 1240 1754 black) "a4_part" false))))
           /\ size t1 = size t2 /\ im_mode t1 = im_mode t2
           /\ forall x y, getpixel t1 x y = getpixel t2 x y.
Proof.
  apply (main_agrees_with_split_2x2 generous (blank 1240 1754 black)
           (mkArgs "input.jpg" "./tiles" "tile" 300 "contain" (S754_zero false))
           "a4_part");
    cbn [blank width height dpi mode margin_mm im_mode];
    try (change (2 ^ 31) with 2147483648; lia); try reflexivity.
  right. reflexivity.
Defined.
